(** * Threat-intelligence aggregation and monitoring engine

    A shallow embedding of the core of the platform's backend:
    - [app/services/dynamic_api_client.py]  (the template adapter),
    - [app/services/ioc_service.py]  (the query orchestrator, [IOCService]),
    - [app/services/cache.py], [app/services/redis_cache.py]  (the caches),
    - [app/services/scheduler.py]  (the watchlist scheduler),
    - [app/core/encryption.py]  (the secret store),
    together with the properties the specification states about them.

    A Python [str] is the [string] of its UTF-8 bytes, [Optional[T]] is
    [option T], a [dict] is an association list in insertion order,
    Python floats are IEEE-754 binary64 values ([spec_float] at precision
    53 and exponent bound 1024), the clock and the timestamps the code
    writes are instants in microseconds, a timestamp read back from the
    database is a [datetime] that is timezone-aware or naive, and an
    exception is an explicit [Raise] result.  The
    state the code reads and writes (tables, the SQLAlchemy session, the
    two cache tiers, the clock) is a record [World] passed along, with a
    trace of the observable events.  What the code consumes as a
    capability of a library or of the deployment (the HTTP exchange, the
    JSON and JSONPath parsers, Fernet decryption, the database accepting
    or rejecting a write) is a field of the record [Env]. *)

From Stdlib Require Import List String Ascii Bool ZArith Lia SpecFloat.
Import ListNotations.
Local Open Scope string_scope.
Local Open Scope Z_scope.

Set Implicit Arguments.
Set Warnings "-register-all".

(** ** Python helpers *)

Module Py.

(** [str.lower()]: the ASCII letters; the bytes of other characters are
    left as they are. *)
Definition lower_ascii (c : ascii) : ascii :=
  let n := nat_of_ascii c in
  if (Nat.leb 65 n && Nat.leb n 90)%bool then ascii_of_nat (n + 32) else c.

Fixpoint lower (s : string) : string :=
  match s with
  | EmptyString => EmptyString
  | String c s' => String (lower_ascii c) (lower s')
  end.

(** [str.upper()]: the ASCII letters; the bytes of other characters are
    left as they are. *)
Definition upper_ascii (c : ascii) : ascii :=
  let n := nat_of_ascii c in
  if (Nat.leb 97 n && Nat.leb n 122)%bool then ascii_of_nat (n - 32) else c.

Fixpoint upper (s : string) : string :=
  match s with
  | EmptyString => EmptyString
  | String c s' => String (upper_ascii c) (upper s')
  end.

(** [s.replace(old, new)] for a non-empty [old]: every occurrence, left
    to right, without overlap.  [skip] counts the characters of a match
    still to be dropped. *)
Fixpoint replace_from (old new : string) (skip : nat) (s : string) : string :=
  match s with
  | EmptyString => EmptyString
  | String c s' =>
      match skip with
      | S k => replace_from old new k s'
      | O =>
          if String.prefix old s
          then new ++ replace_from old new (Nat.pred (String.length old)) s'
          else String c (replace_from old new O s')
      end
  end.

Definition replace (old new s : string) : string := replace_from old new O s.

(** [s.rstrip('/')] *)
Fixpoint lstrip_slash (s : string) : string :=
  match s with
  | String "/"%char s' => lstrip_slash s'
  | _ => s
  end.

(** The characters [str.strip()] removes are the Unicode white space:
    U+0009..U+000D, U+001C..U+0020, U+0085, U+00A0, U+1680,
    U+2000..U+200A, U+2028, U+2029, U+202F, U+205F and U+3000.  In UTF-8
    the first group is one byte each. *)
Definition is_space (c : ascii) : bool :=
  let n := nat_of_ascii c in
  ((Nat.leb 9 n && Nat.leb n 13) || (Nat.leb 28 n && Nat.leb n 32))%bool.

(** U+0085 is [C2 85] and U+00A0 is [C2 A0]. *)
Definition is_space2 (a b : ascii) : bool :=
  let x := nat_of_ascii a in
  let y := nat_of_ascii b in
  (Nat.eqb x 194 && (Nat.eqb y 133 || Nat.eqb y 160))%bool.

(** U+1680 is [E1 9A 80]; U+2000..U+200A are [E2 80 80] to [E2 80 8A];
    U+2028, U+2029 and U+202F are [E2 80 A8], [E2 80 A9] and [E2 80 AF];
    U+205F is [E2 81 9F]; U+3000 is [E3 80 80]. *)
Definition is_space3 (a b c : ascii) : bool :=
  let x := nat_of_ascii a in
  let y := nat_of_ascii b in
  let z := nat_of_ascii c in
  ((Nat.eqb x 225 && Nat.eqb y 154 && Nat.eqb z 128)
   || (Nat.eqb x 226 && Nat.eqb y 128
       && ((Nat.leb 128 z && Nat.leb z 138)
           || Nat.eqb z 168 || Nat.eqb z 169 || Nat.eqb z 175))
   || (Nat.eqb x 226 && Nat.eqb y 129 && Nat.eqb z 159)
   || (Nat.eqb x 227 && Nat.eqb y 128 && Nat.eqb z 128))%bool.

Fixpoint lstrip (s : string) : string :=
  match s with
  | EmptyString => EmptyString
  | String a s1 =>
      if is_space a then lstrip s1
      else
        match s1 with
        | EmptyString => s
        | String b s2 =>
            if is_space2 a b then lstrip s2
            else
              match s2 with
              | EmptyString => s
              | String c s3 => if is_space3 a b c then lstrip s3 else s
              end
        end
  end.

(** The same on the reversed text, whose bytes come last first. *)
Fixpoint lstrip_reversed (s : string) : string :=
  match s with
  | EmptyString => EmptyString
  | String c s1 =>
      if is_space c then lstrip_reversed s1
      else
        match s1 with
        | EmptyString => s
        | String b s2 =>
            if is_space2 b c then lstrip_reversed s2
            else
              match s2 with
              | EmptyString => s
              | String a s3 =>
                  if is_space3 a b c then lstrip_reversed s3 else s
              end
        end
  end.

Fixpoint rev_string (s acc : string) : string :=
  match s with
  | EmptyString => acc
  | String c s' => rev_string s' (String c acc)
  end.

Definition rstrip (s : string) : string :=
  rev_string (lstrip_reversed (rev_string s EmptyString)) EmptyString.

Definition strip (s : string) : string := rstrip (lstrip s).

Definition rstrip_slash (s : string) : string :=
  rev_string (lstrip_slash (rev_string s EmptyString)) EmptyString.

(** [len(s)]: the number of code points, that is of the bytes that do
    not continue a UTF-8 sequence ([10xxxxxx]). *)
Definition continues (c : ascii) : bool :=
  let n := nat_of_ascii c in (Nat.leb 128 n && Nat.leb n 191)%bool.

Fixpoint len (s : string) : nat :=
  match s with
  | EmptyString => O
  | String c s' => if continues c then len s' else S (len s')
  end.

(** [s.isascii()] *)
Fixpoint isascii (s : string) : bool :=
  match s with
  | EmptyString => true
  | String c s' => (Nat.ltb (nat_of_ascii c) 128 && isascii s')%bool
  end.

(** Truthiness of a [str]: the empty string is falsy. *)
Definition truthy (s : string) : bool :=
  match s with EmptyString => false | _ => true end.

(** Truthiness of an [Optional[str]]: [None] and the empty string are falsy. *)
Definition truthy_opt (o : option string) : bool :=
  match o with Some s => truthy s | None => false end.

(** [o or default] for an [Optional[str]]. *)
Definition or_else (o : option string) (default : string) : string :=
  match o with
  | Some s => if truthy s then s else default
  | None => default
  end.

(** [x in xs] for strings. *)
Definition mem (x : string) (xs : list string) : bool :=
  existsb (String.eqb x) xs.

Definition is_some {A} (o : option A) : bool :=
  match o with Some _ => true | None => false end.

(** Truthiness of a list. *)
Definition nonempty {A} (l : list A) : bool :=
  match l with [] => false | _ => true end.

End Py.

(** ** Python floats: IEEE-754 binary64 *)

Module Float64.

Definition float := spec_float.

Definition prec : Z := 53.
Definition emax : Z := 1024.

Definition add (x y : float) : float := SFadd prec emax x y.
Definition div (x y : float) : float := SFdiv prec emax x y.

(** [x >= y] and [x < y] on floats; both are false when an operand is
    NaN. *)
Definition ge (x y : float) : bool := SFleb y x.
Definition lt (x y : float) : bool := SFltb x y.

(** [float(n)] for an [int]. *)
Definition of_int (n : Z) : float := binary_normalize prec emax n 0 false.

Definition zero : float := S754_zero false.

(** The literals of the source, rounded to nearest as the Python parser
    does:  0.8 = 0x1.999999999999ap-1,  0.5 = 0x1p-1,
    0.2 = 0x1.999999999999ap-3,  and so on. *)
Definition f0_8 : float := S754_finite false 7205759403792794 (-53).
Definition f0_5 : float := S754_finite false 4503599627370496 (-53).
Definition f0_2 : float := S754_finite false 7205759403792794 (-55).
Definition f0_9 : float := S754_finite false 8106479329266893 (-53).
Definition f0_6 : float := S754_finite false 5404319552844595 (-53).
Definition f0_3 : float := S754_finite false 5404319552844595 (-54).
Definition f0_1 : float := S754_finite false 7205759403792794 (-56).

(** [sum(xs)]: the builtin starts from the integer [0] and adds the
    items from the left.  (CPython 3.12 and later carry a compensation
    term along; the theorems below hold for either way of summing.) *)
Definition sum (xs : list float) : float := fold_left add xs zero.

End Float64.

(** ** Results and exceptions *)

(** A Python exception: its class and its message ([str(e)]). *)
Record exn := Exn { exn_class : string; exn_msg : string }.

Inductive result (A : Type) : Type :=
| Ok (a : A)
| Raise (e : exn).
Arguments Ok {A} a.
Arguments Raise {A} e.

Definition bind {A B} (r : result A) (k : A -> result B) : result B :=
  match r with
  | Ok a => k a
  | Raise e => Raise e
  end.

Notation "x <- r ;; k" := (bind r (fun x => k))
  (at level 61, r at next level, right associativity).

Fixpoint mapM {A B} (f : A -> result B) (l : list A) : result (list B) :=
  match l with
  | [] => Ok []
  | a :: l' => b <- f a ;; bs <- mapM f l' ;; Ok (b :: bs)
  end.

(** ** JSON values (what [json.loads] returns and JSON columns hold) *)

Inductive json : Type :=
| JNull
| JBool (b : bool)
| JInt (n : Z)
| JFloat (f : Float64.float)
| JStr (s : string)
| JArr (items : list json)
| JObj (fields : list (string * json)).

Module Json.

(** A Python [dict] with string keys, in insertion order. *)
Definition dict := list (string * json).

(** [d.get(k)]: [None] when the key is absent. *)
Fixpoint get {V} (k : string) (d : list (string * V)) : option V :=
  match d with
  | [] => None
  | (k', v) :: d' => if String.eqb k k' then Some v else get k d'
  end.

(** [d[k] = v]. *)
Fixpoint set {V} (k : string) (v : V) (d : list (string * V))
  : list (string * V) :=
  match d with
  | [] => [(k, v)]
  | (k', v') :: d' =>
      if String.eqb k k' then (k, v) :: d' else (k', v') :: set k v d'
  end.

(** Truthiness of a decoded JSON value. *)
Definition truthy (j : json) : bool :=
  match j with
  | JNull => false
  | JBool b => b
  | JInt n => negb (n =? 0)
  | JFloat f => match f with S754_zero _ => false | _ => true end
  | JStr s => Py.truthy s
  | JArr l => Py.nonempty l
  | JObj d => Py.nonempty d
  end.

End Json.

(** ** Data model *)

(** [app/schemas/ioc.py] *)
Record IOCSourceResult := {
  source : string;
  status : string;
  risk_score : option Float64.float;
  description : option string;
  raw : option Json.dict
}.

Record IOCQueryRequest := {
  req_ioc_type : string;
  req_ioc_value : string;
  req_sources : option (list string)
}.

Record IOCQueryResponse := {
  ioc_type : string;
  ioc_value : string;
  overall_risk : option string;
  queried_sources : list IOCSourceResult;
  queried_at : Z
}.

(** [app/models/api_source.py] *)
Inductive AuthenticationType :=
| API_KEY | BASIC_AUTH | BEARER_TOKEN | OAUTH | NONE.

Definition AuthenticationType_value (a : AuthenticationType) : string :=
  match a with
  | API_KEY => "api_key"
  | BASIC_AUTH => "basic_auth"
  | BEARER_TOKEN => "bearer_token"
  | OAUTH => "oauth"
  | NONE => "none"
  end.

Definition AuthenticationType_eqb (a b : AuthenticationType) : bool :=
  String.eqb (AuthenticationType_value a) (AuthenticationType_value b).

Inductive UpdateMode := MANUAL | AUTO.

Definition UpdateMode_eqb (a b : UpdateMode) : bool :=
  match a, b with
  | MANUAL, MANUAL | AUTO, AUTO => true
  | _, _ => false
  end.

Record APISource := {
  src_id : string;
  src_name : string;
  src_display_name : string;
  src_base_url : string;
  src_supported_ioc_types : option (list string);
  src_authentication_type : AuthenticationType;
  src_request_config : option Json.dict;
  src_response_config : option Json.dict;
  src_is_active : bool
}.

Record APIKey := {
  key_id : string;
  key_user_id : string;
  key_api_source_id : string;
  key_api_key : option string;
  key_username : option string;
  key_password : option string;
  key_api_url : option string;
  key_is_active : bool;
  key_update_mode : UpdateMode;
  key_last_used : option Z
}.

(** [app/models/watchlist.py], [app/models/alert.py] *)
Inductive RiskThreshold := T_LOW | T_MEDIUM | T_HIGH | T_CRITICAL.

Inductive IOCStatus := CLEAN | SUSPICIOUS | MALICIOUS.

Inductive AlertSeverity := S_LOW | S_MEDIUM | S_HIGH | S_CRITICAL.

Record AssetWatchlist := {
  wl_id : string;
  wl_user_id : string;
  wl_is_active : bool;
  wl_notification_enabled : bool;
  wl_check_interval : Z
}.

(** A [datetime] in microseconds since the epoch.  It is aware when it
    carries a time zone, as [datetime.now(timezone.utc)] does and as
    PostgreSQL returns a [DateTime(timezone=True)] column; it is naive as
    SQLite, the default database, returns every stored timestamp (the
    UTC wall clock). *)
Inductive datetime := Aware (instant : Z) | Naive (instant : Z).

Definition instant_of (d : datetime) : Z :=
  match d with Aware t | Naive t => t end.

Definition is_aware (d : datetime) : bool :=
  match d with Aware _ => true | Naive _ => false end.

Record AssetWatchlistItem := {
  item_id : string;
  item_watchlist_id : string;
  item_ioc_type : string;
  item_ioc_value : string;
  item_risk_threshold : option RiskThreshold;
  item_last_check_date : option datetime;
  item_last_risk_score : option string;
  item_last_status : option IOCStatus;
  item_is_active : bool
}.

(** ** Persistence: rows written through the SQLAlchemy session *)

(** [app/models/ioc_query.py] *)
Record IOCQueryRow := {
  q_id : string;
  q_user_id : string;
  q_ioc_type : string;
  q_ioc_value : string;
  q_query_date : Z;
  q_results_overall_risk : option string;
  q_results_queried_sources : list IOCSourceResult;
  q_risk_score : option Float64.float;
  q_status : string
}.

Record ThreatIntelligenceDataRow := {
  td_id : string;
  td_ioc_query_id : string;
  td_source_api : string;
  td_raw_data_json : option Json.dict;
  td_processed_status : string;
  td_processed_risk_score : option Float64.float;
  td_processed_description : option string;
  td_confidence_score : option Float64.float
}.

Record AssetCheckHistoryRow := {
  h_id : string;
  h_watchlist_item_id : string;
  h_check_date : Z;
  h_risk_score : option string;
  h_status : option IOCStatus;
  h_queried_sources : list IOCSourceResult;
  h_sources_checked : list string;
  h_alert_triggered : bool
}.

Record AlertRow := {
  a_id : string;
  a_user_id : string;
  a_watchlist_id : string;
  a_asset_id : string;
  a_severity : AlertSeverity;
  a_title : string;
  a_message : string;
  a_created_at : Z
}.

(** A unit of work held by the session: a new object passed to [db.add],
    or an attribute assignment on a loaded object. *)
Inductive Row :=
| RIOCQuery (r : IOCQueryRow)
| RThreatData (r : ThreatIntelligenceDataRow)
| RKeyLastUsed (key : string) (at_time : Z)
| RItemUpdate (item : string) (last_check_date : Z)
    (last_risk_score : option string) (last_status : option IOCStatus)
| RCheckHistory (r : AssetCheckHistoryRow)
| RAlert (r : AlertRow).

(** ** The HTTP exchange ([requests.request]) *)

Record Request := {
  rq_method : string;
  rq_url : string;
  rq_headers : list (string * string);
  rq_params : option (list (string * string));
  rq_json : option json;
  rq_auth : option (string * string);
  rq_timeout : Z
}.

Inductive HttpOutcome :=
| HttpTimeout                                (* requests.exceptions.Timeout *)
| HttpRequestException (msg : string)        (* connection, DNS, bad URL *)
| HttpOtherException (msg : string)          (* any other Exception *)
| HttpResponse (status_code : Z) (text : string).

(** ** Observable events *)

Inductive Event :=
| EvHttp (r : Request)
| EvQueryIOC (user_id : string) (payload : IOCQueryRequest)
    (auto_mode_only : bool)
| EvCheckItem (item : string).

(** An entry of the shared cache tier: the stored JSON either validates
    as an [IOCQueryResponse] or does not. *)
Inductive RedisEntry :=
| RedisParsed (r : IOCQueryResponse)
| RedisMalformed.

(** ** The state the engine runs against *)

Record World := {
  w_now : Z;                     (* datetime.now(timezone.utc), microseconds *)
  w_api_sources : list APISource;
  w_api_keys : list APIKey;
  w_watchlists : list AssetWatchlist;
  w_items : list AssetWatchlistItem;
  w_pending : list Row;          (* session: added or dirty, not flushed *)
  w_flushed : list Row;          (* flushed inside the open transaction *)
  w_committed : list Row;        (* committed writes, oldest first *)
  w_writes : nat;                (* flush/commit statements issued so far *)
  w_uuids : nat;                 (* uuid4() values drawn so far *)
  w_redis : option (list (string * (RedisEntry * Z)));
                                 (* None: no client; entry, expiry instant *)
  w_mem : list ((string * string) * (IOCQueryResponse * Z));
  w_trace : list Event           (* oldest first *)
}.

Definition set_session (pending flushed committed : list Row) (writes : nat)
  (w : World) : World :=
  {| w_now := w_now w; w_api_sources := w_api_sources w;
     w_api_keys := w_api_keys w; w_watchlists := w_watchlists w;
     w_items := w_items w; w_pending := pending; w_flushed := flushed;
     w_committed := committed; w_writes := writes; w_uuids := w_uuids w;
     w_redis := w_redis w; w_mem := w_mem w; w_trace := w_trace w |}.

Definition set_uuids (n : nat) (w : World) : World :=
  {| w_now := w_now w; w_api_sources := w_api_sources w;
     w_api_keys := w_api_keys w; w_watchlists := w_watchlists w;
     w_items := w_items w; w_pending := w_pending w;
     w_flushed := w_flushed w; w_committed := w_committed w;
     w_writes := w_writes w; w_uuids := n;
     w_redis := w_redis w; w_mem := w_mem w; w_trace := w_trace w |}.

Definition set_redis (r : option (list (string * (RedisEntry * Z))))
  (w : World)
  : World :=
  {| w_now := w_now w; w_api_sources := w_api_sources w;
     w_api_keys := w_api_keys w; w_watchlists := w_watchlists w;
     w_items := w_items w; w_pending := w_pending w;
     w_flushed := w_flushed w; w_committed := w_committed w;
     w_writes := w_writes w; w_uuids := w_uuids w;
     w_redis := r; w_mem := w_mem w; w_trace := w_trace w |}.

Definition set_mem (m : list ((string * string) * (IOCQueryResponse * Z)))
  (w : World) : World :=
  {| w_now := w_now w; w_api_sources := w_api_sources w;
     w_api_keys := w_api_keys w; w_watchlists := w_watchlists w;
     w_items := w_items w; w_pending := w_pending w;
     w_flushed := w_flushed w; w_committed := w_committed w;
     w_writes := w_writes w; w_uuids := w_uuids w;
     w_redis := w_redis w; w_mem := m; w_trace := w_trace w |}.

Definition emit (e : Event) (w : World) : World :=
  {| w_now := w_now w; w_api_sources := w_api_sources w;
     w_api_keys := w_api_keys w; w_watchlists := w_watchlists w;
     w_items := w_items w; w_pending := w_pending w;
     w_flushed := w_flushed w; w_committed := w_committed w;
     w_writes := w_writes w; w_uuids := w_uuids w;
     w_redis := w_redis w; w_mem := w_mem w; w_trace := w_trace w ++ [e] |}.

(** ** The collaborators consumed as opaque capabilities *)

Record Env := {
  (** [requests.request(...)]: the outcome of one HTTP exchange. *)
  requests_request : Request -> HttpOutcome;
  (** The message of the [HTTPError] that [raise_for_status] builds. *)
  http_error_text : Z -> string -> string;
  (** [json.loads] / [response.json()]; [None] is a decoding error. *)
  json_loads : string -> option json;
  (** [jsonpath_ng.parse(path).find(data)], the matched values in order;
      [None] is any exception of the library. *)
  jsonpath_find : string -> json -> option (list json);
  (** Fernet decryption with the configured key; [None] is a failure. *)
  fernet_decrypt : string -> option string;
  (** [float(s)] for a string; [None] is a [ValueError]. *)
  float_of_string : string -> option Float64.float;
  (** [str(x)] for a decoded JSON value. *)
  py_str : json -> string;
  (** The values [uuid4()] returns, in order. *)
  uuid4 : nat -> string;
  (** Fault plan of the database: whether the n-th write statement
      (flush or commit) issued through the session is rejected. *)
  db_fault : nat -> bool;
  (** [settings.watchlist_scheduler_min_check_interval] *)
  watchlist_scheduler_min_check_interval : Z
}.

(** ** The session ([sqlalchemy.orm.Session], autoflush disabled) *)

Module Session.

Definition add (r : Row) (w : World) : World :=
  set_session (w_pending w ++ [r]) (w_flushed w) (w_committed w)
    (w_writes w) w.

Definition flush (env : Env) (w : World) : result unit * World :=
  if db_fault env (w_writes w) then
    (Raise (Exn "SQLAlchemyError" "flush failed"),
     set_session (w_pending w) (w_flushed w) (w_committed w)
       (S (w_writes w)) w)
  else
    (Ok tt,
     set_session [] (w_flushed w ++ w_pending w) (w_committed w)
       (S (w_writes w)) w).

Definition commit (env : Env) (w : World) : result unit * World :=
  if db_fault env (w_writes w) then
    (Raise (Exn "SQLAlchemyError" "commit failed"),
     set_session (w_pending w) (w_flushed w) (w_committed w)
       (S (w_writes w)) w)
  else
    (Ok tt,
     set_session [] [] (w_committed w ++ w_flushed w ++ w_pending w)
       (S (w_writes w)) w).

Definition rollback (w : World) : World :=
  set_session [] [] (w_committed w) (w_writes w) w.

End Session.

(** [str(uuid4())] *)
Definition fresh_uuid (env : Env) (w : World) : string * World :=
  (uuid4 env (w_uuids w), set_uuids (S (w_uuids w)) w).

(** ** The template adapter: [app/services/dynamic_api_client.py] *)

Module DynamicAPIClient.

Record t := {
  api_source : APISource;
  api_key : string;
  username : option string;
  password : option string;
  base_url : string;
  request_config : Json.dict;
  response_config : Json.dict
}.

(** The dictionary [query] returns.  A field is [None] when the key is
    absent; Python's [None] as a value is [JNull]. *)
Record QueryResultDict := {
  d_source : string;
  d_ioc_type : string;
  d_ioc_value : string;
  d_status : string;
  d_raw : option json;
  d_risk_score : option json;
  d_data : option json;
  d_http_status : option Z;
  d_error : option string
}.

Definition or_empty (o : option Json.dict) : Json.dict :=
  match o with Some d => d | None => [] end.

(** [__init__] *)
Definition init (api_source : APISource) (api_key : string)
  (username password api_url_override : option string) : t :=
  {| api_source := api_source;
     api_key := api_key;
     username := username;
     password := password;
     base_url := Py.or_else api_url_override (src_base_url api_source);
     request_config := or_empty (src_request_config api_source);
     response_config := or_empty (src_response_config api_source) |}.

Definition no_attribute {A} (attr : string) : result A :=
  Raise (Exn "AttributeError" attr).

(** [template.replace(...)] is defined on strings only. *)
Definition as_template (j : json) : result string :=
  match j with
  | JStr s => Ok s
  | _ => no_attribute "replace"
  end.

(** [if self.username: v = v.replace("{username}", self.username)] and
    the same for the password. *)
Definition replace_login (self : t) (value : string) : string :=
  let value :=
    match username self with
    | Some u => if Py.truthy u then Py.replace "{username}" u value else value
    | None => value
    end in
  match password self with
  | Some p => if Py.truthy p then Py.replace "{password}" p value else value
  | None => value
  end.

Definition replace_ioc (ioc_type ioc_value value : string) : string :=
  Py.replace "{ioc_value}" ioc_value (Py.replace "{ioc_type}" ioc_type value).

Definition _build_url (self : t) (ioc_type ioc_value : string)
  : result string :=
  endpoint_template <-
    match Json.get "endpoint_template" (request_config self) with
    | Some j => as_template j
    | None => Ok "/{ioc_type}/{ioc_value}"
    end ;;
  let endpoint := replace_ioc ioc_type ioc_value endpoint_template in
  Ok (Py.rstrip_slash (base_url self) ++ endpoint).

(** [d.items()] of a configured value: only a [dict] has items. *)
Definition items_of (j : option json) : result Json.dict :=
  match j with
  | None => Ok []
  | Some (JObj d) => Ok d
  | Some _ => no_attribute "items"
  end.

Definition _build_headers (self : t) : result (list (string * string)) :=
  headers <- items_of (Json.get "headers" (request_config self)) ;;
  mapM (fun kv : string * json =>
          value_template <- as_template (snd kv) ;;
          let value := Py.replace "{api_key}" (api_key self) value_template in
          Ok (fst kv, replace_login self value))
       headers.

Definition _build_params (self : t) (ioc_type ioc_value : string)
  : result (list (string * string)) :=
  params <- items_of (Json.get "query_params" (request_config self)) ;;
  mapM (fun kv : string * json =>
          value_template <- as_template (snd kv) ;;
          let value :=
            replace_ioc ioc_type ioc_value
              (Py.replace "{api_key}" (api_key self) value_template) in
          Ok (fst kv, replace_login self value))
       params.

Definition _build_body (env : Env) (self : t) (ioc_type ioc_value : string)
  : option json :=
  match Json.get "body_template" (request_config self) with
  | None => None
  | Some body_template =>
      if negb (Json.truthy body_template) then None
      else
        match body_template with
        | JStr s =>
            let body_str :=
              replace_login self
                (replace_ioc ioc_type ioc_value
                   (Py.replace "{api_key}" (api_key self) s)) in
            match json_loads env body_str with
            | Some j => Some j
            | None => Some (JObj [("value", JStr body_str)])
            end
        | JObj d =>
            Some (JObj
              (map (fun kv : string * json =>
                      match snd kv with
                      | JStr value =>
                          (fst kv,
                           JStr (replace_ioc ioc_type ioc_value
                                   (Py.replace "{api_key}" (api_key self)
                                      value)))
                      | value => (fst kv, value)
                      end) d))
        | _ => None
        end
  end.

(** [_extract_value]: the first match of the path, [None] when the path
    is falsy, matches nothing, or the JSONPath library raises. *)
Definition _extract_value (env : Env) (data : json) (json_path : json)
  : json :=
  if negb (Json.truthy json_path) then JNull
  else
    match json_path with
    | JStr p =>
        match jsonpath_find env p data with
        | Some (m :: _) => m
        | _ => JNull
        end
    | _ => JNull
    end.

Definition extract_if_configured (env : Env) (self : t) (key : string)
  (response_data : json) : option json :=
  match Json.get key (response_config self) with
  | Some path =>
      if Json.truthy path then Some (_extract_value env response_data path)
      else None
  | None => None
  end.

(** [_parse_response]: the keys [raw], [risk_score], [status], [data]. *)
Record Parsed := {
  p_raw : json;
  p_risk_score : option json;
  p_status : option json;
  p_data : option json
}.

Definition _parse_response (env : Env) (self : t) (response_data : json)
  : Parsed :=
  let data_path :=
    match Json.get "data_path" (response_config self) with
    | Some j => j
    | None => JStr "$"
    end in
  {| p_raw := response_data;
     p_risk_score :=
       extract_if_configured env self "risk_score_path" response_data;
     p_status := extract_if_configured env self "status_path" response_data;
     p_data :=
       if Json.truthy data_path then
         let v := _extract_value env response_data data_path in
         Some (if Json.truthy v then v else response_data)
       else None |}.

Definition failure (self : t) (ioc_type ioc_value status error : string)
  : QueryResultDict :=
  {| d_source := src_name (api_source self);
     d_ioc_type := ioc_type;
     d_ioc_value := ioc_value;
     d_status := status;
     d_raw := None;
     d_risk_score := None;
     d_data := None;
     d_http_status := None;
     d_error := Some error |}.

(** [response.raise_for_status()] raises for 4xx and 5xx codes. *)
Definition raises_for_status (status_code : Z) : bool :=
  ((400 <=? status_code) && (status_code <? 600))%bool.

(** The statements of [query] before its [try]: building the request. *)
Definition build_request (env : Env) (self : t) (ioc_type ioc_value : string)
  (timeout : Z) : result Request :=
  method <-
    match Json.get "method" (request_config self) with
    | Some (JStr m) => Ok (Py.upper m)
    | Some _ => no_attribute "upper"
    | None => Ok "GET"
    end ;;
  url <- _build_url self ioc_type ioc_value ;;
  headers <- _build_headers self ;;
  params <-
    (if String.eqb method "GET"
     then p <- _build_params self ioc_type ioc_value ;; Ok (Some p)
     else Ok None) ;;
  let body :=
    if Py.mem method ["POST"; "PUT"; "PATCH"]
    then _build_body env self ioc_type ioc_value
    else None in
  let '(headers, auth) :=
    match src_authentication_type (api_source self) with
    | BASIC_AUTH =>
        match username self, password self with
        | Some u, Some p =>
            if (Py.truthy u && Py.truthy p)%bool
            then (headers, Some (u, p))
            else (headers, None)
        | _, _ => (headers, None)
        end
    | BEARER_TOKEN =>
        (Json.set "Authorization" ("Bearer " ++ api_key self) headers, None)
    | _ => (headers, None)
    end in
  Ok {| rq_method := method; rq_url := url; rq_headers := headers;
        rq_params := params; rq_json := body; rq_auth := auth;
        rq_timeout := timeout |}.

(** The [try] block of [query] and its handlers. *)
Definition exchange (env : Env) (self : t) (ioc_type ioc_value : string)
  (req : Request) : QueryResultDict :=
  match requests_request env req with
  | HttpTimeout => failure self ioc_type ioc_value "timeout" "Request timeout"
  | HttpRequestException msg => failure self ioc_type ioc_value "error" msg
  | HttpOtherException msg => failure self ioc_type ioc_value "error" msg
  | HttpResponse status_code text =>
      if raises_for_status status_code then
        failure self ioc_type ioc_value "error"
          (http_error_text env status_code (rq_url req))
      else
        let response_data :=
          match json_loads env text with
          | Some j => j
          | None => JObj [("text", JStr text)]
          end in
        let parsed := _parse_response env self response_data in
        {| d_source := src_name (api_source self);
           d_ioc_type := ioc_type;
           d_ioc_value := ioc_value;
           d_status := "success";
           d_raw := Some (p_raw parsed);
           d_risk_score := p_risk_score parsed;
           d_data := p_data parsed;
           d_http_status := Some status_code;
           d_error := None |}
  end.

(** [query]: an exception of the request-building statements reaches
    the caller; once the request is built, it is sent (one [EvHttp]) and
    every outcome is turned into a dictionary. *)
Definition query (env : Env) (self : t) (ioc_type ioc_value : string)
  (timeout : Z) (w : World) : result QueryResultDict * World :=
  match build_request env self ioc_type ioc_value timeout with
  | Raise e => (Raise e, w)
  | Ok req =>
      (Ok (exchange env self ioc_type ioc_value req), emit (EvHttp req) w)
  end.

End DynamicAPIClient.

(** ** The secret store: [app/core/encryption.py] *)

Definition decrypt_value (env : Env) (encrypted_value : string) : string :=
  if negb (Py.truthy encrypted_value) then EmptyString
  else
    match fernet_decrypt env encrypted_value with
    | Some plaintext => plaintext
    | None => EmptyString
    end.

(** ** The result cache: [app/services/cache.py], [redis_cache.py] *)

Module Cache.

(** 300 seconds, in microseconds. *)
Definition ttl : Z := 300 * 1000000.

Definition _make_key (ioc_type ioc_value : string) : string * string :=
  (Py.lower ioc_type, Py.lower ioc_value).

Definition key_eqb (a b : string * string) : bool :=
  (String.eqb (fst a) (fst b) && String.eqb (snd a) (snd b))%bool.

Fixpoint lookup {V} (k : string * string) (m : list ((string * string) * V))
  : option V :=
  match m with
  | [] => None
  | (k', v) :: m' => if key_eqb k k' then Some v else lookup k m'
  end.

Definition remove {V} (k : string * string)
  (m : list ((string * string) * V)) : list ((string * string) * V) :=
  filter (fun kv => negb (key_eqb k (fst kv))) m.

(** [ioc_cache.get]: an entry older than the TTL is evicted on read. *)
Definition get (ioc_type ioc_value : string) (w : World)
  : option IOCQueryResponse * World :=
  let key := _make_key ioc_type ioc_value in
  match lookup key (w_mem w) with
  | None => (None, w)
  | Some (response, stored_at) =>
      if w_now w - stored_at >? ttl
      then (None, set_mem (remove key (w_mem w)) w)
      else (Some response, w)
  end.

(** [ioc_cache.set] *)
Definition set (response : IOCQueryResponse) (w : World) : World :=
  let key := _make_key (ioc_type response) (ioc_value response) in
  set_mem ((key, (response, w_now w)) :: remove key (w_mem w)) w.

(** The time to live [query_ioc] passes to [redis_cache.set]: 300
    seconds, in microseconds. *)
Definition redis_ttl : Z := 300 * 1000000.

(** [redis_cache.get]: [None] without a client, without the key, or once
    the key has expired. *)
Definition redis_get (key : string) (w : World) : option RedisEntry :=
  match w_redis w with
  | None => None
  | Some store =>
      match Json.get key store with
      | Some (entry, expires_at) =>
          if w_now w <? expires_at then Some entry else None
      | None => None
      end
  end.

(** [redis_cache.set(key, value, ttl=300)], that is [SETEX]: a no-op
    without a client. *)
Definition redis_set (key : string) (response : IOCQueryResponse)
  (w : World) : World :=
  match w_redis w with
  | None => w
  | Some store =>
      set_redis
        (Some (Json.set key (RedisParsed response, w_now w + redis_ttl) store))
        w
  end.

End Cache.

(** ** The query orchestrator: [app/services/ioc_service.py] *)

Module IOCService.

Definition _get_risk_score_from_level (risk_level : option string)
  : option Float64.float :=
  match risk_level with
  | None => None
  | Some level =>
      if negb (Py.truthy level) then None
      else
        Json.get (Py.lower level)
          [("high", Float64.f0_9); ("medium", Float64.f0_6);
           ("low", Float64.f0_3); ("clean", Float64.f0_1);
           ("unknown", Float64.f0_5)]
  end.

Definition is_valid (r : IOCSourceResult) : bool :=
  (Py.is_some (risk_score r) && String.eqb (status r) "success")%bool.

Definition scores_of (rs : list IOCSourceResult) : list Float64.float :=
  flat_map (fun r => match risk_score r with Some x => [x] | None => [] end)
    rs.

Definition _calculate_overall_risk (results : list IOCSourceResult)
  : option string :=
  if negb (Py.nonempty results) then None
  else
    let valid_results := filter is_valid results in
    if negb (Py.nonempty valid_results) then
      let non_success_results :=
        filter (fun r => negb (String.eqb (status r) "success")) results in
      if Py.nonempty non_success_results then Some "unknown" else None
    else
      let risk_scores := scores_of valid_results in
      let avg_score :=
        Float64.div (Float64.sum risk_scores)
          (Float64.of_int (Z.of_nat (List.length risk_scores))) in
      if Float64.ge avg_score Float64.f0_8 then Some "high"
      else if Float64.ge avg_score Float64.f0_5 then Some "medium"
      else if Float64.ge avg_score Float64.f0_2 then Some "low"
      else Some "clean".

(** The optional allow-list of source names: [APISource.name.in_(...)]
    against the lower-cased requested names. *)
Definition name_allowed (sources : option (list string)) (s : APISource)
  : bool :=
  match sources with
  | None => true
  | Some names =>
      if Py.nonempty names then Py.mem (src_name s) (map Py.lower names)
      else true
  end.

Definition _get_active_api_keys (sources : option (list string))
  (auto_mode_only : bool) (w : World) : list (APIKey * APISource) :=
  let joined :=
    flat_map (fun k =>
                map (fun s => (k, s))
                  (filter (fun s => String.eqb (key_api_source_id k) (src_id s))
                     (w_api_sources w)))
      (w_api_keys w) in
  let query :=
    filter (fun ks => src_is_active (snd ks))
      (filter (fun ks => key_is_active (fst ks)) joined) in
  let query :=
    if auto_mode_only
    then filter (fun ks => UpdateMode_eqb (key_update_mode (fst ks)) AUTO) query
    else query in
  filter (fun ks => name_allowed sources (snd ks)) query.

Definition _get_sources_without_auth (sources : option (list string))
  (w : World) : list APISource :=
  filter (name_allowed sources)
    (filter (fun s => AuthenticationType_eqb (src_authentication_type s) NONE)
       (filter src_is_active (w_api_sources w))).

(** The guard both single-source queries start with. *)
Definition type_not_supported (api_source : APISource) (ioc_type : string)
  : bool :=
  match src_supported_ioc_types api_source with
  | None => false
  | Some types =>
      (Py.nonempty types
       && negb (Py.mem (Py.lower ioc_type) (map Py.lower types)))%bool
  end.

Definition skipped (api_source : APISource) (ioc_type : string)
  : IOCSourceResult :=
  {| source := src_name api_source;
     status := "skipped";
     risk_score := None;
     description :=
       Some ("IOC type '" ++ ioc_type ++ "' not supported by "
             ++ src_display_name api_source);
     raw := None |}.

Definition error_result (api_source : APISource) (text : string)
  : IOCSourceResult :=
  {| source := src_name api_source;
     status := "error";
     risk_score := None;
     description := Some text;
     raw := None |}.

(** [not s or not s.strip()] *)
Definition blank (s : string) : bool :=
  (negb (Py.truthy s) || negb (Py.truthy (Py.strip s)))%bool.

Definition blank_opt (o : option string) : bool :=
  match o with Some s => blank s | None => true end.

(** Decryption of the optional username or password. *)
Definition decrypt_optional (env : Env) (o : option string) : option string :=
  match o with
  | None => None
  | Some s =>
      if blank s then None
      else
        let d := decrypt_value env s in
        if blank d then None else Some d
  end.

(** [float(x)] for a decoded JSON value other than [None]. *)
Definition to_float (env : Env) (j : json) : result Float64.float :=
  match j with
  | JInt n =>
      match Float64.of_int n with
      | S754_infinity _ => Raise (Exn "OverflowError" "int too large")
      | f => Ok f
      end
  | JFloat f => Ok f
  | JBool b => Ok (Float64.of_int (if b then 1 else 0))
  | JStr s =>
      match float_of_string env s with
      | Some f => Ok f
      | None => Raise (Exn "ValueError" "could not convert string to float")
      end
  | _ => Raise (Exn "TypeError" "float() argument")
  end.

(** The description built from the [data] entry of the adapter's result. *)
Definition build_description (env : Env) (data : option json)
  : option string :=
  let data := match data with Some j => j | None => JObj [] end in
  match data with
  | JObj d =>
      let description_parts :=
        List.app
          match Json.get "description" d with
          | Some v => [py_str env v]
          | None => []
          end
          match Json.get "status" d with
          | Some v => ["Status: " ++ py_str env v]
          | None => []
          end in
      if Py.nonempty description_parts
      then Some (String.concat " | " description_parts)
      else None
  | _ => None
  end.

(** [IOCSourceResult(...)] from the adapter's result: the model validates
    [raw] as an optional [dict]. *)
Definition to_source_result (env : Env) (api_source : APISource)
  (risk_score : json) (res : DynamicAPIClient.QueryResultDict)
  : result IOCSourceResult :=
  let status := DynamicAPIClient.d_status res in
  let description := build_description env (DynamicAPIClient.d_data res) in
  score <-
    match risk_score with
    | JNull => Ok None
    | j => f <- to_float env j ;; Ok (Some f)
    end ;;
  raw_data <-
    match DynamicAPIClient.d_raw res with
    | None | Some JNull => Ok None
    | Some (JObj d) => Ok (Some d)
    | Some _ => Raise (Exn "ValidationError" "raw")
    end ;;
  Ok {| source := src_name api_source;
        status := status;
        risk_score := score;
        description :=
          Some (match description with
                | Some d =>
                    if Py.truthy d then d
                    else "Query completed with status: " ++ status
                | None => "Query completed with status: " ++ status
                end);
        raw := raw_data |}.

(** The Kaspersky zone table. *)
Definition zone_to_score (zone : string) : Float64.float :=
  match
    Json.get zone
      [("Red", Float64.f0_9); ("Yellow", Float64.f0_6);
       ("Green", Float64.f0_3); ("White", Float64.f0_1);
       ("Grey", Float64.f0_1)]
  with
  | Some f => f
  | None => Float64.f0_5
  end.

Definition get_or_null (o : option json) : json :=
  match o with Some j => j | None => JNull end.

(** The credential step of [_query_single_source]: either the result to
    return at once, or the key material to hand to the adapter. *)
Definition resolve_key (env : Env) (api_key : APIKey) (api_source : APISource)
  : IOCSourceResult + string :=
  let auth_type_value :=
    AuthenticationType_value (src_authentication_type api_source) in
  let requires_auth := negb (String.eqb (Py.lower auth_type_value) "none") in
  if requires_auth then
    if negb (blank_opt (key_api_key api_key)) then
      let decrypted_key :=
        decrypt_value env
          (match key_api_key api_key with Some k => k | None => EmptyString end) in
      if blank decrypted_key then
        inl (error_result api_source
               "Failed to decrypt API key or API key is empty")
      else inr decrypted_key
    else
      inl (error_result api_source "API key is required for this API source")
  else inr EmptyString.

(** Kaspersky reports a zone name where the others report a score. *)
Definition normalise_risk_score (api_source : APISource) (risk_score : json)
  : json :=
  match risk_score with
  | JStr zone =>
      if String.eqb (src_name api_source) "kaspersky"
      then JFloat (zone_to_score zone)
      else risk_score
  | _ => risk_score
  end.

(** The [try] block of [_query_single_source]. *)
Definition _query_single_source_try (env : Env) (api_key : APIKey)
  (api_source : APISource) (ioc_type ioc_value : string) (w : World)
  : result IOCSourceResult * World :=
  if type_not_supported api_source ioc_type then
    (Ok (skipped api_source ioc_type), w)
  else
    match resolve_key env api_key api_source with
    | inl early => (Ok early, w)
    | inr decrypted_key =>
        let decrypted_username := decrypt_optional env (key_username api_key) in
        let decrypted_password := decrypt_optional env (key_password api_key) in
        let client :=
          DynamicAPIClient.init api_source decrypted_key decrypted_username
            decrypted_password (key_api_url api_key) in
        match DynamicAPIClient.query env client ioc_type ioc_value 30 w with
        | (Raise e, w1) => (Raise e, w1)
        | (Ok res, w1) =>
            (* api_key.last_used = now; self.db.commit() *)
            let w2 := Session.add (RKeyLastUsed (key_id api_key) (w_now w1)) w1 in
            match Session.commit env w2 with
            | (Raise e, w3) => (Raise e, w3)
            | (Ok _, w3) =>
                let risk_score :=
                  normalise_risk_score api_source
                    (get_or_null (DynamicAPIClient.d_risk_score res)) in
                (to_source_result env api_source risk_score res, w3)
            end
        end
    end.

(** [except Exception as e] of both single-source queries. *)
Definition isolate (api_source : APISource)
  (r : result IOCSourceResult * World) : IOCSourceResult * World :=
  match r with
  | (Ok res, w) => (res, w)
  | (Raise e, w) => (error_result api_source ("Error: " ++ exn_msg e), w)
  end.

Definition _query_single_source (env : Env) (api_key : APIKey)
  (api_source : APISource) (ioc_type ioc_value : string) (w : World)
  : IOCSourceResult * World :=
  isolate api_source
    (_query_single_source_try env api_key api_source ioc_type ioc_value w).

Definition _query_single_source_without_key_try (env : Env)
  (api_source : APISource) (ioc_type ioc_value : string) (w : World)
  : result IOCSourceResult * World :=
  if type_not_supported api_source ioc_type then
    (Ok (skipped api_source ioc_type), w)
  else
    let client := DynamicAPIClient.init api_source EmptyString None None None in
    match DynamicAPIClient.query env client ioc_type ioc_value 30 w with
    | (Raise e, w1) => (Raise e, w1)
    | (Ok res, w1) =>
        (to_source_result env api_source
           (get_or_null (DynamicAPIClient.d_risk_score res)) res, w1)
    end.

Definition _query_single_source_without_key (env : Env)
  (api_source : APISource) (ioc_type ioc_value : string) (w : World)
  : IOCSourceResult * World :=
  isolate api_source
    (_query_single_source_without_key_try env api_source ioc_type ioc_value w).

(** The rows of the [try] block of [_save_query_to_db]. *)
Definition ioc_query_row (id user_id : string) (payload : IOCQueryRequest)
  (response : IOCQueryResponse) : IOCQueryRow :=
  {| q_id := id;
     q_user_id := user_id;
     q_ioc_type := req_ioc_type payload;
     q_ioc_value := req_ioc_value payload;
     q_query_date := queried_at response;
     q_results_overall_risk := overall_risk response;
     q_results_queried_sources := queried_sources response;
     q_risk_score :=
       if Py.truthy_opt (overall_risk response)
       then _get_risk_score_from_level (overall_risk response)
       else None;
     q_status :=
       Py.or_else (overall_risk response) "pending" |}.

Definition threat_data_row (id ioc_query_id : string)
  (source_result : IOCSourceResult) : ThreatIntelligenceDataRow :=
  {| td_id := id;
     td_ioc_query_id := ioc_query_id;
     td_source_api := source source_result;
     td_raw_data_json := raw source_result;
     td_processed_status := status source_result;
     td_processed_risk_score := risk_score source_result;
     td_processed_description := description source_result;
     td_confidence_score := risk_score source_result |}.

(** The loop over [response.queried_sources]: a result whose source name
    is no row of [api_sources] is passed over. *)
Fixpoint add_threat_data (env : Env) (ioc_query_id : string)
  (source_results : list IOCSourceResult) (w : World) : World :=
  match source_results with
  | [] => w
  | source_result :: rest =>
      match
        find (fun s => String.eqb (src_name s) (source source_result))
          (w_api_sources w)
      with
      | None => add_threat_data env ioc_query_id rest w
      | Some _ =>
          let '(id, w1) := fresh_uuid env w in
          add_threat_data env ioc_query_id rest
            (Session.add
               (RThreatData (threat_data_row id ioc_query_id source_result))
               w1)
      end
  end.

Definition _save_query_to_db_try (env : Env) (user_id : string)
  (payload : IOCQueryRequest) (response : IOCQueryResponse) (w : World)
  : result unit * World :=
  let '(id, w1) := fresh_uuid env w in
  let ioc_query := ioc_query_row id user_id payload response in
  let w2 := Session.add (RIOCQuery ioc_query) w1 in
  match Session.flush env w2 with
  | (Raise e, w3) => (Raise e, w3)
  | (Ok _, w3) =>
      let w4 := add_threat_data env (q_id ioc_query)
                  (queried_sources response) w3 in
      Session.commit env w4
  end.

Definition _save_query_to_db (env : Env) (user_id : string)
  (payload : IOCQueryRequest) (response : IOCQueryResponse) (w : World)
  : World :=
  match _save_query_to_db_try env user_id payload response w with
  | (Ok _, w') => w'
  | (Raise _, w') => Session.rollback w'
  end.

Definition redis_key (payload : IOCQueryRequest) : string :=
  "ioc:" ++ Py.lower (req_ioc_type payload) ++ ":"
  ++ Py.lower (req_ioc_value payload).

(** The two cache tiers, shared tier first; a hit in the process-local
    tier is copied to the shared one. *)
Definition cache_lookup (payload : IOCQueryRequest) (w : World)
  : option IOCQueryResponse * World :=
  match Cache.redis_get (redis_key payload) w with
  | Some (RedisParsed cached) => (Some cached, w)
  | _ =>
      match Cache.get (req_ioc_type payload) (req_ioc_value payload) w with
      | (Some cached_response, w1) =>
          (Some cached_response,
           Cache.redis_set (redis_key payload) cached_response w1)
      | (None, w1) => (None, w1)
      end
  end.

Definition all_sources_to_query (payload : IOCQueryRequest)
  (auto_mode_only : bool) (w : World) : list (option APIKey * APISource) :=
  let api_key_sources :=
    _get_active_api_keys (req_sources payload) auto_mode_only w in
  let sources_without_keys :=
    _get_sources_without_auth (req_sources payload) w in
  fold_left
    (fun acc api_source =>
       if existsb (fun ks : option APIKey * APISource =>
                     String.eqb (src_id (snd ks)) (src_id api_source)) acc
       then acc
       else List.app acc [(None, api_source)])
    sources_without_keys
    (map (fun ks : APIKey * APISource => (Some (fst ks), snd ks))
       api_key_sources).

Definition no_sources_response (payload : IOCQueryRequest) (w : World)
  : IOCQueryResponse :=
  {| ioc_type := req_ioc_type payload;
     ioc_value := req_ioc_value payload;
     overall_risk := None;
     queried_sources :=
       [ {| source := "system";
            status := "error";
            risk_score := None;
            description :=
              Some "No active API keys or sources found for the requested sources";
            raw := None |} ];
     queried_at := w_now w |}.

Definition query_one (env : Env) (ks : option APIKey * APISource)
  (ioc_type ioc_value : string) (w : World) : IOCSourceResult * World :=
  match fst ks with
  | None => _query_single_source_without_key env (snd ks) ioc_type ioc_value w
  | Some api_key =>
      _query_single_source env api_key (snd ks) ioc_type ioc_value w
  end.

(** The fan-out loop of [query_ioc]. *)
Fixpoint query_all (env : Env) (sources : list (option APIKey * APISource))
  (ioc_type ioc_value : string) (w : World)
  : list IOCSourceResult * World :=
  match sources with
  | [] => ([], w)
  | ks :: rest =>
      let '(r, w1) := query_one env ks ioc_type ioc_value w in
      let '(rs, w2) := query_all env rest ioc_type ioc_value w1 in
      (r :: rs, w2)
  end.

(** [query_ioc]; the call itself is recorded in the trace. *)
Definition query_ioc (env : Env) (user_id : string)
  (payload : IOCQueryRequest) (auto_mode_only : bool) (w : World)
  : IOCQueryResponse * World :=
  let w := emit (EvQueryIOC user_id payload auto_mode_only) w in
  match cache_lookup payload w with
  | (Some cached, w1) => (cached, w1)
  | (None, w1) =>
      let sources := all_sources_to_query payload auto_mode_only w1 in
      if negb (Py.nonempty sources) then (no_sources_response payload w1, w1)
      else
        let '(results, w2) :=
          query_all env sources (req_ioc_type payload) (req_ioc_value payload)
            w1 in
        let response :=
          {| ioc_type := req_ioc_type payload;
             ioc_value := req_ioc_value payload;
             overall_risk := _calculate_overall_risk results;
             queried_sources := results;
             queried_at := w_now w2 |} in
        let w3 := Cache.set response w2 in
        let w4 := Cache.redis_set (redis_key payload) response w3 in
        (response, _save_query_to_db env user_id payload response w4)
  end.

End IOCService.

(** ** The watchlist scheduler: [app/services/scheduler.py] *)

Module WatchlistScheduler.

Definition _convert_risk_to_status (risk_level : option string)
  : option IOCStatus :=
  match risk_level with
  | None => None
  | Some level =>
      if negb (Py.truthy level) then None
      else
        Json.get (Py.lower level)
          [("high", MALICIOUS); ("medium", SUSPICIOUS);
           ("low", SUSPICIOUS); ("clean", CLEAN)]
  end.

Definition threshold_map (risk_threshold : RiskThreshold) : list string :=
  match risk_threshold with
  | T_LOW => ["low"; "medium"; "high"]
  | T_MEDIUM => ["medium"; "high"]
  | T_HIGH => ["high"]
  | T_CRITICAL => ["high"]
  end.

Definition _should_trigger_alert (risk_threshold : option RiskThreshold)
  (risk_level : option string) : bool :=
  match risk_threshold, risk_level with
  | Some threshold, Some level =>
      if negb (Py.truthy level) then false
      else Py.mem (Py.lower level) (threshold_map threshold)
  | _, _ => false
  end.

(** [severity_map.get((overall_risk or "unknown").lower(), MEDIUM)] *)
Definition alert_severity (overall_risk : option string) : AlertSeverity :=
  let risk_level_for_alert :=
    Py.lower (Py.or_else overall_risk "unknown") in
  match
    Json.get risk_level_for_alert
      [("low", S_LOW); ("medium", S_MEDIUM); ("high", S_HIGH);
       ("critical", S_HIGH)]
  with
  | Some severity => severity
  | None => S_MEDIUM
  end.

(** The title of the alert of an item. *)
Definition alert_title (item : AssetWatchlistItem) : string :=
  "High Risk Detected: " ++ Py.upper (item_ioc_type item) ++ " - "
  ++ item_ioc_value item.

(** [AlertCreate(...)]: the schema validates its fields, of which
    [title] is bounded ([Field(..., max_length=255)]). *)
Definition validate_alert_create (title : string) : result unit :=
  if Nat.ltb 255 (Py.len title)
  then Raise (Exn "ValidationError"
                "title: String should have at most 255 characters")
  else Ok tt.

(** [alert_data = AlertCreate(...)] followed by
    [AlertService.create_alert]: add the alert and commit. *)
Definition create_alert (env : Env) (user_id : string)
  (watchlist : AssetWatchlist) (item : AssetWatchlistItem)
  (severity : AlertSeverity) (overall_risk : option string) (w : World)
  : result unit * World :=
  match validate_alert_create (alert_title item) with
  | Raise e => (Raise e, w)
  | Ok _ =>
      let '(id, w1) := fresh_uuid env w in
      let alert :=
        {| a_id := id;
           a_user_id := user_id;
           a_watchlist_id := wl_id watchlist;
           a_asset_id := item_id item;
           a_severity := severity;
           a_title := alert_title item;
           a_message :=
             "Watchlist asset '" ++ item_ioc_value item ++ "' detected with "
             ++ Py.or_else overall_risk "unknown" ++ " risk level.";
           a_created_at := w_now w1 |} in
      Session.commit env (Session.add (RAlert alert) w1)
  end.

(** [_check_watchlist_item]; its first statement, the log line
    "Checking watchlist item", is the [EvCheckItem] event. *)
Definition _check_watchlist_item (env : Env) (item : AssetWatchlistItem)
  (watchlist : AssetWatchlist) (w : World) : result unit * World :=
  let w := emit (EvCheckItem (item_id item)) w in
  let ioc_request :=
    {| req_ioc_type := item_ioc_type item;
       req_ioc_value := item_ioc_value item;
       req_sources := None |} in
  let '(ioc_response, w1) :=
    IOCService.query_ioc env (wl_user_id watchlist) ioc_request true w in
  let overall := overall_risk ioc_response in
  (* item.last_check_date, last_risk_score, last_status; db.flush() *)
  let w2 :=
    Session.add
      (RItemUpdate (item_id item) (w_now w1) overall
         (_convert_risk_to_status overall)) w1 in
  match Session.flush env w2 with
  | (Raise e, w3) => (Raise e, w3)
  | (Ok _, w3) =>
      let '(id, w4) := fresh_uuid env w3 in
      let check_history :=
        {| h_id := id;
           h_watchlist_item_id := item_id item;
           h_check_date := w_now w4;
           h_risk_score := overall;
           h_status := _convert_risk_to_status overall;
           h_queried_sources := queried_sources ioc_response;
           h_sources_checked := map source (queried_sources ioc_response);
           h_alert_triggered :=
             _should_trigger_alert (item_risk_threshold item) overall |} in
      match Session.flush env (Session.add (RCheckHistory check_history) w4) with
      | (Raise e, w5) => (Raise e, w5)
      | (Ok _, w5) =>
          if h_alert_triggered check_history then
            match
              create_alert env (wl_user_id watchlist) watchlist item
                (alert_severity overall) overall w5
            with
            | (Raise e, w6) => (Raise e, w6)
            | (Ok _, w6) => Session.commit env w6
            end
          else Session.commit env w5
      end
  end.

(** [timedelta(minutes=n)], in microseconds. *)
Definition minutes (n : Z) : Z := n * 60 * 1000000.

(** [current_time - item.last_check_date], where [current_time] is
    [datetime.now(timezone.utc)]: subtracting a naive [datetime] from an
    aware one raises. *)
Definition elapsed_since (current_time : Z) (last_check_date : datetime)
  : result Z :=
  match last_check_date with
  | Aware t => Ok (current_time - t)
  | Naive _ =>
      Raise (Exn "TypeError"
               "can't subtract offset-naive and offset-aware datetimes")
  end.

(** The decision of the loop body of [_check_watchlist]. *)
Definition should_check (current_time : Z) (watchlist : AssetWatchlist)
  (item : AssetWatchlistItem) : result bool :=
  match item_last_check_date item with
  | None => Ok true
  | Some last_check_date =>
      time_since_last_check <- elapsed_since current_time last_check_date ;;
      let interval_minutes := minutes (wl_check_interval watchlist) in
      Ok (time_since_last_check >=? interval_minutes)
  end.

(** The loop over the items of one watchlist.  A failing item check is
    logged and the loop goes on; the decision itself is taken outside
    that [try], so an exception of it ends the loop. *)
Fixpoint check_items (env : Env) (current_time : Z)
  (watchlist : AssetWatchlist) (items : list AssetWatchlistItem) (w : World)
  : result unit * World :=
  match items with
  | [] => (Ok tt, w)
  | item :: rest =>
      match should_check current_time watchlist item with
      | Raise e => (Raise e, w)
      | Ok true =>
          check_items env current_time watchlist rest
            (snd (_check_watchlist_item env item watchlist w))
      | Ok false => check_items env current_time watchlist rest w
      end
  end.

Definition active_items (watchlist : AssetWatchlist) (w : World)
  : list AssetWatchlistItem :=
  filter item_is_active
    (filter (fun i => String.eqb (item_watchlist_id i) (wl_id watchlist))
       (w_items w)).

Definition _check_watchlist (env : Env) (watchlist : AssetWatchlist)
  (w : World) : result unit * World :=
  let min_interval := watchlist_scheduler_min_check_interval env in
  if wl_check_interval watchlist <? min_interval then (Ok tt, w)
  else
    let items := active_items watchlist w in
    if negb (Py.nonempty items) then (Ok tt, w)
    else
      let current_time := w_now w in
      check_items env current_time watchlist items w.

(** One tick: every active watchlist with notifications enabled; an
    exception of a watchlist is logged and the next one is taken; the
    session is closed at the end. *)
Definition _check_all_watchlists (env : Env) (w : World) : World :=
  let watchlists :=
    filter wl_notification_enabled (filter wl_is_active (w_watchlists w)) in
  Session.rollback
    (fold_left (fun w watchlist => snd (_check_watchlist env watchlist w))
       watchlists w).

End WatchlistScheduler.

(** ** The specification's reading of the aggregation rule *)

Module Spec.

(** The risk signals that count: those of the results with status
    ["success"] and a signal that is not null, in order. *)
Fixpoint successful_signals (results : list IOCSourceResult)
  : list Float64.float :=
  match results with
  | [] => []
  | r :: rest =>
      match risk_score r with
      | Some x =>
          if String.eqb (status r) "success"
          then x :: successful_signals rest
          else successful_signals rest
      | None => successful_signals rest
      end
  end.

(** The arithmetic mean, in binary64 arithmetic as the code computes it. *)
Definition mean (xs : list Float64.float) : Float64.float :=
  Float64.div (Float64.sum xs) (Float64.of_int (Z.of_nat (List.length xs))).

(** The four buckets with their inclusive lower bounds. *)
Definition four_bucket (m : Float64.float) (verdict : string) : Prop :=
  (Float64.ge m Float64.f0_8 = true -> verdict = "high")
  /\ (Float64.ge m Float64.f0_5 = true -> Float64.lt m Float64.f0_8 = true ->
      verdict = "medium")
  /\ (Float64.ge m Float64.f0_2 = true -> Float64.lt m Float64.f0_5 = true ->
      verdict = "low")
  /\ (Float64.lt m Float64.f0_2 = true -> verdict = "clean")
  /\ In verdict ["high"; "medium"; "low"; "clean"].





(** The scheduler's elapsed-time rule, as the specification words it:
    an item is due when it was never checked, or when the time elapsed
    since its last check is at least the watchlist's interval (minutes,
    compared in microseconds). *)
Definition due (now : Z) (watchlist : AssetWatchlist)
  (item : AssetWatchlistItem) : bool :=
  match item_last_check_date item with
  | None => true
  | Some last_check =>
      wl_check_interval watchlist * 60000000 <=? now - instant_of last_check
  end.

(** The title of the alert of an item is within the 255 characters the
    alert schema allows. *)
Definition title_fits (item : AssetWatchlistItem) : bool :=
  Nat.leb (Py.len (WatchlistScheduler.alert_title item)) 255.

(** The stored timestamps of some items carry a time zone. *)
Definition timestamps_aware (items : list AssetWatchlistItem) : Prop :=
  Forall (fun i => match item_last_check_date i with
                   | Some d => is_aware d = true
                   | None => True
                   end) items.

(** The items of one watchlist a tick checks: none below the floor. *)
Definition items_to_check (floor now : Z) (watchlist : AssetWatchlist)
  (active : list AssetWatchlistItem) : list string :=
  if wl_check_interval watchlist <? floor then []
  else map item_id (filter (due now watchlist) active).

(** The watchlists a tick looks at. *)
Definition monitored (w : World) : list AssetWatchlist :=
  filter (fun wl => (wl_is_active wl && wl_notification_enabled wl)%bool)
    (w_watchlists w).

(** The active items of a watchlist. *)
Definition items_of (watchlist : AssetWatchlist) (w : World)
  : list AssetWatchlistItem :=
  filter (fun i =>
            (String.eqb (item_watchlist_id i) (wl_id watchlist)
             && item_is_active i)%bool) (w_items w).

(** The request the scheduler sends for an item. *)
Definition request_for (item : AssetWatchlistItem) : IOCQueryRequest :=
  {| req_ioc_type := item_ioc_type item;
     req_ioc_value := item_ioc_value item;
     req_sources := None |}.

(** The alert policy table: the verdicts on which each threshold
    triggers. *)
Definition policy (threshold : RiskThreshold) (verdict : string) : Prop :=
  match threshold with
  | T_LOW => verdict = "low" \/ verdict = "medium" \/ verdict = "high"
  | T_MEDIUM => verdict = "medium" \/ verdict = "high"
  | T_HIGH | T_CRITICAL => verdict = "high"
  end.

(** The severity of the alert: low to LOW, medium to MEDIUM, high and
    critical to HIGH, MEDIUM for any other verdict. *)
Definition severity_for (verdict : string) : AlertSeverity :=
  if String.eqb verdict "low" then S_LOW
  else if String.eqb verdict "medium" then S_MEDIUM
  else if (String.eqb verdict "high" || String.eqb verdict "critical")%bool
       then S_HIGH
  else S_MEDIUM.

(** A stored credential is unusable when the API key is absent or blank,
    or when its decryption fails or yields blank material. *)
Definition credential_unusable (env : Env) (api_key : APIKey) : Prop :=
  IOCService.blank_opt (key_api_key api_key) = true
  \/ exists k,
       key_api_key api_key = Some k
       /\ (fernet_decrypt env k = None
           \/ exists plaintext,
                fernet_decrypt env k = Some plaintext
                /\ IOCService.blank plaintext = true).

(** The indicator kind asked for and the kinds a source lists are ASCII
    names, as [ip], [domain], [url] and [hash] are: comparing them in
    lower case then only folds the ASCII letters. *)
Definition ascii_kinds (api_source : APISource) (ioc_type : string) : Prop :=
  Py.isascii ioc_type = true
  /\ match src_supported_ioc_types api_source with
     | Some types => forallb Py.isascii types = true
     | None => True
     end.

(** The result returned when no source is eligible. *)
Definition no_source_result : IOCSourceResult :=
  {| source := "system";
     status := "error";
     risk_score := None;
     description :=
       Some "No active API keys or sources found for the requested sources";
     raw := None |}.

End Spec.

(** ** Reading the trace *)

Module Trace.

(** The events a run added to the trace. *)
Definition events_since (w w' : World) : list Event :=
  skipn (List.length (w_trace w)) (w_trace w').

(** The items the scheduler checked, in order. *)
Definition checked_items (events : list Event) : list string :=
  flat_map (fun e => match e with EvCheckItem i => [i] | _ => [] end) events.

(** The calls of the orchestrator: user, request and the
    [auto_mode_only] flag, in order. *)
Definition orchestrator_calls (events : list Event)
  : list (string * IOCQueryRequest * bool) :=
  flat_map (fun e =>
              match e with
              | EvQueryIOC u p a => [(u, p, a)]
              | _ => []
              end) events.

(** The HTTP requests sent, in order. *)
Definition http_requests (events : list Event) : list Request :=
  flat_map (fun e => match e with EvHttp r => [r] | _ => [] end) events.

(** Every row the session holds or has committed, oldest first. *)
Definition all_rows (w : World) : list Row :=
  List.app (w_committed w) (List.app (w_flushed w) (w_pending w)).

(** The alerts among some rows. *)
Definition alerts (rows : list Row) : list AlertRow :=
  flat_map (fun r => match r with RAlert a => [a] | _ => [] end) rows.

(** The check-history entries among some rows. *)
Definition check_history (rows : list Row) : list AssetCheckHistoryRow :=
  flat_map (fun r => match r with RCheckHistory h => [h] | _ => [] end) rows.

(** [appends w w' rows]: the run from [w] to [w'] added exactly [rows]
    and lost none. *)
Definition appends (w w' : World) (rows : list Row) : Prop :=
  all_rows w' = List.app (all_rows w) rows.

(** Rows that are neither alerts nor check-history entries. *)
Definition plain (rows : list Row) : Prop :=
  alerts rows = [] /\ check_history rows = [].

(** [adds_plain w w']: the run added rows, none of them an alert or a
    check-history entry, and lost none. *)
Definition adds_plain (w w' : World) : Prop :=
  exists rows, appends w w' rows /\ plain rows.

(** The part of the state no operation of the engine writes to. *)
Definition static (w : World) :=
  (w_now w, w_api_sources w, w_api_keys w, w_watchlists w, w_items w).

(** [step w w' evs]: the run from [w] to [w'] appended exactly [evs] and
    kept the static part of the state. *)
Definition step (w w' : World) (evs : list Event) : Prop :=
  w_trace w' = List.app (w_trace w) evs /\ static w' = static w.

(** A run is silent when it adds no event. *)
Definition silent (w w' : World) : Prop := step w w' [].

(** Events of the adapter alone: no item check, no orchestrator call. *)
Definition http_only (evs : list Event) : Prop :=
  checked_items evs = [] /\ orchestrator_calls evs = [].

(** [adds_http w w']: the run sent HTTP requests and nothing else shows
    in the trace. *)
Definition adds_http (w w' : World) : Prop :=
  exists evs, step w w' evs /\ http_only evs.

(** The orchestrator call the scheduler makes for an item. *)
Definition call_for (watchlist : AssetWatchlist) (item : AssetWatchlistItem)
  : string * IOCQueryRequest * bool :=
  (wl_user_id watchlist, Spec.request_for item, true).

(** A call made in automatic mode. *)
Definition automatic (call : string * IOCQueryRequest * bool) : Prop :=
  snd call = true.

End Trace.

(** ** Sample data *)

Module Sample.

Definition mk (name st : string) (score : option Float64.float)
  : IOCSourceResult :=
  {| source := name; status := st; risk_score := score;
     description := Some EmptyString; raw := None |}.

(** An environment whose HTTP library answers every request with
    [outcome], whose JSON parser knows the empty object only, and whose
    database rejects the writes [faults] selects. *)
Definition env_with (outcome : HttpOutcome) (faults : nat -> bool) : Env :=
  {| requests_request := fun _ => outcome;
     http_error_text := fun _ url => "HTTP error for url: " ++ url;
     json_loads := fun s => if String.eqb s "{}" then Some (JObj []) else None;
     jsonpath_find := fun _ _ => Some [];
     fernet_decrypt := fun s => Some ("plain:" ++ s);
     float_of_string := fun _ => None;
     py_str := fun _ => EmptyString;
     uuid4 := fun _ => "00000000-0000-4000-8000-000000000000";
     db_fault := faults;
     watchlist_scheduler_min_check_interval := 60 |}.

Definition no_faults : nat -> bool := fun _ => false.

(** An environment whose sources answer 200 with a JSON object in which
    every configured path finds [score]. *)
Definition env_scoring (score : json) (faults : nat -> bool) : Env :=
  {| requests_request := fun _ => HttpResponse 200 "{}";
     http_error_text := fun _ url => "HTTP error for url: " ++ url;
     json_loads := fun _ => Some (JObj []);
     jsonpath_find := fun _ _ => Some [score];
     fernet_decrypt := fun s => Some ("plain:" ++ s);
     float_of_string := fun _ => None;
     py_str := fun _ => EmptyString;
     uuid4 := fun _ => "00000000-0000-4000-8000-000000000000";
     db_fault := faults;
     watchlist_scheduler_min_check_interval := 60 |}.

Definition api_source_with (name : string) (auth : AuthenticationType)
  (types : list string) (request_config : Json.dict) : APISource :=
  {| src_id := "id-" ++ name;
     src_name := name;
     src_display_name := name;
     src_base_url := "https://api.example.org/v1/";
     src_supported_ioc_types := Some types;
     src_authentication_type := auth;
     src_request_config := Some request_config;
     src_response_config := Some [("risk_score_path", JStr "data.score")];
     src_is_active := true |}.

Definition virustotal : APISource :=
  api_source_with "virustotal" API_KEY ["ip"; "domain"]
    [("method", JStr "GET");
     ("endpoint_template", JStr "/{ioc_type}/{ioc_value}");
     ("headers", JObj [("x-apikey", JStr "{api_key}")])].


Definition api_key_with (id source_id : string) (secret : option string)
  (mode : UpdateMode) (active : bool) : APIKey :=
  {| key_id := id;
     key_user_id := "user-1";
     key_api_source_id := source_id;
     key_api_key := secret;
     key_username := None;
     key_password := None;
     key_api_url := None;
     key_is_active := active;
     key_update_mode := mode;
     key_last_used := None |}.

Definition world_with (sources : list APISource) (keys : list APIKey)
  (watchlists : list AssetWatchlist) (items : list AssetWatchlistItem)
  (now : Z) : World :=
  {| w_now := now;
     w_api_sources := sources;
     w_api_keys := keys;
     w_watchlists := watchlists;
     w_items := items;
     w_pending := [];
     w_flushed := [];
     w_committed := [];
     w_writes := 0;
     w_uuids := 0;
     w_redis := None;
     w_mem := [];
     w_trace := [] |}.

Definition empty_world : World := world_with [] [] [] [] 0.

Definition watchlist_with (id : string) (interval : Z) : AssetWatchlist :=
  {| wl_id := id;
     wl_user_id := "user-1";
     wl_is_active := true;
     wl_notification_enabled := true;
     wl_check_interval := interval |}.

Definition item_checked_at (id watchlist : string) (last_check : option Z)
  : AssetWatchlistItem :=
  {| item_id := id;
     item_watchlist_id := watchlist;
     item_ioc_type := "ip";
     item_ioc_value := "8.8.8.8";
     item_risk_threshold := Some T_HIGH;
     item_last_check_date := option_map Aware last_check;
     item_last_risk_score := None;
     item_last_status := None;
     item_is_active := true |}.


(** Three credentials for one source: automatic, manual and inactive. *)
Definition key_auto : APIKey :=
  api_key_with "k-auto" "id-virustotal" (Some "c1") AUTO true.
Definition key_manual : APIKey :=
  api_key_with "k-manual" "id-virustotal" (Some "c2") MANUAL true.
Definition key_inactive : APIKey :=
  api_key_with "k-off" "id-virustotal" (Some "c3") AUTO false.

Definition registry_world : World :=
  world_with [virustotal] [key_auto; key_manual; key_inactive] [] [] 0.

(** A watchlist checked every 60 minutes with three items: never
    checked, checked 59 minutes ago, checked 61 minutes ago; and a
    watchlist below the floor of 60 minutes. *)
Definition hour : Z := 60 * 60000000.
Definition tick_time : Z := 100 * hour.

Definition tick_world : World :=
  world_with [] []
    [watchlist_with "wl-1" 60; watchlist_with "wl-2" 30]
    [item_checked_at "never" "wl-1" None;
     item_checked_at "early" "wl-1" (Some (tick_time - 59 * 60000000));
     item_checked_at "late" "wl-1" (Some (tick_time - 61 * 60000000));
     item_checked_at "fast" "wl-2" None]
    tick_time.


(** One source with an automatic credential, one hourly watchlist with
    one item whose threshold is [high]. *)
Definition alert_world : World :=
  world_with [virustotal] [key_auto] [watchlist_with "wl-1" 60]
    [item_checked_at "item-1" "wl-1" None] tick_time.


(** A credential with no stored key and one whose key does not decrypt. *)
Definition key_missing : APIKey :=
  api_key_with "k-none" "id-virustotal" None AUTO true.

Definition abuseipdb : APISource :=
  api_source_with "abuseipdb" NONE ["ip"]
    [("method", JStr "GET"); ("endpoint_template", JStr "/check")].

Definition isolation_world : World :=
  world_with [virustotal; abuseipdb] [key_missing] [] [] tick_time.

Definition ip_request : IOCQueryRequest :=
  {| req_ioc_type := "ip"; req_ioc_value := "8.8.8.8"; req_sources := None |}.

Definition url_request : IOCQueryRequest :=
  {| req_ioc_type := "url";
     req_ioc_value := "http://example.org/";
     req_sources := None |}.


(** A database that rejects the n-th write only. *)
Definition fault_at (n : nat) : nat -> bool := fun k => Nat.eqb k n.

Definition sample_response : IOCQueryResponse :=
  {| ioc_type := "ip";
     ioc_value := "8.8.8.8";
     overall_risk := Some "high";
     queried_sources := [mk "virustotal" "success" (Some Float64.f0_9)];
     queried_at := tick_time |}.

End Sample.

(** ** The shape of the list of sources to query *)

Module Shape.

Definition ids_of (sources : list (option APIKey * APISource))
  : list string :=
  map (fun ks => src_id (snd ks)) sources.

(** What the duplicate check of [query_ioc] keeps true while the
    unauthenticated sources are added. *)
Definition well_formed
  (sources : list (option APIKey * APISource)) : Prop :=
  (forall ko s,
      In (ko, s) sources ->
      src_is_active s = true
      /\ match ko with
         | Some k =>
             key_is_active k = true /\ key_api_source_id k = src_id s
         | None => src_authentication_type s = NONE
         end)
  /\ (forall s,
         In (None, s) sources ->
         count_occ string_dec (ids_of sources) (src_id s) = 1%nat).

End Shape.

(** ** The clock and the cache tiers *)

Module Clock.

(** The same state at a later (or any other) time. *)
Definition advance_to (t : Z) (w : World) : World :=
  {| w_now := t; w_api_sources := w_api_sources w;
     w_api_keys := w_api_keys w; w_watchlists := w_watchlists w;
     w_items := w_items w; w_pending := w_pending w;
     w_flushed := w_flushed w; w_committed := w_committed w;
     w_writes := w_writes w; w_uuids := w_uuids w;
     w_redis := w_redis w; w_mem := w_mem w; w_trace := w_trace w |}.

(** What a cache lookup reads: the clock and the two tiers. *)
Definition caches (w : World) :=
  (w_now w, w_redis w, w_mem w).

(** Two requests for the same indicator, letter case apart. *)
Definition same_indicator (p q : IOCQueryRequest) : Prop :=
  Py.lower (req_ioc_type p) = Py.lower (req_ioc_type q)
  /\ Py.lower (req_ioc_value p) = Py.lower (req_ioc_value q).

End Clock.

(** ** Counting requests *)

Module Requests.

(** [at_most n w w']: the run from [w] to [w'] sent at most [n] HTTP
    requests, each with the timeout of 30 seconds. *)
Definition at_most (n : nat) (w w' : World) : Prop :=
  exists evs,
    Trace.step w w' evs
    /\ (List.length (Trace.http_requests evs) <= n)%nat
    /\ Forall (fun r => rq_timeout r = 30) (Trace.http_requests evs).

(** The statuses a source result can carry, and when it carries a risk
    signal. *)
Definition well_formed_result (name : string) (r : IOCSourceResult) : Prop :=
  source r = name
  /\ In (status r) ["success"; "error"; "timeout"; "skipped"]
  /\ (risk_score r <> None -> status r = "success").

End Requests.

(** ** Storing a secret: [encrypt_value] of [app/core/encryption.py] *)

(** [fernet_encrypt] is the token Fernet issues for a plaintext under
    the configured key. *)
Definition encrypt_value (fernet_encrypt : string -> string)
  (value : string) : string :=
  if negb (Py.truthy value) then EmptyString else fernet_encrypt value.

(** ** Starting and stopping the scheduler: [start], [stop] and the
    module-level functions of [app/services/scheduler.py] *)

Module SchedulerLifecycle.

Record Settings := {
  watchlist_scheduler_enabled : bool;
  watchlist_scheduler_interval_minutes : Z
}.

(** An APScheduler [BackgroundScheduler]: its jobs (id and interval in
    minutes) and whether it is running. *)
Record BackgroundScheduler := {
  jobs : list (string * Z);
  running : bool
}.

(** [add_job(..., id=id, replace_existing=True)] *)
Definition add_job (id : string) (interval_minutes : Z)
  (b : BackgroundScheduler) : result BackgroundScheduler :=
  Ok {| jobs := Json.set id interval_minutes (jobs b);
        running := running b |}.

(** [BackgroundScheduler.start()] *)
Definition bs_start (b : BackgroundScheduler) : result BackgroundScheduler :=
  if running b
  then Raise (Exn "SchedulerAlreadyRunningError" "already running")
  else Ok {| jobs := jobs b; running := true |}.

(** [BackgroundScheduler.shutdown()] *)
Definition shutdown (b : BackgroundScheduler) : result BackgroundScheduler :=
  if running b
  then Ok {| jobs := jobs b; running := false |}
  else Raise (Exn "SchedulerNotRunningError" "not running").

(** A [WatchlistScheduler] object; [scheduler] refers to one of the
    [BackgroundScheduler] objects created so far. *)
Record t := {
  scheduler : option nat;
  is_running : bool
}.

(** The process: every [BackgroundScheduler] ever created, and the
    global [_scheduler_instance]. *)
Record Process := {
  objects : list BackgroundScheduler;
  _scheduler_instance : option t
}.

(** [__init__] *)
Definition init : t := {| scheduler := None; is_running := false |}.

(** A method call on the object a reference points to. *)
Fixpoint update (i : nat)
  (f : BackgroundScheduler -> result BackgroundScheduler)
  (objs : list BackgroundScheduler) : result (list BackgroundScheduler) :=
  match objs, i with
  | [], _ => Raise (Exn "ReferenceError" "no such object")
  | b :: rest, O => b' <- f b ;; Ok (b' :: rest)
  | b :: rest, S k => rest' <- update k f rest ;; Ok (b :: rest')
  end.

Definition start (settings : Settings) (self : t)
  (objs : list BackgroundScheduler)
  : result (t * list BackgroundScheduler) :=
  if is_running self then Ok (self, objs)
  else if negb (watchlist_scheduler_enabled settings) then Ok (self, objs)
  else
    (* self.scheduler = BackgroundScheduler() *)
    let i := List.length objs in
    let objs := List.app objs [{| jobs := []; running := false |}] in
    let interval_minutes := watchlist_scheduler_interval_minutes settings in
    objs <- update i (add_job "check_watchlists" interval_minutes) objs ;;
    objs <- update i bs_start objs ;;
    Ok ({| scheduler := Some i; is_running := true |}, objs).

Definition stop (self : t) (objs : list BackgroundScheduler)
  : result (t * list BackgroundScheduler) :=
  match scheduler self with
  | Some i =>
      if is_running self then
        objs <- update i shutdown objs ;;
        Ok ({| scheduler := Some i; is_running := false |}, objs)
      else Ok (self, objs)
  | None => Ok (self, objs)
  end.

(** [get_scheduler] *)
Definition get_scheduler (p : Process) : t * Process :=
  match _scheduler_instance p with
  | Some s => (s, p)
  | None => (init, {| objects := objects p; _scheduler_instance := Some init |})
  end.

Definition start_scheduler (settings : Settings) (p : Process)
  : result Process :=
  let '(s, p) := get_scheduler p in
  r <- start settings s (objects p) ;;
  Ok {| objects := snd r; _scheduler_instance := Some (fst r) |}.

Definition stop_scheduler (p : Process) : result Process :=
  match _scheduler_instance p with
  | Some s =>
      r <- stop s (objects p) ;;
      Ok {| objects := snd r; _scheduler_instance := Some (fst r) |}
  | None => Ok p
  end.

(** The process as it boots, and a sequence of calls against it. *)
Definition boot : Process := {| objects := []; _scheduler_instance := None |}.

Inductive Call := CallStart | CallStop.

Fixpoint run (settings : Settings) (calls : list Call) (p : Process)
  : result Process :=
  match calls with
  | [] => Ok p
  | CallStart :: rest => p' <- start_scheduler settings p ;; run settings rest p'
  | CallStop :: rest => p' <- stop_scheduler p ;; run settings rest p'
  end.

(** The background schedulers that are running, and the flag. *)
Definition live (p : Process) : list BackgroundScheduler :=
  filter running (objects p).

Definition flag (p : Process) : bool :=
  match _scheduler_instance p with
  | Some s => is_running s
  | None => false
  end.

(** What [start] and [stop] keep true. *)
Definition consistent (settings : Settings) (p : Process) : Prop :=
  match _scheduler_instance p with
  | None => objects p = []
  | Some s =>
      if is_running s then
        watchlist_scheduler_enabled settings = true
        /\ exists old,
             objects p
             = List.app old
                 [{| jobs :=
                       [("check_watchlists",
                         watchlist_scheduler_interval_minutes settings)];
                     running := true |}]
             /\ scheduler s = Some (List.length old)
             /\ Forall (fun b => running b = false) old
      else Forall (fun b => running b = false) (objects p)
  end.

End SchedulerLifecycle.

(** ** The manual checks: [app/services/watchlist_service.py] *)

Module WatchlistService.

(** [app/models/user.py] *)
Inductive UserRole := ADMIN | ANALYST | VIEWER.

Record User := {
  usr_id : string;
  usr_role : UserRole
}.

(** The [users] table, and the column [shared_with_user_ids] of the
    watchlists, by watchlist id: an absent entry is SQL NULL; the value
    is the decoded list or, as SQLite may return it, its JSON text. *)
Record Directory := {
  users : list User;
  shared_with_user_ids : list (string * json)
}.

(** [user_id in shared_ids] for a decoded list. *)
Definition contains (user_id : string) (shared_ids : list json) : bool :=
  existsb
    (fun j => match j with JStr s => String.eqb user_id s | _ => false end)
    shared_ids.

(** The viewer branch of the access check. *)
Definition shared_with (env : Env) (shared_ids : option json)
  (user_id : string) : bool :=
  match shared_ids with
  | None => false
  | Some JNull => false
  | Some shared_ids =>
      let shared_ids :=
        match shared_ids with
        | JStr text =>
            match json_loads env text with
            | Some j => j
            | None => JNull
            end
        | _ => shared_ids
        end in
      match shared_ids with
      | JArr l => (Py.nonempty l && contains user_id l)%bool
      | _ => false
      end
  end.

Definition _convert_risk_to_status (risk_level : option string)
  : option IOCStatus :=
  match risk_level with
  | None => None
  | Some level =>
      if negb (Py.truthy level) then None
      else
        Json.get (Py.lower level)
          [("high", MALICIOUS); ("medium", SUSPICIOUS);
           ("low", SUSPICIOUS); ("clean", CLEAN)]
  end.

Definition _should_trigger_alert (risk_threshold : option RiskThreshold)
  (risk_level : option string) : bool :=
  match risk_threshold, risk_level with
  | Some threshold, Some level =>
      if negb (Py.truthy level) then false
      else
        Py.mem (Py.lower level)
          match threshold with
          | T_LOW => ["low"; "medium"; "high"]
          | T_MEDIUM => ["medium"; "high"]
          | T_HIGH => ["high"]
          | T_CRITICAL => ["high"]
          end
  | _, _ => false
  end.

(** The dictionary [check_watchlist_item] returns. *)
Record CheckResult := {
  c_item_id : string;
  c_ioc_type : string;
  c_ioc_value : string;
  c_risk_score : option string;
  c_status : option IOCStatus;
  c_check_date : Z;
  c_sources_checked : list string;
  c_alert_triggered : bool
}.

(** [check_watchlist_item] after the access check. *)
Definition check_granted (env : Env) (item : AssetWatchlistItem)
  (watchlist : AssetWatchlist) (user_id : string) (w : World)
  : result (option CheckResult) * World :=
  let ioc_request :=
    {| req_ioc_type := item_ioc_type item;
       req_ioc_value := item_ioc_value item;
       req_sources := None |} in
  let '(ioc_response, w1) :=
    IOCService.query_ioc env user_id ioc_request false w in
  let overall := overall_risk ioc_response in
  (* item.last_check_date, last_risk_score, last_status *)
  let last_check_date := w_now w1 in
  let last_status := _convert_risk_to_status overall in
  let w2 :=
    Session.add (RItemUpdate (item_id item) last_check_date overall last_status)
      w1 in
  let '(id, w3) := fresh_uuid env w2 in
  let check_history :=
    {| h_id := id;
       h_watchlist_item_id := item_id item;
       h_check_date := w_now w3;
       h_risk_score := overall;
       h_status := _convert_risk_to_status overall;
       h_queried_sources := queried_sources ioc_response;
       h_sources_checked := map source (queried_sources ioc_response);
       h_alert_triggered :=
         _should_trigger_alert (item_risk_threshold item) overall |} in
  let answer :=
    {| c_item_id := item_id item;
       c_ioc_type := item_ioc_type item;
       c_ioc_value := item_ioc_value item;
       c_risk_score := overall;
       c_status := last_status;
       c_check_date := last_check_date;
       c_sources_checked := map source (queried_sources ioc_response);
       c_alert_triggered := h_alert_triggered check_history |} in
  match Session.flush env (Session.add (RCheckHistory check_history) w3) with
  | (Raise e, w4) => (Raise e, w4)
  | (Ok _, w4) =>
      if (h_alert_triggered check_history
          && wl_notification_enabled watchlist)%bool
      then
        match
          WatchlistScheduler.create_alert env user_id watchlist item
            (WatchlistScheduler.alert_severity overall) overall w4
        with
        | (Raise e, w5) => (Raise e, w5)
        | (Ok _, w5) =>
            match Session.commit env w5 with
            | (Raise e, w6) => (Raise e, w6)
            | (Ok _, w6) => (Ok (Some answer), w6)
            end
        end
      else
        match Session.commit env w4 with
        | (Raise e, w6) => (Raise e, w6)
        | (Ok _, w6) => (Ok (Some answer), w6)
        end
  end.

(** [check_watchlist_item]: [None] for an unknown item, an unknown
    watchlist or a caller without access. *)
Definition check_watchlist_item (env : Env) (dir : Directory)
  (id user_id : string) (w : World) : result (option CheckResult) * World :=
  match find (fun i => String.eqb (item_id i) id) (w_items w) with
  | None => (Ok None, w)
  | Some item =>
      match
        find (fun l => String.eqb (wl_id l) (item_watchlist_id item))
          (w_watchlists w)
      with
      | None => (Ok None, w)
      | Some watchlist =>
          if String.eqb (wl_user_id watchlist) user_id then
            check_granted env item watchlist user_id w
          else
            match
              find (fun u => String.eqb (usr_id u) user_id) (users dir)
            with
            | None => (Ok None, w)
            | Some user =>
                match usr_role user with
                | ADMIN => check_granted env item watchlist user_id w
                | VIEWER =>
                    if shared_with env
                         (Json.get (wl_id watchlist)
                            (shared_with_user_ids dir)) user_id
                    then check_granted env item watchlist user_id w
                    else (Ok None, w)
                | ANALYST => (Ok None, w)
                end
            end
      end
  end.

(** What [check_watchlist] returns. *)
Inductive WatchlistCheck :=
| CheckError (error : string)
| CheckDone (watchlist_id : string) (checked_items : nat)
    (results : list CheckResult).

(** The access decision of [check_watchlist]. *)
Definition has_access (env : Env) (dir : Directory)
  (watchlist_model : AssetWatchlist) (user_id : string) : bool :=
  if String.eqb (wl_user_id watchlist_model) user_id then true
  else
    match find (fun u => String.eqb (usr_id u) user_id) (users dir) with
    | Some user =>
        match usr_role user with
        | ADMIN => true
        | VIEWER =>
            shared_with env
              (Json.get (wl_id watchlist_model) (shared_with_user_ids dir))
              user_id
        | ANALYST => false
        end
    | None => false
    end.

(** The loop of [check_watchlist]: an exception of a check ends it. *)
Fixpoint check_each (env : Env) (dir : Directory) (user_id : string)
  (items : list AssetWatchlistItem) (w : World)
  : result (list CheckResult) * World :=
  match items with
  | [] => (Ok [], w)
  | item :: rest =>
      match check_watchlist_item env dir (item_id item) user_id w with
      | (Raise e, w1) => (Raise e, w1)
      | (Ok answer, w1) =>
          match check_each env dir user_id rest w1 with
          | (Raise e, w2) => (Raise e, w2)
          | (Ok results, w2) =>
              (Ok match answer with
                  | Some a => a :: results
                  | None => results
                  end, w2)
          end
      end
  end.

Definition check_watchlist (env : Env) (dir : Directory)
  (watchlist_id user_id : string) (w : World)
  : result WatchlistCheck * World :=
  match find (fun l => String.eqb (wl_id l) watchlist_id) (w_watchlists w) with
  | None => (Ok (CheckError "Watchlist not found"), w)
  | Some watchlist_model =>
      if negb (has_access env dir watchlist_model user_id) then
        (Ok (CheckError "Watchlist not found or access denied"), w)
      else
        let items :=
          filter item_is_active
            (filter (fun i => String.eqb (item_watchlist_id i) watchlist_id)
               (w_items w)) in
        match check_each env dir user_id items w with
        | (Raise e, w1) => (Raise e, w1)
        | (Ok results, w1) =>
            (Ok (CheckDone watchlist_id (List.length results) results), w1)
        end
  end.

(** Who may check a watchlist, in words: its owner, an administrator,
    and a viewer the watchlist is shared with. *)
Definition shared_list (env : Env) (column : option json) : list json :=
  match column with
  | Some (JArr l) => l
  | Some (JStr text) =>
      match json_loads env text with
      | Some (JArr l) => l
      | _ => []
      end
  | _ => []
  end.

Definition granted (env : Env) (dir : Directory) (watchlist : AssetWatchlist)
  (user_id : string) : Prop :=
  wl_user_id watchlist = user_id
  \/ exists user,
       find (fun u => String.eqb (usr_id u) user_id) (users dir) = Some user
       /\ (usr_role user = ADMIN
           \/ (usr_role user = VIEWER
               /\ In (JStr user_id)
                    (shared_list env
                       (Json.get (wl_id watchlist)
                          (shared_with_user_ids dir))))).

End WatchlistService.

(** ** Reading the stored rows *)

Module Stored.

(** The per-source records among some rows. *)
Definition threat_data (rows : list Row) : list ThreatIntelligenceDataRow :=
  flat_map (fun r => match r with RThreatData t => [t] | _ => [] end) rows.

(** Whether a name is the name of a row of [api_sources]. *)
Definition known (w : World) (name : string) : bool :=
  Py.is_some
    (find (fun s => String.eqb (src_name s) name) (w_api_sources w)).

End Stored.

(** ** Further sample data *)

Module Fixtures.

Import Sample.

(** A source stored under a mixed-case name, with a credential. *)
Definition mixed_case_source : APISource :=
  api_source_with "VirusTotal" API_KEY ["ip"] [("method", JStr "GET")].

Definition mixed_case_key : APIKey :=
  api_key_with "k-mixed" "id-VirusTotal" (Some "c1") AUTO true.

Definition mixed_case_world : World :=
  world_with [mixed_case_source; virustotal] [mixed_case_key; key_auto]
    [] [] tick_time.

(** An unauthenticated source that also has a stored manual credential. *)
Definition key_for_abuseipdb : APIKey :=
  api_key_with "k-abuse" "id-abuseipdb" (Some "c9") MANUAL true.

Definition overlap_world : World :=
  world_with [virustotal; abuseipdb] [key_auto; key_for_abuseipdb] [] []
    tick_time.

(** Text outside ASCII, by its UTF-8 bytes: the no-break space U+00A0,
    the ideographic space U+3000 and the letter U+00E9. *)
Definition nbsp : string :=
  String (ascii_of_nat 194) (String (ascii_of_nat 160) EmptyString).

Definition ideographic_space : string :=
  String (ascii_of_nat 227)
    (String (ascii_of_nat 128) (String (ascii_of_nat 128) EmptyString)).

Definition e_acute : string :=
  String (ascii_of_nat 195) (String (ascii_of_nat 169) EmptyString).

(** A toy cipher: the token is the plaintext behind a fixed prefix. *)
Definition seal (s : string) : string := "gAAAA" ++ s.

Definition unseal (s : string) : option string :=
  match s with
  | String "g"%char
      (String "A"%char
         (String "A"%char (String "A"%char (String "A"%char rest)))) =>
      Some rest
  | _ => None
  end.

Definition env_sealed (outcome : HttpOutcome) : Env :=
  {| requests_request := fun _ => outcome;
     http_error_text := fun _ url => "HTTP error for url: " ++ url;
     json_loads := fun s => if String.eqb s "{}" then Some (JObj []) else None;
     jsonpath_find := fun _ _ => Some [];
     fernet_decrypt := unseal;
     float_of_string := fun _ => None;
     py_str := fun _ => EmptyString;
     uuid4 := fun _ => "00000000-0000-4000-8000-000000000000";
     db_fault := no_faults;
     watchlist_scheduler_min_check_interval := 60 |}.

(** A source that authenticates with a bearer token and whose template
    also sets the header itself, and a credential sealed for it. *)
Definition bearer_source : APISource :=
  api_source_with "otx" BEARER_TOKEN ["ip"]
    [("method", JStr "post");
     ("endpoint_template", JStr "/lookup");
     ("headers",
      JObj [("Authorization", JStr "Token {api_key}");
            ("Accept", JStr "application/json")]);
     ("body_template", JObj [("indicator", JStr "{ioc_value}")])].


(** A credential whose secret is a no-break space. *)
Definition nbsp_key : APIKey :=
  api_key_with "k-nbsp" "id-otx" (Some (seal nbsp)) AUTO true.

(** An item as SQLite returns it: its last check without a time zone. *)
Definition item_read_back (id watchlist : string) (last_check : Z)
  : AssetWatchlistItem :=
  {| item_id := id;
     item_watchlist_id := watchlist;
     item_ioc_type := "ip";
     item_ioc_value := "8.8.8.8";
     item_risk_threshold := Some T_HIGH;
     item_last_check_date := Some (Naive last_check);
     item_last_risk_score := None;
     item_last_status := None;
     item_is_active := true |}.

(** An hourly watchlist on the default database: one item checked 61
    minutes ago, one never checked. *)
Definition sqlite_tick_world : World :=
  world_with [] [] [watchlist_with "wl-1" 60]
    [item_read_back "late" "wl-1" (tick_time - 61 * 60000000);
     item_checked_at "never" "wl-1" None]
    tick_time.





(** The staff: an administrator, an analyst and two viewers; the sample
    watchlist [wl-1] of [user-1] is shared with the first viewer. *)
Definition staff : WatchlistService.Directory :=
  {| WatchlistService.users :=
       [{| WatchlistService.usr_id := "user-1";
           WatchlistService.usr_role := WatchlistService.ANALYST |};
        {| WatchlistService.usr_id := "user-2";
           WatchlistService.usr_role := WatchlistService.ANALYST |};
        {| WatchlistService.usr_id := "user-3";
           WatchlistService.usr_role := WatchlistService.VIEWER |};
        {| WatchlistService.usr_id := "user-4";
           WatchlistService.usr_role := WatchlistService.VIEWER |};
        {| WatchlistService.usr_id := "user-9";
           WatchlistService.usr_role := WatchlistService.ADMIN |}];
     WatchlistService.shared_with_user_ids :=
       [("wl-1", JArr [JStr "user-3"])] |}.

(** The sample watchlist with its notifications switched off. *)
Definition quiet_watchlist : AssetWatchlist :=
  {| wl_id := "wl-1";
     wl_user_id := "user-1";
     wl_is_active := true;
     wl_notification_enabled := false;
     wl_check_interval := 60 |}.

Definition quiet_world : World :=
  world_with [virustotal] [key_manual] [quiet_watchlist]
    [item_checked_at "item-1" "wl-1" None;
     item_checked_at "item-2" "wl-1" None] tick_time.

End Fixtures.

(** * Properties *)

(** ** String helpers on sample inputs *)

Example replace_example :
  Py.replace "{ioc_value}" "8.8.8.8" "/ip/{ioc_value}/x{ioc_value}"
  = "/ip/8.8.8.8/x8.8.8.8".
Proof. reflexivity. Qed.

Example rstrip_slash_example : Py.rstrip_slash "https://a/b//" = "https://a/b".
Proof. reflexivity. Qed.

Example strip_unicode :
  Py.strip (Fixtures.nbsp ++ " k" ++ Fixtures.ideographic_space) = "k"
  /\ Py.strip (Fixtures.nbsp ++ Fixtures.ideographic_space) = EmptyString
  /\ Py.strip ("k" ++ Fixtures.e_acute) = "k" ++ Fixtures.e_acute
  /\ Py.len ("k" ++ Fixtures.e_acute ++ Fixtures.ideographic_space) = 3%nat.
Proof. repeat split. Qed.

Example strip_example : Py.strip "  k  " = "k" /\ Py.strip "   " = EmptyString.
Proof. split; reflexivity. Qed.

(** ** Binary64 comparisons *)

Module Float64Facts.

Lemma compare_antisym (x y : Float64.float) :
  SFcompare y x = option_map CompOpp (SFcompare x y).
Proof.
  destruct x as [sx | sx | | sx mx ex], y as [sy | sy | | sy my ey];
    simpl; try reflexivity;
    try (destruct sx; reflexivity);
    try (destruct sy; reflexivity);
    try (destruct sx, sy; reflexivity).
  destruct sx, sy; simpl; try reflexivity;
    rewrite (Z.compare_antisym ex ey);
    destruct (ex ?= ey)%Z eqn:E; simpl; try reflexivity.
  - pose proof (Pos.compare_cont_antisym mx my Eq) as H. simpl in H.
    now rewrite <- H.
  - pose proof (Pos.compare_cont_antisym mx my Eq) as H. simpl in H.
    now rewrite <- H.
Qed.

(** [x < y] excludes [x >= y]. *)
Lemma lt_not_ge (x y : Float64.float) :
  Float64.lt x y = true -> Float64.ge x y = false.
Proof.
  unfold Float64.lt, Float64.ge, SFltb, SFleb.
  rewrite (compare_antisym x y).
  destruct (SFcompare x y) as [[ | | ] | ]; simpl; congruence.
Qed.

(** The thresholds are ordered: a value at or above one is at or above
    the lower ones. *)
Lemma ge_0_8_ge_0_5 (x : Float64.float) :
  Float64.ge x Float64.f0_8 = true -> Float64.ge x Float64.f0_5 = true.
Proof.
  unfold Float64.ge, SFleb, Float64.f0_8, Float64.f0_5.
  destruct x as [s | s | | s m e];
    try (simpl; congruence); try (destruct s; simpl; congruence).
  destruct s; [simpl; congruence | ].
  unfold SFcompare.
  destruct (Z.compare (-53) e); try congruence.
  change (Pos.compare_cont Eq 7205759403792794 m)
    with (7205759403792794 ?= m)%positive.
  change (Pos.compare_cont Eq 4503599627370496 m)
    with (4503599627370496 ?= m)%positive.
  destruct (Pos.compare_spec 7205759403792794 m) as [H | H | H];
    destruct (Pos.compare_spec 4503599627370496 m) as [H' | H' | H'];
    intros Hge; try reflexivity; try discriminate; exfalso.
  - subst m. now vm_compute in H'.
  - pose proof (Pos.lt_trans _ _ _ H H') as Hlt. now vm_compute in Hlt.
Qed.

Lemma ge_0_5_ge_0_2 (x : Float64.float) :
  Float64.ge x Float64.f0_5 = true -> Float64.ge x Float64.f0_2 = true.
Proof.
  unfold Float64.ge, SFleb, Float64.f0_5, Float64.f0_2.
  destruct x as [s | s | | s m e];
    try (simpl; congruence); try (destruct s; simpl; congruence).
  destruct s; [simpl; congruence | ].
  unfold SFcompare.
  destruct (Z.compare_spec (-53) e) as [H | H | H];
    destruct (Z.compare_spec (-55) e) as [H' | H' | H'];
    intros Hge; try reflexivity; try discriminate; exfalso; lia.
Qed.

End Float64Facts.

(** ** Aggregation of the per-source results *)

Module Aggregation.

Import IOCService.
Import Sample.

(** The cases of [tests/test_ioc_service.py::test_calculate_overall_risk]
    that the code passes. *)
Example test_calculate_overall_risk :
  _calculate_overall_risk
    [mk "test1" "success" (Some Float64.f0_9);
     mk "test2" "success" (Some Float64.f0_8)] = Some "high"
  /\ _calculate_overall_risk
    [mk "test1" "success" (Some Float64.f0_5);
     mk "test2" "success" (Some Float64.f0_6)] = Some "medium"
  /\ _calculate_overall_risk
    [mk "test1" "success" (Some Float64.f0_2);
     mk "test2" "success" (Some Float64.f0_3)] = Some "low"
  /\ _calculate_overall_risk
    [mk "test1" "success" (Some Float64.f0_1)] = Some "clean"
  /\ _calculate_overall_risk
    [mk "test1" "error" None] = Some "unknown".
Proof. repeat split; vm_compute; reflexivity. Qed.

(** C1.  The last case of the same test expects [None] for a lone
    [skipped] result, as the specification does; the code answers
    ["unknown"], because [skipped] is a status other than ["success"]. *)
Theorem calculate_overall_risk_skipped_only :
  _calculate_overall_risk [mk "test1" "skipped" None] = Some "unknown".
Proof. reflexivity. Qed.

Lemma nonempty_exists {A} (l : list A) :
  Py.nonempty l = true <-> exists a, In a l.
Proof.
  destruct l as [ | a l]; simpl; split; intros H.
  - discriminate.
  - destruct H as [a []].
  - exists a. now left.
  - reflexivity.
Qed.

Lemma is_valid_true (r : IOCSourceResult) :
  is_valid r = true <-> status r = "success" /\ risk_score r <> None.
Proof.
  unfold is_valid. rewrite andb_true_iff, String.eqb_eq.
  destruct (risk_score r); simpl; split; intros [H1 H2]; split;
    congruence.
Qed.

Lemma no_valid_results (results : list IOCSourceResult) :
  (forall r, In r results ->
             ~ (status r = "success" /\ risk_score r <> None)) ->
  filter is_valid results = [].
Proof.
  intros H. destruct (filter is_valid results) as [ | r l] eqn:E; [easy | ].
  assert (Hin : In r (filter is_valid results)) by (rewrite E; now left).
  apply filter_In in Hin. destruct Hin as [Hin Hv].
  apply is_valid_true in Hv. now elim (H r Hin).
Qed.

(** C2.  When no result is a success with a risk signal and at least one
    result has a status other than ["success"], the overall verdict is
    ["unknown"]. *)
Theorem calculate_overall_risk_unknown (results : list IOCSourceResult) :
  results <> [] ->
  (forall r, In r results ->
             ~ (status r = "success" /\ risk_score r <> None)) ->
  (exists r, In r results /\ status r <> "success") ->
  _calculate_overall_risk results = Some "unknown".
Proof.
  intros Hne Hnone [r [Hin Hst]].
  unfold _calculate_overall_risk.
  assert (H1 : Py.nonempty results = true)
    by (apply nonempty_exists; now exists r).
  assert (H2 : Py.nonempty
                 (filter (fun r => negb (status r =? "success")%string)
                    results) = true).
  { apply nonempty_exists. exists r. apply filter_In. split; [exact Hin | ].
    apply negb_true_iff. now apply String.eqb_neq. }
  rewrite H1, (no_valid_results _ Hnone), H2. reflexivity.
Qed.

Lemma calculate_overall_risk_unknown_witness :
  _calculate_overall_risk
    [mk "a" "timeout" None; mk "b" "success" None] = Some "unknown".
Proof.
  apply calculate_overall_risk_unknown.
  - discriminate.
  - intros r [H | [H | []]]; subst r; simpl; intros [H1 H2]; congruence.
  - exists (mk "a" "timeout" None). split; [now left | discriminate].
Defined.

Lemma scores_of_valid (results : list IOCSourceResult) :
  scores_of (filter is_valid results) = Spec.successful_signals results.
Proof.
  induction results as [ | r rest IH]; [reflexivity | ].
  simpl. unfold is_valid at 1.
  destruct (risk_score r) as [x | ] eqn:Er; simpl.
  - destruct (status r =? "success")%string; simpl.
    + rewrite Er. simpl. now rewrite IH.
    + exact IH.
  - exact IH.
Qed.

Lemma bucket_of_mean (m : Float64.float) :
  Spec.four_bucket m
    (if Float64.ge m Float64.f0_8 then "high"
     else if Float64.ge m Float64.f0_5 then "medium"
     else if Float64.ge m Float64.f0_2 then "low"
     else "clean").
Proof.
  unfold Spec.four_bucket.
  destruct (Float64.ge m Float64.f0_8) eqn:E8;
    [ | destruct (Float64.ge m Float64.f0_5) eqn:E5;
        [ | destruct (Float64.ge m Float64.f0_2) eqn:E2 ] ];
    repeat split; intros;
    repeat match goal with
      | H : Float64.lt _ _ = true |- _ =>
          apply Float64Facts.lt_not_ge in H
      end;
    try match goal with
      | H : Float64.ge _ Float64.f0_8 = true |- _ =>
          pose proof (Float64Facts.ge_0_8_ge_0_5 _ H)
      end;
    try match goal with
      | H : Float64.ge _ Float64.f0_5 = true |- _ =>
          pose proof (Float64Facts.ge_0_5_ge_0_2 _ H)
      end;
    try congruence; simpl; tauto.
Qed.

(** C3.  With at least one successful result carrying a risk signal, the
    overall verdict is the bucket of the mean of exactly those signals:
    mean >= 0.8 is ["high"], 0.5 <= mean < 0.8 is ["medium"],
    0.2 <= mean < 0.5 is ["low"], mean < 0.2 is ["clean"]; results with
    another status or a null signal do not enter the mean. *)
Theorem calculate_overall_risk_buckets (results : list IOCSourceResult) :
  (exists r, In r results /\ status r = "success" /\ risk_score r <> None) ->
  exists verdict,
    _calculate_overall_risk results = Some verdict
    /\ Spec.four_bucket (Spec.mean (Spec.successful_signals results)) verdict.
Proof.
  intros [r [Hin Hv]].
  unfold _calculate_overall_risk.
  assert (H1 : Py.nonempty results = true)
    by (apply nonempty_exists; now exists r).
  assert (H2 : Py.nonempty (filter is_valid results) = true).
  { apply nonempty_exists. exists r. apply filter_In. split; [exact Hin | ].
    now apply is_valid_true. }
  rewrite H1, H2. simpl negb. cbv iota.
  rewrite scores_of_valid.
  fold (Spec.mean (Spec.successful_signals results)).
  pose proof (bucket_of_mean (Spec.mean (Spec.successful_signals results)))
    as Hb.
  destruct (Float64.ge (Spec.mean (Spec.successful_signals results))
              Float64.f0_8);
    [ | destruct (Float64.ge (Spec.mean (Spec.successful_signals results))
                    Float64.f0_5);
        [ | destruct (Float64.ge (Spec.mean (Spec.successful_signals results))
                        Float64.f0_2) ] ];
    eexists; split; try reflexivity; exact Hb.
Qed.

(** The boundaries are inclusive: a lone signal of exactly 0.5 is
    ["medium"], one of exactly 0.2 is ["low"], and an error result next to
    it does not change the mean. *)
Lemma calculate_overall_risk_buckets_witness :
  (exists verdict,
      _calculate_overall_risk
        [mk "a" "success" (Some Float64.f0_5); mk "b" "error" None]
      = Some verdict
      /\ Spec.four_bucket
           (Spec.mean
              (Spec.successful_signals
                 [mk "a" "success" (Some Float64.f0_5); mk "b" "error" None]))
           verdict)
  /\ _calculate_overall_risk
       [mk "a" "success" (Some Float64.f0_5); mk "b" "error" None]
     = Some "medium"
  /\ _calculate_overall_risk [mk "a" "success" (Some Float64.f0_2)]
     = Some "low"
  /\ _calculate_overall_risk
       [mk "a" "success" (Some Float64.f0_9);
        mk "b" "success" (Some Float64.f0_1)] = Some "medium".
Proof.
  split; [ | repeat split; vm_compute; reflexivity].
  apply calculate_overall_risk_buckets.
  exists (mk "a" "success" (Some Float64.f0_5)).
  split; [now left | split; [reflexivity | discriminate]].
Defined.

End Aggregation.

(** ** The template adapter *)

Module Adapter.

Import DynamicAPIClient.
Import Sample.







(** The request built for the sample source. *)
Example build_request_virustotal :
  build_request (env_with HttpTimeout no_faults)
    (init virustotal "k" None None None) "ip" "8.8.8.8" 30
  = Ok {| rq_method := "GET";
          rq_url := "https://api.example.org/v1/ip/8.8.8.8";
          rq_headers := [("x-apikey", "k")];
          rq_params := Some [];
          rq_json := None;
          rq_auth := None;
          rq_timeout := 30 |}.
Proof. reflexivity. Qed.

End Adapter.

(** ** How the operations extend the trace *)

Module Frame.

Import Trace.

Lemma step_refl (w : World) : step w w [].
Proof. split; [now rewrite app_nil_r | reflexivity]. Qed.

Lemma step_trans (w w1 w2 : World) (e1 e2 : list Event) :
  step w w1 e1 -> step w1 w2 e2 -> step w w2 (List.app e1 e2).
Proof.
  intros [H1 S1] [H2 S2]. split.
  - now rewrite H2, H1, app_assoc.
  - now rewrite S2, S1.
Qed.

Lemma step_events (w w' : World) (evs : list Event) :
  step w w' evs -> events_since w w' = evs.
Proof.
  intros [H _]. unfold events_since. rewrite H.
  rewrite skipn_app, skipn_all, Nat.sub_diag. reflexivity.
Qed.

Lemma step_emit (e : Event) (w : World) : step w (emit e w) [e].
Proof. split; reflexivity. Qed.

Lemma silent_trans (w w1 w2 : World) :
  silent w w1 -> silent w1 w2 -> silent w w2.
Proof. intros H1 H2. exact (step_trans H1 H2). Qed.

Lemma step_silent_r (w w1 w2 : World) (evs : list Event) :
  step w w1 evs -> silent w1 w2 -> step w w2 evs.
Proof.
  intros H1 H2. rewrite <- (app_nil_r evs). exact (step_trans H1 H2).
Qed.

Lemma step_silent_l (w w1 w2 : World) (evs : list Event) :
  silent w w1 -> step w1 w2 evs -> step w w2 evs.
Proof. intros H1 H2. exact (step_trans H1 H2). Qed.

Lemma silent_set_session (p f c : list Row) (n : nat) (w : World) :
  silent w (set_session p f c n w).
Proof. split; [simpl; now rewrite app_nil_r | reflexivity]. Qed.

Lemma silent_set_uuids (n : nat) (w : World) : silent w (set_uuids n w).
Proof. split; [simpl; now rewrite app_nil_r | reflexivity]. Qed.

Lemma silent_set_redis r (w : World) : silent w (set_redis r w).
Proof. split; [simpl; now rewrite app_nil_r | reflexivity]. Qed.

Lemma silent_set_mem m (w : World) : silent w (set_mem m w).
Proof. split; [simpl; now rewrite app_nil_r | reflexivity]. Qed.

Lemma silent_add (r : Row) (w : World) : silent w (Session.add r w).
Proof. apply silent_set_session. Qed.

Lemma silent_flush (env : Env) (w : World) :
  silent w (snd (Session.flush env w)).
Proof.
  unfold Session.flush. destruct (db_fault env (w_writes w)); simpl;
    apply silent_set_session.
Qed.

Lemma silent_commit (env : Env) (w : World) :
  silent w (snd (Session.commit env w)).
Proof.
  unfold Session.commit. destruct (db_fault env (w_writes w)); simpl;
    apply silent_set_session.
Qed.

Lemma silent_rollback (w : World) : silent w (Session.rollback w).
Proof. apply silent_set_session. Qed.

Lemma silent_fresh_uuid (env : Env) (w : World) :
  silent w (snd (fresh_uuid env w)).
Proof. apply silent_set_uuids. Qed.

Lemma silent_cache_get (ioc_type ioc_value : string) (w : World) :
  silent w (snd (Cache.get ioc_type ioc_value w)).
Proof.
  unfold Cache.get.
  destruct (Cache.lookup _ (w_mem w)) as [[response stored_at] | ]; simpl;
    [ | apply step_refl].
  destruct (w_now w - stored_at >? Cache.ttl); simpl;
    [apply silent_set_mem | apply step_refl].
Qed.

Lemma silent_cache_set (response : IOCQueryResponse) (w : World) :
  silent w (Cache.set response w).
Proof. apply silent_set_mem. Qed.

Lemma silent_redis_set (key : string) (response : IOCQueryResponse)
  (w : World) : silent w (Cache.redis_set key response w).
Proof.
  unfold Cache.redis_set. destruct (w_redis w);
    [apply silent_set_redis | apply step_refl].
Qed.

Lemma silent_cache_lookup (payload : IOCQueryRequest) (w : World) :
  silent w (snd (IOCService.cache_lookup payload w)).
Proof.
  unfold IOCService.cache_lookup.
  destruct (Cache.redis_get _ w) as [[cached | ] | ]; simpl;
    try apply step_refl;
    pose proof (silent_cache_get (req_ioc_type payload)
                  (req_ioc_value payload) w) as Hg;
    destruct (Cache.get _ _ w) as [[cached_response | ] w1]; simpl in *;
    try exact Hg;
    exact (silent_trans Hg (silent_redis_set _ _ _)).
Qed.

Lemma http_only_nil : http_only [].
Proof. split; reflexivity. Qed.

Lemma http_only_app (e1 e2 : list Event) :
  http_only e1 -> http_only e2 -> http_only (List.app e1 e2).
Proof.
  unfold http_only, checked_items, orchestrator_calls.
  intros [A1 B1] [A2 B2]. rewrite !flat_map_app.
  unfold checked_items, orchestrator_calls in *.
  now rewrite A1, A2, B1, B2.
Qed.

Lemma adds_http_silent (w w' : World) : silent w w' -> adds_http w w'.
Proof. intros H. exists []. split; [exact H | exact http_only_nil]. Qed.

Lemma adds_http_trans (w w1 w2 : World) :
  adds_http w w1 -> adds_http w1 w2 -> adds_http w w2.
Proof.
  intros [e1 [S1 H1]] [e2 [S2 H2]]. exists (List.app e1 e2). split.
  - exact (step_trans S1 S2).
  - now apply http_only_app.
Qed.

Lemma adds_http_adapter (env : Env) (self : DynamicAPIClient.t)
  (ioc_type ioc_value : string) (timeout : Z) (w : World) :
  adds_http w (snd (DynamicAPIClient.query env self ioc_type ioc_value
                      timeout w)).
Proof.
  unfold DynamicAPIClient.query.
  destruct (DynamicAPIClient.build_request env self ioc_type ioc_value
              timeout) as [req | e]; simpl.
  - exists [EvHttp req]. split; [apply step_emit | split; reflexivity].
  - apply adds_http_silent, step_refl.
Qed.

Lemma isolate_snd (api_source : APISource)
  (r : result IOCSourceResult * World) :
  snd (IOCService.isolate api_source r) = snd r.
Proof. destruct r as [[res | e] w]; reflexivity. Qed.

Lemma adds_http_single_source (env : Env) (api_key : APIKey)
  (api_source : APISource) (ioc_type ioc_value : string) (w : World) :
  adds_http w
    (snd (IOCService._query_single_source env api_key api_source ioc_type
            ioc_value w)).
Proof.
  unfold IOCService._query_single_source. rewrite isolate_snd.
  unfold IOCService._query_single_source_try.
  destruct (IOCService.type_not_supported api_source ioc_type);
    [apply adds_http_silent, step_refl | ].
  destruct (IOCService.resolve_key env api_key api_source) as [early | key];
    [apply adds_http_silent, step_refl | ].
  match goal with
  | |- context [DynamicAPIClient.query ?e ?c ?t ?v ?n w] =>
      pose proof (adds_http_adapter e c t v n w) as Hq;
      destruct (DynamicAPIClient.query e c t v n w) as [[res | ex] w1]
  end; simpl in Hq; [ | exact Hq].
  match goal with
  | |- context [Session.commit env ?w2] =>
      pose proof (silent_commit env w2) as Hc;
      destruct (Session.commit env w2) as [[u | ex] w3]
  end; simpl in *;
    (apply (adds_http_trans Hq); apply adds_http_silent;
     exact (silent_trans (silent_add _ _) Hc)).
Qed.

Lemma adds_http_single_source_without_key (env : Env)
  (api_source : APISource) (ioc_type ioc_value : string) (w : World) :
  adds_http w
    (snd (IOCService._query_single_source_without_key env api_source
            ioc_type ioc_value w)).
Proof.
  unfold IOCService._query_single_source_without_key. rewrite isolate_snd.
  unfold IOCService._query_single_source_without_key_try.
  destruct (IOCService.type_not_supported api_source ioc_type);
    [apply adds_http_silent, step_refl | ].
  match goal with
  | |- context [DynamicAPIClient.query ?e ?c ?t ?v ?n w] =>
      pose proof (adds_http_adapter e c t v n w) as Hq;
      destruct (DynamicAPIClient.query e c t v n w) as [[res | ex] w1]
  end; simpl in *; exact Hq.
Qed.

Lemma adds_http_query_one (env : Env) (ks : option APIKey * APISource)
  (ioc_type ioc_value : string) (w : World) :
  adds_http w (snd (IOCService.query_one env ks ioc_type ioc_value w)).
Proof.
  unfold IOCService.query_one. destruct (fst ks).
  - apply adds_http_single_source.
  - apply adds_http_single_source_without_key.
Qed.

Lemma adds_http_query_all (env : Env)
  (sources : list (option APIKey * APISource))
  (ioc_type ioc_value : string) (w : World) :
  adds_http w (snd (IOCService.query_all env sources ioc_type ioc_value w)).
Proof.
  revert w. induction sources as [ | ks rest IH]; intros w; simpl.
  - apply adds_http_silent, step_refl.
  - pose proof (adds_http_query_one env ks ioc_type ioc_value w) as H1.
    destruct (IOCService.query_one env ks ioc_type ioc_value w) as [r w1].
    pose proof (IH w1) as H2.
    destruct (IOCService.query_all env rest ioc_type ioc_value w1)
      as [rs w2].
    simpl in *. exact (adds_http_trans H1 H2).
Qed.

Lemma silent_add_threat_data (env : Env) (ioc_query_id : string)
  (source_results : list IOCSourceResult) (w : World) :
  silent w (IOCService.add_threat_data env ioc_query_id source_results w).
Proof.
  revert w. induction source_results as [ | r rest IH]; intros w; simpl.
  - apply step_refl.
  - destruct (find _ (w_api_sources w)); [ | apply IH].
    eapply silent_trans; [ | apply IH].
    exact (silent_trans (silent_set_uuids _ w) (silent_add _ _)).
Qed.

Lemma silent_save_try (env : Env) (user_id : string)
  (payload : IOCQueryRequest) (response : IOCQueryResponse) (w : World) :
  silent w
    (snd (IOCService._save_query_to_db_try env user_id payload response w)).
Proof.
  unfold IOCService._save_query_to_db_try. simpl.
  match goal with
  | |- context [Session.flush env ?w2] =>
      pose proof (silent_flush env w2) as Hf;
      assert (H2 : silent w w2)
        by exact (silent_trans (silent_set_uuids _ w) (silent_add _ _));
      destruct (Session.flush env w2) as [[u | ex] w3]
  end; simpl in *.
  - eapply silent_trans; [exact (silent_trans H2 Hf) | ].
    eapply silent_trans; [apply silent_add_threat_data | apply silent_commit].
  - exact (silent_trans H2 Hf).
Qed.

Lemma silent_save (env : Env) (user_id : string)
  (payload : IOCQueryRequest) (response : IOCQueryResponse) (w : World) :
  silent w (IOCService._save_query_to_db env user_id payload response w).
Proof.
  unfold IOCService._save_query_to_db.
  pose proof (silent_save_try env user_id payload response w) as H.
  destruct (IOCService._save_query_to_db_try env user_id payload response w)
    as [[u | ex] w1]; simpl in *; [exact H | ].
  exact (silent_trans H (silent_rollback _)).
Qed.

(** A call of the orchestrator shows as one [EvQueryIOC] event, followed
    by the HTTP requests of the fan-out. *)
Lemma step_query_ioc (env : Env) (user_id : string)
  (payload : IOCQueryRequest) (auto_mode_only : bool) (w : World) :
  exists evs,
    step w (snd (IOCService.query_ioc env user_id payload auto_mode_only w))
      (EvQueryIOC user_id payload auto_mode_only :: evs)
    /\ http_only evs.
Proof.
  unfold IOCService.query_ioc.
  set (w0 := emit (EvQueryIOC user_id payload auto_mode_only) w).
  assert (H0 : step w w0 [EvQueryIOC user_id payload auto_mode_only])
    by apply step_emit.
  pose proof (silent_cache_lookup payload w0) as Hc.
  destruct (IOCService.cache_lookup payload w0) as [[cached | ] w1];
    simpl in Hc.
  - exists []. split; [exact (step_silent_r H0 Hc) | exact http_only_nil].
  - destruct (negb (Py.nonempty
                      (IOCService.all_sources_to_query payload
                         auto_mode_only w1))).
    + exists []. split; [exact (step_silent_r H0 Hc) | exact http_only_nil].
    + match goal with
      | |- context [IOCService.query_all env ?s ?t ?v w1] =>
          pose proof (adds_http_query_all env s t v w1) as Hq;
          destruct (IOCService.query_all env s t v w1) as [results w2]
      end.
      simpl in Hq. destruct Hq as [evs [Hs Hh]].
      exists evs. split; [ | exact Hh]. simpl.
      change (EvQueryIOC user_id payload auto_mode_only :: evs)
        with (List.app [EvQueryIOC user_id payload auto_mode_only] evs).
      eapply step_silent_r.
      * exact (step_trans (step_silent_r H0 Hc) Hs).
      * eapply silent_trans; [apply silent_cache_set | ].
        eapply silent_trans; [apply silent_redis_set | apply silent_save].
Qed.

End Frame.

(** ** The scheduler's trace *)

Module SchedulerTrace.

Import Trace.
Import Frame.
Import WatchlistScheduler.

Lemma silent_create_alert (env : Env) (user_id : string)
  (watchlist : AssetWatchlist) (item : AssetWatchlistItem)
  (severity : AlertSeverity) (overall : option string) (w : World) :
  silent w
    (snd (create_alert env user_id watchlist item severity overall w)).
Proof.
  unfold create_alert.
  destruct (validate_alert_create (alert_title item)); [ | apply step_refl].
  simpl.
  eapply silent_trans; [apply silent_set_uuids | ].
  eapply silent_trans; [apply silent_add | apply silent_commit].
Qed.

(** One item check: the check itself, one orchestrator call in automatic
    mode, and the HTTP requests of that call. *)
Lemma step_check_item (env : Env) (item : AssetWatchlistItem)
  (watchlist : AssetWatchlist) (w : World) :
  exists evs,
    step w (snd (_check_watchlist_item env item watchlist w))
      (EvCheckItem (item_id item)
       :: EvQueryIOC (wl_user_id watchlist) (Spec.request_for item) true
       :: evs)
    /\ http_only evs.
Proof.
  unfold _check_watchlist_item.
  set (w0 := emit (EvCheckItem (item_id item)) w).
  fold (Spec.request_for item).
  destruct (step_query_ioc env (wl_user_id watchlist) (Spec.request_for item)
              true w0) as [evs [Hq Hh]].
  destruct (IOCService.query_ioc env (wl_user_id watchlist)
              (Spec.request_for item) true w0) as [ioc_response w1].
  simpl in Hq. exists evs. split; [ | exact Hh].
  assert (H1 : step w w1
                 (EvCheckItem (item_id item)
                  :: EvQueryIOC (wl_user_id watchlist)
                       (Spec.request_for item) true :: evs)).
  { change (EvCheckItem (item_id item)
            :: EvQueryIOC (wl_user_id watchlist) (Spec.request_for item) true
            :: evs)
      with (List.app [EvCheckItem (item_id item)]
              (EvQueryIOC (wl_user_id watchlist) (Spec.request_for item) true
               :: evs)).
    exact (step_trans (step_emit _ w) Hq). }
  apply (step_silent_r H1).
  match goal with
  | |- context [Session.flush env ?w2] =>
      pose proof (silent_flush env w2) as Hf;
      assert (H2 : silent w1 w2) by apply silent_add;
      destruct (Session.flush env w2) as [[u | ex] w3]
  end; simpl in Hf; [ | exact (silent_trans H2 Hf)].
  apply (silent_trans (silent_trans H2 Hf)). simpl.
  match goal with
  | |- context [Session.flush env ?w4] =>
      pose proof (silent_flush env w4) as Hf2;
      assert (H4 : silent w3 w4)
        by exact (silent_trans (silent_set_uuids _ w3) (silent_add _ _));
      destruct (Session.flush env w4) as [[u2 | ex2] w5]
  end; simpl in Hf2; [ | exact (silent_trans H4 Hf2)].
  apply (silent_trans (silent_trans H4 Hf2)).
  destruct (_should_trigger_alert (item_risk_threshold item)
              (overall_risk ioc_response)); [ | apply silent_commit].
  match goal with
  | |- context [create_alert ?e ?u ?wl ?i ?s ?o w5] =>
      pose proof (silent_create_alert e u wl i s o w5) as Ha;
      destruct (create_alert e u wl i s o w5) as [[u3 | ex3] w6]
  end; simpl in Ha; [ | exact Ha].
  exact (silent_trans Ha (silent_commit env w6)).
Qed.

(** The loop over the items: every item checked is one the decision
    selects, and every call is made for the watchlist. *)
Lemma step_check_items (env : Env) (current_time : Z)
  (watchlist : AssetWatchlist) (items : list AssetWatchlistItem)
  (w : World) :
  exists evs checked,
    step w (snd (check_items env current_time watchlist items w)) evs
    /\ checked_items evs = map item_id checked
    /\ orchestrator_calls evs = map (call_for watchlist) checked
    /\ (Forall (fun i => match item_last_check_date i with
                         | Some d => is_aware d = true
                         | None => True
                         end) items ->
        checked
        = filter (fun i => match should_check current_time watchlist i with
                           | Ok b => b
                           | Raise _ => false
                           end) items).
Proof.
  revert w. induction items as [ | item rest IH]; intros w; simpl.
  - exists [], []. split; [apply step_refl | repeat split].
  - destruct (should_check current_time watchlist item) as [[ | ] | e] eqn:E.
    + destruct (step_check_item env item watchlist w) as [e1 [S1 [C1 O1]]].
      destruct (IH (snd (_check_watchlist_item env item watchlist w)))
        as [e2 [checked [S2 [C2 [O2 A2]]]]].
      eexists. exists (item :: checked).
      split; [exact (step_trans S1 S2) | ].
      unfold checked_items, orchestrator_calls in *.
      simpl. rewrite !flat_map_app. rewrite C1, C2, O1, O2.
      split; [reflexivity | split; [reflexivity | ]].
      intros Ha. inversion Ha; subst. now rewrite A2.
    + destruct (IH w) as [e2 [checked [S2 [C2 [O2 A2]]]]].
      exists e2, checked. split; [exact S2 | ].
      split; [exact C2 | split; [exact O2 | ]].
      intros Ha. inversion Ha; subst. now apply A2.
    + exists [], []. split; [apply step_refl | ].
      split; [reflexivity | split; [reflexivity | ]].
      intros Ha. inversion Ha as [ | ? ? Hi _]; subst. exfalso.
      unfold should_check in E.
      destruct (item_last_check_date item) as [[t | t] | ];
        simpl in *; discriminate.
Qed.

Lemma filter_filter {A} (f g : A -> bool) (l : list A) :
  filter g (filter f l) = filter (fun a => (f a && g a)%bool) l.
Proof.
  induction l as [ | a l IH]; [reflexivity | ].
  simpl. destruct (f a); simpl; [destruct (g a) | ]; now rewrite IH.
Qed.

Lemma should_check_due (now : Z) (watchlist : AssetWatchlist)
  (item : AssetWatchlistItem) :
  match item_last_check_date item with
  | Some d => is_aware d = true
  | None => True
  end ->
  should_check now watchlist item = Ok (Spec.due now watchlist item).
Proof.
  unfold should_check, Spec.due, minutes.
  destruct (item_last_check_date item) as [[t | t] | ]; simpl;
    try discriminate; intros _; [ | reflexivity].
  rewrite Z.geb_leb. do 2 f_equal. lia.
Qed.

Lemma active_items_of (watchlist : AssetWatchlist) (w : World) :
  active_items watchlist w = Spec.items_of watchlist w.
Proof. unfold active_items, Spec.items_of. apply filter_filter. Qed.

Lemma static_items_of (watchlist : AssetWatchlist) (w w' : World) :
  static w' = static w ->
  Spec.items_of watchlist w' = Spec.items_of watchlist w /\ w_now w' = w_now w.
Proof.
  unfold static, Spec.items_of. intros H. injection H as H1 H2 H3 H4 H5.
  now rewrite H5, H1.
Qed.

(** One watchlist on a tick: the calls are automatic; when the stored
    timestamps of its items are aware, the items checked are those the
    elapsed-time rule selects. *)
Lemma step_check_watchlist (env : Env) (watchlist : AssetWatchlist)
  (w : World) :
  exists evs,
    step w (snd (_check_watchlist env watchlist w)) evs
    /\ Forall automatic (orchestrator_calls evs)
    /\ (Spec.timestamps_aware (Spec.items_of watchlist w) ->
        checked_items evs
        = Spec.items_to_check (watchlist_scheduler_min_check_interval env)
            (w_now w) watchlist (Spec.items_of watchlist w)).
Proof.
  unfold _check_watchlist, Spec.items_to_check.
  destruct (wl_check_interval watchlist
            <? watchlist_scheduler_min_check_interval env).
  - exists []. split; [apply step_refl | split; [constructor | reflexivity]].
  - rewrite active_items_of.
    destruct (Spec.items_of watchlist w) as [ | item rest] eqn:E.
    + exists []. split; [apply step_refl | split; [constructor | reflexivity]].
    + change (negb (Py.nonempty (item :: rest))) with false. cbv iota.
      destruct (step_check_items env (w_now w) watchlist (item :: rest) w)
        as [evs [checked [S [C [O A]]]]].
      exists evs. split; [exact S | ]. split.
      * rewrite O. apply Forall_forall. intros c Hc.
        apply in_map_iff in Hc. destruct Hc as [i [<- _]]. reflexivity.
      * intros Ha. rewrite C, (A Ha). f_equal.
        unfold Spec.timestamps_aware in Ha.
        revert Ha. generalize (item :: rest). intros l Ha.
        induction Ha as [ | i l Hi _ IH]; [reflexivity | ].
        simpl. rewrite (should_check_due (w_now w) watchlist i Hi).
        now rewrite IH.
Qed.

Lemma step_check_watchlists (env : Env) (watchlists : list AssetWatchlist)
  (w0 w : World) :
  static w = static w0 ->
  exists evs,
    step w
      (fold_left (fun w watchlist => snd (_check_watchlist env watchlist w))
         watchlists w) evs
    /\ Forall automatic (orchestrator_calls evs)
    /\ (Forall (fun wl => Spec.timestamps_aware (Spec.items_of wl w0))
          watchlists ->
        checked_items evs
        = flat_map
            (fun wl =>
               Spec.items_to_check
                 (watchlist_scheduler_min_check_interval env)
                 (w_now w0) wl (Spec.items_of wl w0)) watchlists).
Proof.
  revert w. induction watchlists as [ | wl rest IH]; intros w Hs; simpl.
  - exists []. split; [apply step_refl | split; [constructor | reflexivity]].
  - destruct (step_check_watchlist env wl w) as [e1 [S1 [O1 C1]]].
    assert (Hs1 : static (snd (_check_watchlist env wl w)) = static w0)
      by (destruct S1 as [_ S1]; now rewrite S1).
    destruct (IH _ Hs1) as [e2 [S2 [O2 C2]]].
    exists (List.app e1 e2). split; [exact (step_trans S1 S2) | ].
    destruct (static_items_of wl Hs) as [Hi Hn].
    unfold checked_items, orchestrator_calls in *.
    rewrite !flat_map_app. split.
    + apply Forall_app. now split.
    + intros Ha. inversion Ha as [ | ? ? Ha1 Ha2]; subst.
      rewrite Hi, Hn in C1. now rewrite (C1 Ha1), (C2 Ha2).
Qed.

(** One tick of the scheduler. *)
Lemma step_check_all_watchlists (env : Env) (w : World) :
  exists evs,
    step w (_check_all_watchlists env w) evs
    /\ Forall automatic (orchestrator_calls evs)
    /\ (Forall (fun wl => Spec.timestamps_aware (Spec.items_of wl w))
          (Spec.monitored w) ->
        checked_items evs
        = flat_map
            (fun wl =>
               Spec.items_to_check
                 (watchlist_scheduler_min_check_interval env)
                 (w_now w) wl (Spec.items_of wl w)) (Spec.monitored w)).
Proof.
  unfold _check_all_watchlists, Spec.monitored.
  rewrite filter_filter.
  destruct (step_check_watchlists env
              (filter (fun wl =>
                         (wl_is_active wl && wl_notification_enabled wl)%bool)
                 (w_watchlists w)) (w0 := w) (w := w) eq_refl)
    as [evs [S [O C]]].
  exists evs. split; [ | now split].
  exact (step_silent_r S (silent_rollback _)).
Qed.

End SchedulerTrace.

(** ** The registry and the scheduler *)

Module Registry.

Import Trace.
Import Frame.
Import SchedulerTrace.
Import Sample.

Lemma active_api_keys_filtered (sources : option (list string))
  (auto_mode_only : bool) (w : World) (k : APIKey) (s : APISource) :
  In (k, s) (IOCService._get_active_api_keys sources auto_mode_only w) ->
  key_is_active k = true /\ src_is_active s = true
  /\ (auto_mode_only = true -> key_update_mode k = AUTO).
Proof.
  unfold IOCService._get_active_api_keys. intros H.
  apply filter_In in H. destruct H as [H _].
  assert (Hact : In (k, s)
                   (filter (fun ks : APIKey * APISource =>
                              src_is_active (snd ks))
                      (filter (fun ks : APIKey * APISource =>
                                 key_is_active (fst ks))
                         (flat_map
                            (fun k0 =>
                               map (fun s0 => (k0, s0))
                                 (filter
                                    (fun s0 =>
                                       (key_api_source_id k0 =? src_id s0)%string)
                                    (w_api_sources w))) (w_api_keys w))))
                 /\ (auto_mode_only = true -> key_update_mode k = AUTO)).
  { destruct auto_mode_only.
    - apply filter_In in H. destruct H as [H Hm]. split; [exact H | ].
      intros _. simpl in Hm. now destruct (key_update_mode k).
    - split; [exact H | discriminate]. }
  destruct Hact as [Hact Hauto].
  apply filter_In in Hact. destruct Hact as [Hact Hs].
  apply filter_In in Hact. destruct Hact as [_ Hk].
  simpl in Hs, Hk. now repeat split.
Qed.

(** C5.  Every (credential, descriptor) pair the registry returns has
    both halves active, and in automatic mode the credential's update
    mode is [auto]; an item check of the scheduler calls the orchestrator
    once, in automatic mode, and so does every call made on a tick. *)
Theorem registry_pairs_active_and_scheduler_automatic :
  (forall sources auto_mode_only w k s,
      In (k, s) (IOCService._get_active_api_keys sources auto_mode_only w) ->
      key_is_active k = true /\ src_is_active s = true
      /\ (auto_mode_only = true -> key_update_mode k = AUTO))
  /\ (forall env item watchlist w,
         orchestrator_calls
           (events_since w
              (snd (WatchlistScheduler._check_watchlist_item env item
                      watchlist w)))
         = [(wl_user_id watchlist, Spec.request_for item, true)])
  /\ (forall env w,
         Forall automatic
           (orchestrator_calls
              (events_since w
                 (WatchlistScheduler._check_all_watchlists env w)))).
Proof.
  split; [exact active_api_keys_filtered | split].
  - intros env item watchlist w.
    destruct (step_check_item env item watchlist w) as [evs [S [_ O]]].
    rewrite (step_events S). unfold orchestrator_calls in *. simpl.
    now rewrite O.
  - intros env w.
    destruct (step_check_all_watchlists env w) as [evs [S [O _]]].
    now rewrite (step_events S).
Qed.

Lemma registry_pairs_active_and_scheduler_automatic_witness :
  IOCService._get_active_api_keys None true registry_world
  = [(key_auto, virustotal)]
  /\ IOCService._get_active_api_keys None false registry_world
     = [(key_auto, virustotal); (key_manual, virustotal)]
  /\ (key_is_active key_auto = true /\ src_is_active virustotal = true
      /\ (true = true -> key_update_mode key_auto = AUTO)).
Proof.
  split; [reflexivity | split; [reflexivity | ]].
  apply (proj1 registry_pairs_active_and_scheduler_automatic
           None true registry_world key_auto virustotal).
  simpl. left. reflexivity.
Defined.

End Registry.

(** ** The scheduler's gates *)

Module Gating.

Import Trace.
Import Frame.
Import SchedulerTrace.
Import Sample.
Import Fixtures.

Lemma due_iff (now : Z) (watchlist : AssetWatchlist)
  (item : AssetWatchlistItem) :
  Spec.due now watchlist item = true <->
  (item_last_check_date item = None
   \/ exists last_check,
        item_last_check_date item = Some last_check
        /\ now - instant_of last_check
           >= wl_check_interval watchlist * 60000000).
Proof.
  unfold Spec.due.
  destruct (item_last_check_date item) as [t | ]; split; intros H.
  - right. exists t. split; [reflexivity | ]. apply Z.leb_le in H. lia.
  - destruct H as [H | [t' [H1 H2]]]; [discriminate | ].
    injection H1 as <-. apply Z.leb_le. lia.
  - now left.
  - reflexivity.
Qed.

(** C6.  The elapsed-time rule is not what a tick does on the default
    database.  SQLite returns the stored [last_check_date] without a
    time zone, and subtracting it from the aware current time raises
    [TypeError]; the subtraction is outside the per-item [try], so the
    exception ends the loop over the watchlist.  Here the first item was
    last checked 61 minutes ago and the second never, in an hourly
    watchlist: both are due, and the tick checks neither. *)
Theorem scheduler_tick_naive_timestamp :
  let env := env_with HttpTimeout no_faults in
  WatchlistScheduler.should_check (w_now sqlite_tick_world)
    (watchlist_with "wl-1" 60)
    (item_read_back "late" "wl-1" (tick_time - 61 * 60000000))
  = Raise (Exn "TypeError"
             "can't subtract offset-naive and offset-aware datetimes")
  /\ checked_items
       (events_since sqlite_tick_world
          (WatchlistScheduler._check_all_watchlists env sqlite_tick_world))
     = []
  /\ flat_map
       (fun wl =>
          Spec.items_to_check (watchlist_scheduler_min_check_interval env)
            (w_now sqlite_tick_world) wl (Spec.items_of wl sqlite_tick_world))
       (Spec.monitored sqlite_tick_world)
     = ["late"; "never"].
Proof. cbv zeta. repeat split. Qed.

(** With stored timestamps that carry a time zone, as PostgreSQL returns
    them, the items checked on a tick are, watchlist by watchlist over
    the active watchlists with notifications enabled: none when the
    watchlist's interval is below the floor; otherwise exactly the active
    items never checked or last checked at least one interval ago.  An
    item checked one minute less than the interval ago is not due, one
    checked one minute more than the interval ago is. *)
Theorem scheduler_tick_gating :
  (forall env w,
      Forall (fun wl => Spec.timestamps_aware (Spec.items_of wl w))
        (Spec.monitored w) ->
      checked_items
        (events_since w (WatchlistScheduler._check_all_watchlists env w))
      = flat_map
          (fun wl =>
             Spec.items_to_check (watchlist_scheduler_min_check_interval env)
               (w_now w) wl (Spec.items_of wl w)) (Spec.monitored w))
  /\ (forall now watchlist item,
         Spec.due now watchlist item = true <->
         (item_last_check_date item = None
          \/ exists last_check,
               item_last_check_date item = Some last_check
               /\ now - instant_of last_check
                  >= wl_check_interval watchlist * 60000000))
  /\ (forall now watchlist id,
         Spec.due now watchlist
           (item_checked_at id (wl_id watchlist)
              (Some (now - (wl_check_interval watchlist - 1) * 60000000)))
         = false
         /\ Spec.due now watchlist
              (item_checked_at id (wl_id watchlist)
                 (Some (now - (wl_check_interval watchlist + 1) * 60000000)))
            = true).
Proof.
  split; [ | split].
  - intros env w Ha.
    destruct (step_check_all_watchlists env w) as [evs [S [_ C]]].
    now rewrite (step_events S), (C Ha).
  - exact due_iff.
  - intros now watchlist id. unfold Spec.due. simpl. split.
    + apply Z.leb_gt. lia.
    + apply Z.leb_le. lia.
Qed.

(** The tick on the sample state: of the hourly watchlist, the item
    never checked and the one checked 61 minutes ago are checked, the one
    checked 59 minutes ago is not; the 30-minute watchlist is passed
    over. *)
Lemma scheduler_tick_gating_witness :
  Forall (fun wl => Spec.timestamps_aware (Spec.items_of wl tick_world))
    (Spec.monitored tick_world)
  /\ checked_items
       (events_since tick_world
          (WatchlistScheduler._check_all_watchlists
             (env_with HttpTimeout no_faults) tick_world))
     = ["never"; "late"].
Proof.
  assert (Ha : Forall
                 (fun wl => Spec.timestamps_aware (Spec.items_of wl tick_world))
                 (Spec.monitored tick_world)).
  { repeat constructor. }
  split; [exact Ha | ].
  rewrite (proj1 scheduler_tick_gating (env_with HttpTimeout no_faults)
             tick_world Ha).
  reflexivity.
Defined.

Example scheduler_tick_runs :
  checked_items
    (w_trace
       (WatchlistScheduler._check_all_watchlists
          (env_with HttpTimeout no_faults) tick_world))
  = ["never"; "late"].
Proof. vm_compute. reflexivity. Qed.

End Gating.

(** ** The alert policy *)

Module AlertPolicy.

Import WatchlistScheduler.
Import Sample.

Lemma mem3 (x a b c : string) :
  Py.mem x [a; b; c] = true <-> x = a \/ x = b \/ x = c.
Proof.
  unfold Py.mem. simpl. rewrite !orb_true_iff, !String.eqb_eq.
  intuition discriminate.
Qed.

Lemma mem2 (x a b : string) :
  Py.mem x [a; b] = true <-> x = a \/ x = b.
Proof.
  unfold Py.mem. simpl. rewrite !orb_true_iff, !String.eqb_eq.
  intuition discriminate.
Qed.

Lemma mem1 (x a : string) : Py.mem x [a] = true <-> x = a.
Proof.
  unfold Py.mem. simpl. rewrite !orb_true_iff, !String.eqb_eq.
  intuition discriminate.
Qed.

Lemma lower_empty (s : string) : Py.truthy s = false -> Py.lower s = EmptyString.
Proof. destruct s; [reflexivity | discriminate]. Qed.

Lemma should_trigger_alert_policy (threshold : RiskThreshold)
  (verdict : string) :
  _should_trigger_alert (Some threshold) (Some verdict) = true
  <-> Spec.policy threshold (Py.lower verdict).
Proof.
  unfold _should_trigger_alert.
  destruct (Py.truthy verdict) eqn:E; simpl negb; cbv iota.
  - destruct threshold; simpl threshold_map; unfold Spec.policy;
      [apply mem3 | apply mem2 | apply mem1 | apply mem1].
  - rewrite (lower_empty _ E).
    destruct threshold; simpl; intuition discriminate.
Qed.

Lemma alert_severity_for (verdict : option string) :
  alert_severity verdict
  = Spec.severity_for
      (Py.lower (match verdict with
                 | Some v => if Py.truthy v then v else "unknown"
                 | None => "unknown"
                 end)).
Proof.
  unfold alert_severity, Spec.severity_for, Py.or_else.
  set (v := Py.lower _). simpl.
  destruct (v =? "low")%string; [reflexivity | ].
  destruct (v =? "medium")%string; [reflexivity | ].
  destruct (v =? "high")%string; [reflexivity | ].
  destruct (v =? "critical")%string; reflexivity.
Qed.

End AlertPolicy.

(** ** How the operations extend the rows of the session *)

Module Rows.

Import Trace.

Lemma appends_refl (w : World) : appends w w [].
Proof. unfold appends. now rewrite app_nil_r. Qed.

Lemma appends_trans (w w1 w2 : World) (r1 r2 : list Row) :
  appends w w1 r1 -> appends w1 w2 r2 -> appends w w2 (List.app r1 r2).
Proof. unfold appends. intros H1 H2. now rewrite H2, H1, app_assoc. Qed.

Lemma appends_same (w w' : World) :
  all_rows w' = all_rows w -> appends w w' [].
Proof. unfold appends. intros ->. now rewrite app_nil_r. Qed.

Lemma appends_add (r : Row) (w : World) : appends w (Session.add r w) [r].
Proof.
  unfold appends, all_rows, Session.add. simpl. now rewrite !app_assoc.
Qed.

(** A flush or a commit, accepted or rejected, keeps every row. *)
Lemma appends_flush (env : Env) (w : World) :
  appends w (snd (Session.flush env w)) [].
Proof.
  apply appends_same. unfold Session.flush, all_rows.
  destruct (db_fault env (w_writes w)); simpl; [reflexivity | ].
  now rewrite app_nil_r.
Qed.

Lemma appends_commit (env : Env) (w : World) :
  appends w (snd (Session.commit env w)) [].
Proof.
  apply appends_same. unfold Session.commit, all_rows.
  destruct (db_fault env (w_writes w)); simpl; [reflexivity | ].
  now rewrite !app_nil_r.
Qed.

Lemma plain_nil : plain [].
Proof. split; reflexivity. Qed.

Lemma plain_app (r1 r2 : list Row) :
  plain r1 -> plain r2 -> plain (List.app r1 r2).
Proof.
  unfold plain, alerts, check_history. intros [A1 B1] [A2 B2].
  rewrite !flat_map_app.
  unfold alerts, check_history in *. now rewrite A1, A2, B1, B2.
Qed.

Lemma adds_plain_same (w w' : World) :
  all_rows w' = all_rows w -> adds_plain w w'.
Proof.
  intros H. exists []. split; [now apply appends_same | exact plain_nil].
Qed.

Lemma adds_plain_trans (w w1 w2 : World) :
  adds_plain w w1 -> adds_plain w1 w2 -> adds_plain w w2.
Proof.
  intros [r1 [A1 P1]] [r2 [A2 P2]]. exists (List.app r1 r2). split.
  - exact (appends_trans A1 A2).
  - now apply plain_app.
Qed.

Lemma adds_plain_adapter (env : Env) (self : DynamicAPIClient.t)
  (ioc_type ioc_value : string) (timeout : Z) (w : World) :
  adds_plain w
    (snd (DynamicAPIClient.query env self ioc_type ioc_value timeout w)).
Proof.
  apply adds_plain_same. unfold DynamicAPIClient.query.
  destruct (DynamicAPIClient.build_request _ _ _ _ _); reflexivity.
Qed.

Lemma adds_plain_single_source (env : Env) (api_key : APIKey)
  (api_source : APISource) (ioc_type ioc_value : string) (w : World) :
  adds_plain w
    (snd (IOCService._query_single_source env api_key api_source ioc_type
            ioc_value w)).
Proof.
  unfold IOCService._query_single_source. rewrite Frame.isolate_snd.
  unfold IOCService._query_single_source_try.
  destruct (IOCService.type_not_supported api_source ioc_type);
    [now apply adds_plain_same | ].
  destruct (IOCService.resolve_key env api_key api_source) as [early | key];
    [now apply adds_plain_same | ].
  match goal with
  | |- context [DynamicAPIClient.query ?e ?c ?t ?v ?n w] =>
      pose proof (adds_plain_adapter e c t v n w) as Hq;
      destruct (DynamicAPIClient.query e c t v n w) as [[res | ex] w1]
  end; simpl in Hq; [ | exact Hq].
  apply (adds_plain_trans Hq).
  match goal with
  | |- context [Session.commit env ?w2] =>
      pose proof (appends_commit env w2) as Hc;
      destruct (Session.commit env w2) as [[u | ex] w3]
  end; simpl in *;
    (exists (List.app [RKeyLastUsed (key_id api_key) (w_now w1)] []);
     split; [exact (appends_trans (appends_add _ _) Hc)
            | split; reflexivity]).
Qed.

Lemma adds_plain_single_source_without_key (env : Env)
  (api_source : APISource) (ioc_type ioc_value : string) (w : World) :
  adds_plain w
    (snd (IOCService._query_single_source_without_key env api_source
            ioc_type ioc_value w)).
Proof.
  unfold IOCService._query_single_source_without_key.
  rewrite Frame.isolate_snd.
  unfold IOCService._query_single_source_without_key_try.
  destruct (IOCService.type_not_supported api_source ioc_type);
    [now apply adds_plain_same | ].
  match goal with
  | |- context [DynamicAPIClient.query ?e ?c ?t ?v ?n w] =>
      pose proof (adds_plain_adapter e c t v n w) as Hq;
      destruct (DynamicAPIClient.query e c t v n w) as [[res | ex] w1]
  end; simpl in *; exact Hq.
Qed.

Lemma adds_plain_query_all (env : Env)
  (sources : list (option APIKey * APISource))
  (ioc_type ioc_value : string) (w : World) :
  adds_plain w
    (snd (IOCService.query_all env sources ioc_type ioc_value w)).
Proof.
  revert w. induction sources as [ | ks rest IH]; intros w; simpl.
  - now apply adds_plain_same.
  - assert (H1 : adds_plain w
                   (snd (IOCService.query_one env ks ioc_type ioc_value w))).
    { unfold IOCService.query_one. destruct (fst ks).
      - apply adds_plain_single_source.
      - apply adds_plain_single_source_without_key. }
    destruct (IOCService.query_one env ks ioc_type ioc_value w) as [r w1].
    pose proof (IH w1) as H2.
    destruct (IOCService.query_all env rest ioc_type ioc_value w1)
      as [rs w2].
    simpl in *. exact (adds_plain_trans H1 H2).
Qed.

Lemma adds_plain_add_threat_data (env : Env) (ioc_query_id : string)
  (source_results : list IOCSourceResult) (w : World) :
  adds_plain w
    (IOCService.add_threat_data env ioc_query_id source_results w).
Proof.
  revert w. induction source_results as [ | r rest IH]; intros w; simpl.
  - now apply adds_plain_same.
  - destruct (find _ (w_api_sources w)); [ | apply IH].
    eapply adds_plain_trans; [ | apply IH].
    eexists. split;
      [exact (appends_add _ (set_uuids (S (w_uuids w)) w))
      | split; reflexivity].
Qed.

Section NoFaults.

Variable env : Env.
Hypothesis no_fault : forall n, db_fault env n = false.

Lemma flush_ok (w : World) : fst (Session.flush env w) = Ok tt.
Proof. unfold Session.flush. now rewrite no_fault. Qed.

Lemma commit_ok (w : World) : fst (Session.commit env w) = Ok tt.
Proof. unfold Session.commit. now rewrite no_fault. Qed.

Lemma adds_plain_save (user_id : string) (payload : IOCQueryRequest)
  (response : IOCQueryResponse) (w : World) :
  adds_plain w
    (IOCService._save_query_to_db env user_id payload response w).
Proof.
  unfold IOCService._save_query_to_db, IOCService._save_query_to_db_try.
  simpl.
  match goal with
  | |- context [Session.flush env ?w2] =>
      pose proof (appends_flush env w2) as Hf;
      pose proof (flush_ok w2) as Ho;
      assert (H2 : appends w w2 [RIOCQuery
                      (IOCService.ioc_query_row (uuid4 env (w_uuids w))
                         user_id payload response)])
        by exact (appends_add _ (set_uuids (S (w_uuids w)) w));
      destruct (Session.flush env w2) as [[u | ex] w3]
  end; simpl in *; [ | discriminate].
  match goal with
  | |- context [Session.commit env ?w4] =>
      pose proof (appends_commit env w4) as Hc;
      pose proof (commit_ok w4) as Hco;
      pose proof (adds_plain_add_threat_data env
                    (uuid4 env (w_uuids w)) (queried_sources response) w3)
        as Ht;
      destruct (Session.commit env w4) as [[u4 | ex4] w5]
  end; simpl in *; [ | discriminate].
  eapply adds_plain_trans;
    [eexists; split; [exact (appends_trans H2 Hf) | split; reflexivity] | ].
  eapply adds_plain_trans; [exact Ht | ].
  exists []. split; [exact Hc | exact plain_nil].
Qed.

Lemma cache_lookup_rows (payload : IOCQueryRequest) (w : World) :
  all_rows (snd (IOCService.cache_lookup payload w)) = all_rows w.
Proof.
  unfold IOCService.cache_lookup.
  destruct (Cache.redis_get _ w) as [[cached | ] | ]; simpl;
    try reflexivity;
    unfold Cache.get;
    destruct (Cache.lookup _ (w_mem w)) as [[response stored_at] | ];
    simpl; try reflexivity;
    destruct (w_now w - stored_at >? Cache.ttl); simpl; try reflexivity;
    unfold Cache.redis_set; simpl; destruct (w_redis w); reflexivity.
Qed.

Lemma adds_plain_cache_lookup (payload : IOCQueryRequest) (w : World) :
  adds_plain w (snd (IOCService.cache_lookup payload w)).
Proof. apply adds_plain_same, cache_lookup_rows. Qed.

Lemma adds_plain_query_ioc (user_id : string) (payload : IOCQueryRequest)
  (auto_mode_only : bool) (w : World) :
  adds_plain w
    (snd (IOCService.query_ioc env user_id payload auto_mode_only w)).
Proof.
  unfold IOCService.query_ioc.
  set (w0 := emit (EvQueryIOC user_id payload auto_mode_only) w).
  assert (H0 : adds_plain w w0) by now apply adds_plain_same.
  pose proof (adds_plain_cache_lookup payload w0) as Hc.
  destruct (IOCService.cache_lookup payload w0) as [[cached | ] w1];
    simpl in Hc.
  - exact (adds_plain_trans H0 Hc).
  - destruct (negb (Py.nonempty
                      (IOCService.all_sources_to_query payload
                         auto_mode_only w1))).
    + exact (adds_plain_trans H0 Hc).
    + match goal with
      | |- context [IOCService.query_all env ?s ?t ?v w1] =>
          pose proof (adds_plain_query_all env s t v w1) as Hq;
          destruct (IOCService.query_all env s t v w1) as [results w2]
      end.
      simpl in *.
      apply (adds_plain_trans (adds_plain_trans H0 Hc)).
      apply (adds_plain_trans Hq).
      eapply adds_plain_trans; [ | apply adds_plain_save].
      apply adds_plain_same. unfold Cache.redis_set, Cache.set. simpl.
      destruct (w_redis w2); reflexivity.
Qed.

Lemma validate_title (item : AssetWatchlistItem) :
  WatchlistScheduler.validate_alert_create
    (WatchlistScheduler.alert_title item)
  = if Spec.title_fits item then Ok tt
    else Raise (Exn "ValidationError"
                  "title: String should have at most 255 characters").
Proof.
  unfold WatchlistScheduler.validate_alert_create, Spec.title_fits.
  rewrite Nat.ltb_antisym.
  now destruct (Nat.leb (Py.len (WatchlistScheduler.alert_title item)) 255).
Qed.


End NoFaults.

End Rows.

(** ** Alerts raised by an item check *)

Module Alerts.

Import Trace.
Import WatchlistScheduler.
Import Sample.



(** The rows of the policy table the specification lists. *)
Example policy_rows :
  _should_trigger_alert (Some T_HIGH) (Some "medium") = false
  /\ _should_trigger_alert (Some T_LOW) (Some "low") = true
  /\ _should_trigger_alert (Some T_MEDIUM) (Some "high") = true
  /\ _should_trigger_alert (Some T_CRITICAL) (Some "high") = true
  /\ _should_trigger_alert (Some T_LOW) (Some "clean") = false
  /\ _should_trigger_alert (Some T_LOW) (Some "unknown") = false
  /\ _should_trigger_alert None (Some "high") = false
  /\ _should_trigger_alert (Some T_LOW) None = false.
Proof. repeat split. Qed.


End Alerts.

(** ** Failure isolation in the orchestrator *)

Module Isolation.

Import Trace.
Import Frame.
Import IOCService.
Import Sample.

Lemma requires_auth (a : AuthenticationType) :
  a <> NONE ->
  negb (Py.lower (AuthenticationType_value a) =? "none")%string = true.
Proof. destruct a; intros H; try reflexivity. now elim H. Qed.

Lemma blank_not_truthy (s : string) :
  Py.truthy s = false -> blank s = true.
Proof. unfold blank. now intros ->. Qed.

Lemma unusable_credential_error (env : Env) (api_key : APIKey)
  (api_source : APISource) :
  src_authentication_type api_source <> NONE ->
  Spec.credential_unusable env api_key ->
  exists text,
    resolve_key env api_key api_source = inl (error_result api_source text).
Proof.
  intros Hauth Hbad. unfold resolve_key.
  rewrite (requires_auth Hauth).
  destruct (blank_opt (key_api_key api_key)) eqn:Eb; simpl negb; cbv iota.
  - eauto.
  - destruct Hbad as [Hb | [k [Hk Hd]]]; [congruence | ].
    rewrite Hk. unfold decrypt_value.
    destruct (Py.truthy k) eqn:Et; simpl negb; cbv iota.
    + destruct Hd as [Hd | [p [Hd Hp]]]; rewrite Hd.
      * simpl. eauto.
      * rewrite Hp. eauto.
    + simpl. eauto.
Qed.

(** Every result of a single-source query carries the source's name. *)
Lemma isolate_source (api_source : APISource)
  (r : result IOCSourceResult * World) :
  (forall res, fst r = Ok res -> source res = src_name api_source) ->
  source (fst (isolate api_source r)) = src_name api_source.
Proof.
  destruct r as [[res | e] w]; simpl; intros H; [now apply H | reflexivity].
Qed.

Lemma to_source_result_source (env : Env) (api_source : APISource)
  (risk : json) (d : DynamicAPIClient.QueryResultDict)
  (res : IOCSourceResult) :
  to_source_result env api_source risk d = Ok res ->
  source res = src_name api_source.
Proof.
  unfold to_source_result.
  destruct (match risk with
            | JNull => Ok None
            | _ => f <- to_float env risk ;; Ok (Some f)
            end) as [score | e]; simpl; [ | discriminate].
  destruct (match DynamicAPIClient.d_raw d with
            | Some (JObj d0) => Ok (Some d0)
            | Some JNull | None => Ok None
            | Some _ => Raise (Exn "ValidationError" "raw")
            end) as [raw_data | e]; simpl; [ | discriminate].
  intros H. injection H as <-. reflexivity.
Qed.

Lemma query_one_source (env : Env) (ks : option APIKey * APISource)
  (ioc_type ioc_value : string) (w : World) :
  source (fst (query_one env ks ioc_type ioc_value w)) = src_name (snd ks).
Proof.
  unfold query_one. destruct ks as [[api_key | ] api_source]; simpl.
  - unfold _query_single_source. apply isolate_source.
    unfold _query_single_source_try.
    destruct (type_not_supported api_source ioc_type); simpl.
    + intros res H. injection H as <-. reflexivity.
    + destruct (resolve_key env api_key api_source) as [early | key] eqn:Er.
      * simpl. intros res H. injection H as <-.
        unfold resolve_key in Er.
        repeat match type of Er with
          | (if ?c then _ else _) = _ => destruct c
          end; try discriminate; injection Er as <-; reflexivity.
      * match goal with
        | |- context [DynamicAPIClient.query ?e ?c ?t ?v ?n w] =>
            destruct (DynamicAPIClient.query e c t v n w) as [[d | ex] w1]
        end; simpl; [ | discriminate].
        match goal with
        | |- context [Session.commit env ?w2] =>
            destruct (Session.commit env w2) as [[u | ex] w3]
        end; simpl; [ | discriminate].
        intros res. apply to_source_result_source.
  - unfold _query_single_source_without_key. apply isolate_source.
    unfold _query_single_source_without_key_try.
    destruct (type_not_supported api_source ioc_type); simpl.
    + intros res H. injection H as <-. reflexivity.
    + match goal with
      | |- context [DynamicAPIClient.query ?e ?c ?t ?v ?n w] =>
          destruct (DynamicAPIClient.query e c t v n w) as [[d | ex] w1]
      end; simpl; [ | discriminate].
      intros res. apply to_source_result_source.
Qed.

(** The fan-out returns one result per source, in order. *)
Lemma query_all_sources (env : Env)
  (sources : list (option APIKey * APISource))
  (ioc_type ioc_value : string) (w : World) :
  map source (fst (query_all env sources ioc_type ioc_value w))
  = map (fun ks => src_name (snd ks)) sources.
Proof.
  revert w. induction sources as [ | ks rest IH]; intros w; simpl.
  - reflexivity.
  - pose proof (query_one_source env ks ioc_type ioc_value w) as H1.
    destruct (query_one env ks ioc_type ioc_value w) as [r w1].
    pose proof (IH w1) as H2.
    destruct (query_all env rest ioc_type ioc_value w1) as [rs w2].
    simpl in *. now rewrite H1, H2.
Qed.

Lemma static_sources (payload : IOCQueryRequest) (auto_mode_only : bool)
  (w w' : World) :
  static w' = static w ->
  all_sources_to_query payload auto_mode_only w'
  = all_sources_to_query payload auto_mode_only w.
Proof.
  unfold static. intros H. injection H as H1 H2 H3 H4 H5.
  unfold all_sources_to_query, _get_active_api_keys,
    _get_sources_without_auth.
  now rewrite H2, H3.
Qed.

Lemma cache_lookup_emit (payload : IOCQueryRequest) (e : Event)
  (w : World) :
  cache_lookup payload (emit e w)
  = (fst (cache_lookup payload w), emit e (snd (cache_lookup payload w))).
Proof.
  unfold cache_lookup, Cache.redis_get, Cache.get, Cache.redis_set. simpl.
  destruct (w_redis w) as [store | ] eqn:E; simpl.
  - destruct (Json.get (redis_key payload) store)
      as [[[cached | ] expires_at] | ];
      simpl; try destruct (w_now w <? expires_at);
      simpl; try reflexivity;
      destruct (Cache.lookup _ (w_mem w)) as [[response stored_at] | ];
      simpl; try reflexivity;
      destruct (w_now w - stored_at >? Cache.ttl); simpl;
      rewrite ?E; reflexivity.
  - destruct (Cache.lookup _ (w_mem w)) as [[response stored_at] | ];
      simpl; try reflexivity;
      destruct (w_now w - stored_at >? Cache.ttl); simpl;
      rewrite ?E; reflexivity.
Qed.

(** C8, as amended.  For a source that requires authentication and
    supports the indicator kind, an absent or blank API key, a failed
    decryption or blank decrypted material gives a result with status
    ["error"] and no risk signal, and the state is left as it was: no
    request is sent for that source.  The sources after it in the fan-out
    are queried exactly as they would be without it, and on a cache miss
    the response holds one result per eligible source, in order.  For a
    source that does not support the indicator kind (kinds are ASCII
    names, compared in lower case) the result is ["skipped"] with no
    risk signal, whatever the credential, and the state is left as it
    was as well: no request is sent. *)
Theorem unusable_credential_isolated :
  (forall env api_key api_source ioc_type ioc_value w,
      src_authentication_type api_source <> NONE ->
      type_not_supported api_source ioc_type = false ->
      Spec.credential_unusable env api_key ->
      let r :=
        _query_single_source env api_key api_source ioc_type ioc_value w in
      source (fst r) = src_name api_source
      /\ status (fst r) = "error"
      /\ risk_score (fst r) = None
      /\ snd r = w)
  /\ (forall env api_key api_source rest ioc_type ioc_value w,
         src_authentication_type api_source <> NONE ->
         type_not_supported api_source ioc_type = false ->
         Spec.credential_unusable env api_key ->
         query_all env ((Some api_key, api_source) :: rest) ioc_type
           ioc_value w
         = (fst (_query_single_source env api_key api_source ioc_type
                   ioc_value w)
            :: fst (query_all env rest ioc_type ioc_value w),
            snd (query_all env rest ioc_type ioc_value w)))
  /\ (forall env user_id payload auto_mode_only w,
         fst (cache_lookup payload w) = None ->
         all_sources_to_query payload auto_mode_only w <> [] ->
         map source
           (queried_sources
              (fst (query_ioc env user_id payload auto_mode_only w)))
         = map (fun ks => src_name (snd ks))
             (all_sources_to_query payload auto_mode_only w))
  /\ (forall env api_key api_source ioc_type ioc_value w,
         Spec.ascii_kinds api_source ioc_type ->
         type_not_supported api_source ioc_type = true ->
         let r :=
           _query_single_source env api_key api_source ioc_type ioc_value
             w in
         source (fst r) = src_name api_source
         /\ status (fst r) = "skipped"
         /\ risk_score (fst r) = None
         /\ snd r = w).
Proof.
  assert (H1 : forall env api_key api_source ioc_type ioc_value w,
             src_authentication_type api_source <> NONE ->
             type_not_supported api_source ioc_type = false ->
             Spec.credential_unusable env api_key ->
             let r :=
               _query_single_source env api_key api_source ioc_type
                 ioc_value w in
             source (fst r) = src_name api_source
             /\ status (fst r) = "error"
             /\ risk_score (fst r) = None
             /\ snd r = w).
  { intros env api_key api_source ioc_type ioc_value w Hauth Hsup Hbad.
    destruct (unusable_credential_error api_source Hauth Hbad)
      as [text Hr].
    unfold _query_single_source, _query_single_source_try.
    rewrite Hsup, Hr. simpl. now repeat split. }
  split; [exact H1 | split; [ | split]].
  - intros env api_key api_source rest ioc_type ioc_value w Hauth Hsup Hbad.
    destruct (H1 env api_key api_source ioc_type ioc_value w Hauth Hsup Hbad)
      as [_ [_ [_ Hw]]].
    simpl. unfold query_one. simpl.
    destruct (_query_single_source env api_key api_source ioc_type
                ioc_value w) as [r w1].
    simpl in Hw. subst w1.
    now destruct (query_all env rest ioc_type ioc_value w).
  - intros env user_id payload auto_mode_only w Hmiss Hne.
    unfold query_ioc. rewrite cache_lookup_emit, Hmiss.
    pose proof (silent_cache_lookup payload w) as [_ Hs].
    set (w1 := emit _ (snd (cache_lookup payload w))).
    assert (Hs1 : static w1 = static w) by exact Hs.
    rewrite (static_sources payload auto_mode_only Hs1).
    destruct (all_sources_to_query payload auto_mode_only w)
      as [ | ks rest] eqn:E; [congruence | ].
    change (negb (Py.nonempty (ks :: rest))) with false. cbv iota.
    pose proof (query_all_sources env (ks :: rest) (req_ioc_type payload)
                  (req_ioc_value payload) w1) as Hq.
    destruct (query_all env (ks :: rest) (req_ioc_type payload)
                (req_ioc_value payload) w1) as [results w2].
    exact Hq.
  - intros env api_key api_source ioc_type ioc_value w _ Hsup.
    unfold _query_single_source, _query_single_source_try.
    rewrite Hsup. simpl. now repeat split.
Qed.

(** Two sources, the first with no stored key: its result is an error,
    the second source is queried, and one request goes out.  Asked for a
    [url], which it does not support, the first source is skipped. *)
Lemma unusable_credential_isolated_witness :
  (src_authentication_type virustotal <> NONE
   /\ type_not_supported virustotal "ip" = false
   /\ Spec.credential_unusable
        (env_scoring (JFloat Float64.f0_1) no_faults) key_missing)
  /\ (let r :=
        _query_single_source (env_scoring (JFloat Float64.f0_1) no_faults)
          key_missing virustotal "ip" "8.8.8.8" isolation_world in
      source (fst r) = "virustotal" /\ status (fst r) = "error"
      /\ risk_score (fst r) = None /\ snd r = isolation_world)
  /\ (let r :=
        query_ioc (env_scoring (JFloat Float64.f0_1) no_faults) "user-1"
          ip_request false isolation_world in
      map status (queried_sources (fst r)) = ["error"; "success"]
      /\ map rq_url (http_requests (w_trace (snd r)))
         = ["https://api.example.org/v1/check"])
  /\ (Spec.ascii_kinds virustotal "url"
      /\ type_not_supported virustotal "url" = true)
  /\ (let r :=
        _query_single_source (env_scoring (JFloat Float64.f0_1) no_faults)
          key_missing virustotal "url" "http://example.org/"
          isolation_world in
      source (fst r) = "virustotal" /\ status (fst r) = "skipped"
      /\ risk_score (fst r) = None /\ snd r = isolation_world).
Proof.
  split; [ | split; [ | split; [ | split]]].
  - split; [discriminate | split; [reflexivity | now left]].
  - apply (proj1 unusable_credential_isolated).
    + discriminate.
    + reflexivity.
    + now left.
  - vm_compute. split; reflexivity.
  - split; [split; reflexivity | reflexivity].
  - apply (proj2 (proj2 (proj2 unusable_credential_isolated))).
    + split; reflexivity.
    + reflexivity.
Defined.

(** C8 as stated fails when the source does not support the indicator
    kind: the kind is looked at first, and the result is ["skipped"]
    although the source requires a key and none is stored. *)
Lemma unusable_credential_counterexample :
  src_authentication_type virustotal = API_KEY
  /\ key_api_key key_missing = None
  /\ status
       (fst (_query_single_source (env_with HttpTimeout no_faults)
               key_missing virustotal "url" "http://example.org/"
               isolation_world)) = "skipped".
Proof. repeat split. Qed.

(** C9, as amended.  When both cache tiers miss and no source is
    eligible, [query_ioc] returns a response whose only result is the
    ["system"] error, with a null verdict; nothing is sent and nothing is
    written. *)
Theorem no_eligible_source_degraded (env : Env) (user_id : string)
  (payload : IOCQueryRequest) (auto_mode_only : bool) (w : World) :
  fst (cache_lookup payload w) = None ->
  all_sources_to_query payload auto_mode_only w = [] ->
  let r := query_ioc env user_id payload auto_mode_only w in
  queried_sources (fst r) = [Spec.no_source_result]
  /\ overall_risk (fst r) = None
  /\ ioc_type (fst r) = req_ioc_type payload
  /\ ioc_value (fst r) = req_ioc_value payload
  /\ http_requests (events_since w (snd r)) = []
  /\ all_rows (snd r) = all_rows w.
Proof.
  intros Hmiss Hnone. unfold query_ioc.
  rewrite cache_lookup_emit, Hmiss.
  pose proof (silent_cache_lookup payload w) as Hsil.
  pose proof (Rows.adds_plain_cache_lookup payload w) as [rows [Hrows _]].
  set (w1 := emit _ (snd (cache_lookup payload w))).
  assert (Hs1 : static w1 = static w) by exact (proj2 Hsil).
  rewrite (static_sources payload auto_mode_only Hs1), Hnone.
  simpl. repeat split.
  - assert (S : step w w1 [EvQueryIOC user_id payload auto_mode_only]).
    { change [EvQueryIOC user_id payload auto_mode_only]
        with (List.app [] [EvQueryIOC user_id payload auto_mode_only]).
      exact (step_trans Hsil (step_emit _ _)). }
    now rewrite (step_events S).
  - exact (Rows.cache_lookup_rows payload w).
Qed.

Lemma no_eligible_source_degraded_witness :
  let r := query_ioc (env_with HttpTimeout no_faults) "user-1" ip_request
             false empty_world in
  queried_sources (fst r) = [Spec.no_source_result]
  /\ overall_risk (fst r) = None
  /\ ioc_type (fst r) = "ip"
  /\ ioc_value (fst r) = "8.8.8.8"
  /\ http_requests (events_since empty_world (snd r)) = []
  /\ all_rows (snd r) = all_rows empty_world.
Proof.
  apply (no_eligible_source_degraded (env_with HttpTimeout no_faults)
           "user-1" ip_request false empty_world); reflexivity.
Defined.

(** C9 as stated fails on a cache hit: the caches are read before the
    sources are resolved, so with no eligible source left and a response
    for the indicator still cached, the cached response comes back, with
    its source result and its verdict. *)
Lemma no_eligible_source_counterexample :
  let w := Cache.set sample_response empty_world in
  let r := query_ioc (env_with HttpTimeout no_faults) "user-1" ip_request
             false w in
  all_sources_to_query ip_request false w = []
  /\ fst r = sample_response
  /\ map source (queried_sources (fst r)) = ["virustotal"]
  /\ map status (queried_sources (fst r)) = ["success"]
  /\ overall_risk (fst r) = Some "high".
Proof. cbv zeta. repeat split. Qed.

(** The end-to-end scenario behind C1: a [url] indicator against the
    only configured source, which supports [ip] and [domain].  The
    source's result is ["skipped"] and no request is sent; the overall
    verdict the code computes is ["unknown"]. *)
Example url_against_ip_only_source :
  let r := query_ioc (env_with HttpTimeout no_faults) "user-1" url_request
             false alert_world in
  map status (queried_sources (fst r)) = ["skipped"]
  /\ http_requests (w_trace (snd r)) = []
  /\ overall_risk (fst r) = Some "unknown".
Proof. vm_compute. repeat split. Qed.

End Isolation.

(** ** Persistence of a query *)

Module Persistence.

Import Trace.
Import IOCService.
Import Sample.

Lemma add_threat_data_session (env : Env) (ioc_query_id : string)
  (source_results : list IOCSourceResult) (w : World) :
  let w' := add_threat_data env ioc_query_id source_results w in
  w_committed w' = w_committed w /\ w_writes w' = w_writes w.
Proof.
  revert w. induction source_results as [ | r rest IH]; intros w; simpl.
  - split; reflexivity.
  - destruct (find _ (w_api_sources w)); [ | apply IH].
    match goal with
    | |- context [add_threat_data env ioc_query_id rest ?w1] =>
        destruct (IH w1) as [H1 H2]
    end.
    simpl in *. now rewrite H1, H2.
Qed.

(** The [try] block raises exactly when the flush or the commit is
    rejected. *)
Lemma save_raises_iff (env : Env) (user_id : string)
  (payload : IOCQueryRequest) (response : IOCQueryResponse) (w : World) :
  (exists e,
      fst (_save_query_to_db_try env user_id payload response w) = Raise e)
  <-> (db_fault env (w_writes w) = true
       \/ db_fault env (S (w_writes w)) = true).
Proof.
  unfold _save_query_to_db_try, Session.flush. simpl.
  destruct (db_fault env (w_writes w)) eqn:E1; simpl.
  - split; [now left | eauto].
  - match goal with
    | |- context [add_threat_data env ?i ?rs ?w3] =>
        destruct (add_threat_data_session env i rs w3) as [_ Hw]
    end.
    unfold Session.commit. rewrite Hw. simpl.
    destruct (db_fault env (S (w_writes w))) eqn:E2; simpl.
    + split; [now right | eauto].
    + split; [intros [e H]; discriminate | intros [H | H]; discriminate].
Qed.

(** C10.  When the flush of the query row or the commit is rejected,
    [_save_query_to_db] returns with the transaction rolled back: no row
    of the query is left pending or flushed, and nothing of it is
    committed.  [query_ioc] returns the response it built before saving,
    whatever the database does. *)
Theorem save_failure_rolls_back :
  (forall env user_id payload response w,
      (db_fault env (w_writes w) = true
       \/ db_fault env (S (w_writes w)) = true) ->
      let w' := _save_query_to_db env user_id payload response w in
      w_pending w' = [] /\ w_flushed w' = []
      /\ w_committed w' = w_committed w)
  /\ (forall env user_id payload auto_mode_only w,
         fst (cache_lookup payload w) = None ->
         all_sources_to_query payload auto_mode_only w <> [] ->
         exists results w2 w4,
           query_all env (all_sources_to_query payload auto_mode_only w)
             (req_ioc_type payload) (req_ioc_value payload)
             (emit (EvQueryIOC user_id payload auto_mode_only)
                (snd (cache_lookup payload w)))
           = (results, w2)
           /\ let response :=
                {| ioc_type := req_ioc_type payload;
                   ioc_value := req_ioc_value payload;
                   overall_risk := _calculate_overall_risk results;
                   queried_sources := results;
                   queried_at := w_now w2 |} in
              query_ioc env user_id payload auto_mode_only w
              = (response,
                 _save_query_to_db env user_id payload response w4)).
Proof.
  split.
  - intros env user_id payload response w Hfault.
    apply save_raises_iff
      with (user_id := user_id) (payload := payload) (response := response)
      in Hfault.
    destruct Hfault as [e He].
    unfold _save_query_to_db.
    revert He. unfold _save_query_to_db_try, Session.flush. simpl.
    destruct (db_fault env (w_writes w)) eqn:E1; simpl.
    + intros _. now repeat split.
    + match goal with
      | |- context [add_threat_data env ?i ?rs ?w3] =>
          destruct (add_threat_data_session env i rs w3) as [Hc Hw];
          set (w4 := add_threat_data env i rs w3) in *
      end.
      unfold Session.commit.
      destruct (db_fault env (w_writes w4)); simpl.
      * intros _. repeat split. simpl. exact Hc.
      * discriminate.
  - intros env user_id payload auto_mode_only w Hmiss Hne.
    unfold query_ioc. rewrite Isolation.cache_lookup_emit, Hmiss.
    pose proof (Frame.silent_cache_lookup payload w) as [_ Hs].
    set (w1 := emit _ (snd (cache_lookup payload w))).
    assert (Hs1 : static w1 = static w) by exact Hs.
    rewrite (Isolation.static_sources payload auto_mode_only Hs1).
    destruct (all_sources_to_query payload auto_mode_only w)
      as [ | ks rest] eqn:E; [congruence | ].
    change (negb (Py.nonempty (ks :: rest))) with false. cbv iota.
    destruct (query_all env (ks :: rest) (req_ioc_type payload)
                (req_ioc_value payload) w1) as [results w2].
    exists results, w2. eexists. split; reflexivity.
Qed.

(** The commit is rejected: the query row and the per-source row, both
    flushed by then, are rolled back. *)
Lemma save_failure_rolls_back_witness :
  (db_fault (env_with HttpTimeout (fault_at 1)) (w_writes registry_world)
   = true
   \/ db_fault (env_with HttpTimeout (fault_at 1))
        (S (w_writes registry_world)) = true)
  /\ (let w' :=
        _save_query_to_db (env_with HttpTimeout (fault_at 1)) "user-1"
          ip_request sample_response registry_world in
      w_pending w' = [] /\ w_flushed w' = []
      /\ w_committed w' = w_committed registry_world)
  /\ List.length
       (w_committed
          (_save_query_to_db (env_with HttpTimeout no_faults) "user-1"
             ip_request sample_response registry_world)) = 2%nat.
Proof.
  split; [now right | split].
  - apply (proj1 save_failure_rolls_back). now right.
  - reflexivity.
Defined.

End Persistence.

(** * Further properties of the engine *)

(** ** Letter case *)

Module LetterCase.

Lemma lower_ascii_idempotent (c : ascii) :
  Py.lower_ascii (Py.lower_ascii c) = Py.lower_ascii c.
Proof.
  destruct c as [b0 b1 b2 b3 b4 b5 b6 b7].
  destruct b0, b1, b2, b3, b4, b5, b6, b7; reflexivity.
Qed.

Lemma lower_idempotent (s : string) : Py.lower (Py.lower s) = Py.lower s.
Proof.
  induction s as [ | c s IH]; simpl; [reflexivity | ].
  now rewrite lower_ascii_idempotent, IH.
Qed.

Lemma upper_ascii_idempotent (c : ascii) :
  Py.upper_ascii (Py.upper_ascii c) = Py.upper_ascii c.
Proof.
  destruct c as [b0 b1 b2 b3 b4 b5 b6 b7].
  destruct b0, b1, b2, b3, b4, b5, b6, b7; reflexivity.
Qed.

Lemma upper_idempotent (s : string) : Py.upper (Py.upper s) = Py.upper s.
Proof.
  induction s as [ | c s IH]; simpl; [reflexivity | ].
  now rewrite upper_ascii_idempotent, IH.
Qed.

Lemma mem_lower_fixed (x : string) (names : list string) :
  Py.mem x (map Py.lower names) = true -> Py.lower x = x.
Proof.
  unfold Py.mem. intros H. apply existsb_exists in H.
  destruct H as [y [Hin Heq]]. apply String.eqb_eq in Heq. subst y.
  apply in_map_iff in Hin. destruct Hin as [n [<- _]].
  apply lower_idempotent.
Qed.

End LetterCase.

(** ** Verdicts, item status and alerts *)

Module Verdicts.

Import WatchlistScheduler.

(** The overall verdict is null or one of the five labels, and the item
    status the scheduler derives from it is missing exactly when the
    verdict is null or ["unknown"]. *)
Theorem verdict_range_and_status (results : list IOCSourceResult) :
  let verdict := IOCService._calculate_overall_risk results in
  In verdict
    [None; Some "unknown"; Some "high"; Some "medium"; Some "low";
     Some "clean"]
  /\ (_convert_risk_to_status verdict = None
      <-> verdict = None \/ verdict = Some "unknown").
Proof.
  unfold IOCService._calculate_overall_risk.
  destruct (negb (Py.nonempty results)); [ | ].
  - simpl. split; [tauto | ]. split; [now left | reflexivity].
  - destruct (negb (Py.nonempty (filter IOCService.is_valid results))).
    + destruct (Py.nonempty _); simpl.
      * split; [tauto | ]. split; [now right | reflexivity].
      * split; [tauto | ]. split; [now left | reflexivity].
    + repeat match goal with
        | |- context [if ?c then _ else _] => destruct c
        end; simpl; (split; [tauto | ]);
        (split; [discriminate | intros [H | H]; discriminate]).
Qed.

Lemma policy_verdict (threshold : RiskThreshold) (level : string) :
  Spec.policy threshold level ->
  level = "low" \/ level = "medium" \/ level = "high".
Proof. destruct threshold; simpl; tauto. Qed.

Lemma trigger_level (threshold : option RiskThreshold)
  (verdict : option string) :
  _should_trigger_alert threshold verdict = true ->
  exists level,
    verdict = Some level /\ Py.truthy level = true
    /\ (Py.lower level = "low" \/ Py.lower level = "medium"
        \/ Py.lower level = "high").
Proof.
  intros H.
  destruct threshold as [t | ], verdict as [v | ]; try discriminate.
  exists v. split; [reflexivity | ].
  pose proof (proj1 (AlertPolicy.should_trigger_alert_policy t v) H) as Hp.
  split; [ | exact (policy_verdict t _ Hp)].
  unfold _should_trigger_alert in H.
  destruct (Py.truthy v); [reflexivity | discriminate].
Qed.

(** An alert is raised only for an item whose status comes out as
    suspicious or malicious: never for a clean item, and never for one
    whose status is missing. *)
Theorem alert_only_when_suspicious_or_malicious
  (threshold : option RiskThreshold) (verdict : option string) :
  _should_trigger_alert threshold verdict = true ->
  _convert_risk_to_status verdict = Some SUSPICIOUS
  \/ _convert_risk_to_status verdict = Some MALICIOUS.
Proof.
  intros H. destruct (trigger_level _ _ H) as [v [-> [Ht Hl]]].
  unfold _convert_risk_to_status. rewrite Ht. simpl negb. cbv iota.
  destruct Hl as [-> | [-> | ->]]; simpl; tauto.
Qed.

Lemma alert_only_when_suspicious_or_malicious_witness :
  _should_trigger_alert (Some T_LOW) (Some "Medium") = true
  /\ (_convert_risk_to_status (Some "Medium") = Some SUSPICIOUS
      \/ _convert_risk_to_status (Some "Medium") = Some MALICIOUS).
Proof.
  split; [reflexivity | ].
  apply (alert_only_when_suspicious_or_malicious (Some T_LOW)).
  reflexivity.
Defined.

(** No alert has severity CRITICAL, and an alert that is raised has the
    severity of its verdict: LOW for low, MEDIUM for medium, HIGH for
    high.  The default and the ["critical"] entry of the severity table
    are never used by a raised alert. *)
Theorem raised_alert_severity :
  (forall verdict, alert_severity verdict <> S_CRITICAL)
  /\ (forall threshold verdict,
         _should_trigger_alert threshold verdict = true ->
         exists level,
           verdict = Some level
           /\ ((Py.lower level = "low" /\ alert_severity verdict = S_LOW)
               \/ (Py.lower level = "medium"
                   /\ alert_severity verdict = S_MEDIUM)
               \/ (Py.lower level = "high"
                   /\ alert_severity verdict = S_HIGH))).
Proof.
  split.
  - intros verdict. rewrite AlertPolicy.alert_severity_for.
    unfold Spec.severity_for.
    repeat match goal with
      | |- context [if ?c then _ else _] => destruct c
      end; discriminate.
  - intros threshold verdict H.
    destruct (trigger_level _ _ H) as [v [-> [Ht Hl]]].
    exists v. split; [reflexivity | ].
    rewrite AlertPolicy.alert_severity_for. rewrite Ht.
    destruct Hl as [E | [E | E]]; rewrite E; simpl; tauto.
Qed.

Lemma raised_alert_severity_witness :
  _should_trigger_alert (Some T_CRITICAL) (Some "high") = true
  /\ exists level,
       Some "high" = Some level
       /\ ((Py.lower level = "low"
            /\ alert_severity (Some "high") = S_LOW)
           \/ (Py.lower level = "medium"
               /\ alert_severity (Some "high") = S_MEDIUM)
           \/ (Py.lower level = "high"
               /\ alert_severity (Some "high") = S_HIGH)).
Proof.
  split; [reflexivity | ].
  apply (proj2 raised_alert_severity (Some T_CRITICAL) (Some "high")).
  reflexivity.
Defined.

End Verdicts.

(** ** The eligible sources *)

Module Eligible.

Import IOCService.
Import Sample.
Import Shape.

(** Automatic mode only narrows the credentials: every pair returned in
    automatic mode is returned without it as well, and its credential
    is an automatic one. *)
Theorem automatic_mode_narrows (sources : option (list string)) (w : World)
  (k : APIKey) (s : APISource) :
  In (k, s) (_get_active_api_keys sources true w) ->
  In (k, s) (_get_active_api_keys sources false w)
  /\ key_update_mode k = AUTO.
Proof.
  unfold _get_active_api_keys. intros H.
  apply filter_In in H. destruct H as [H Hn].
  apply filter_In in H. destruct H as [H Hm].
  split.
  - apply filter_In. split; assumption.
  - simpl in Hm. now destruct (key_update_mode k).
Qed.

Lemma automatic_mode_narrows_witness :
  In (key_auto, virustotal) (_get_active_api_keys None true registry_world)
  /\ (In (key_auto, virustotal)
        (_get_active_api_keys None false registry_world)
      /\ key_update_mode key_auto = AUTO).
Proof.
  split; [left; reflexivity | ].
  apply automatic_mode_narrows. left. reflexivity.
Defined.

(** The allow-list is matched against the stored names as they are,
    while the requested names are lower-cased: with a non-empty
    allow-list, a source is selected only if its stored name is already
    in lower case. *)
Theorem allow_list_selects_lower_case_names (names : list string)
  (auto_mode_only : bool) (w : World) :
  names <> [] ->
  (forall k s,
      In (k, s) (_get_active_api_keys (Some names) auto_mode_only w) ->
      Py.lower (src_name s) = src_name s
      /\ In (src_name s) (map Py.lower names))
  /\ (forall s,
         In s (_get_sources_without_auth (Some names) w) ->
         Py.lower (src_name s) = src_name s
         /\ In (src_name s) (map Py.lower names)).
Proof.
  intros Hne.
  assert (Hallowed : forall s,
             name_allowed (Some names) s = true ->
             Py.lower (src_name s) = src_name s
             /\ In (src_name s) (map Py.lower names)).
  { intros s H. unfold name_allowed in H.
    destruct names as [ | n ns]; [congruence | ].
    change (Py.nonempty (n :: ns)) with true in H. cbv iota in H.
    split; [exact (LetterCase.mem_lower_fixed _ _ H) | ].
    unfold Py.mem in H. apply existsb_exists in H.
    destruct H as [y [Hin Heq]]. apply String.eqb_eq in Heq. now subst y. }
  split.
  - intros k s H. unfold _get_active_api_keys in H.
    apply filter_In in H. destruct H as [_ H]. now apply Hallowed.
  - intros s H. unfold _get_sources_without_auth in H.
    apply filter_In in H. destruct H as [_ H]. now apply Hallowed.
Qed.

(** With the allow-list ["VirusTotal"], the source stored as
    "virustotal" is selected and the one stored as "VirusTotal" is not. *)
Lemma allow_list_selects_lower_case_names_witness :
  ["VirusTotal"] <> []
  /\ map (fun ks => src_name (snd ks))
       (_get_active_api_keys (Some ["VirusTotal"]) false
          Fixtures.mixed_case_world) = ["virustotal"]
  /\ (Py.lower (src_name virustotal) = src_name virustotal
      /\ In (src_name virustotal) (map Py.lower ["VirusTotal"])).
Proof.
  split; [discriminate | split; [reflexivity | ]].
  apply (proj1 (allow_list_selects_lower_case_names (names := ["VirusTotal"])
                  false Fixtures.mixed_case_world ltac:(discriminate))
           key_auto virustotal).
  vm_compute. left. reflexivity.
Defined.

Lemma existsb_id_false (sources : list (option APIKey * APISource))
  (api_source : APISource) :
  existsb (fun ks : option APIKey * APISource =>
             (src_id (snd ks) =? src_id api_source)%string) sources = false ->
  ~ In (src_id api_source) (ids_of sources).
Proof.
  intros H Hin. unfold ids_of in Hin. apply in_map_iff in Hin.
  destruct Hin as [ks [Hid Hks]].
  assert (Ht : existsb (fun ks : option APIKey * APISource =>
                          (src_id (snd ks) =? src_id api_source)%string)
                 sources = true).
  { apply existsb_exists. exists ks. split; [exact Hks | ].
    now apply String.eqb_eq. }
  congruence.
Qed.

Lemma well_formed_add
  (acc : list (option APIKey * APISource)) (api_source : APISource) :
  well_formed acc ->
  src_is_active api_source = true ->
  src_authentication_type api_source = NONE ->
  well_formed
    (if existsb (fun ks : option APIKey * APISource =>
                   (src_id (snd ks) =? src_id api_source)%string) acc
     then acc
     else List.app acc [(None, api_source)]).
Proof.
  intros [Hall Hone] Hact Hauth.
  destruct (existsb _ acc) eqn:E; [now split | ].
  pose proof (existsb_id_false _ _ E) as Hfresh.
  split.
  - intros ko s Hin. apply in_app_iff in Hin.
    destruct Hin as [Hin | [Heq | []]]; [now apply Hall | ].
    injection Heq as <- <-. now split.
  - intros s Hin. unfold ids_of in *. rewrite map_app, count_occ_app. simpl.
    apply in_app_iff in Hin. destruct Hin as [Hin | [Heq | []]].
    + rewrite (Hone s Hin).
      destruct (string_dec (src_id api_source) (src_id s)) as [Heq | _];
        [ | reflexivity].
      exfalso. apply Hfresh. rewrite Heq.
      apply in_map_iff. now exists (None, s).
    + injection Heq as <-.
      destruct (string_dec (src_id api_source) (src_id api_source));
        [ | congruence].
      apply (count_occ_not_In string_dec) in Hfresh.
      now rewrite Hfresh.
Qed.

Lemma well_formed_fold (extra : list APISource)
  (acc : list (option APIKey * APISource)) :
  well_formed acc ->
  (forall s, In s extra ->
             src_is_active s = true /\ src_authentication_type s = NONE) ->
  well_formed
    (fold_left
       (fun acc api_source =>
          if existsb (fun ks : option APIKey * APISource =>
                        (src_id (snd ks) =? src_id api_source)%string) acc
          then acc
          else List.app acc [(None, api_source)])
       extra acc).
Proof.
  revert acc. induction extra as [ | s rest IH]; intros acc Hacc Hextra;
    simpl; [exact Hacc | ].
  apply IH.
  - destruct (Hextra s (or_introl eq_refl)) as [Ha Hn].
    now apply well_formed_add.
  - intros s' Hin. apply Hextra. now right.
Qed.

Lemma auth_eqb_none (a : AuthenticationType) :
  AuthenticationType_eqb a NONE = true -> a = NONE.
Proof. destruct a; simpl; intros H; try discriminate; reflexivity. Qed.

(** Every source the orchestrator is about to query is active; a
    credentialed entry pairs an active credential with its own source;
    an entry without a credential is a source that needs none, and no
    other entry of the list, credentialed or not, has its id. *)
Theorem eligible_sources_well_formed (payload : IOCQueryRequest)
  (auto_mode_only : bool) (w : World) :
  well_formed (all_sources_to_query payload auto_mode_only w).
Proof.
  unfold all_sources_to_query. apply well_formed_fold.
  - split.
    + intros ko s Hin. apply in_map_iff in Hin.
      destruct Hin as [[k s'] [Heq Hin]]. injection Heq as <- <-.
      destruct (Registry.active_api_keys_filtered _ _ _ _ _ Hin)
        as [Hk [Hs _]].
      split; [exact Hs | split; [exact Hk | ]].
      unfold _get_active_api_keys in Hin.
      apply filter_In in Hin. destruct Hin as [Hin _].
      assert (Hj : In (k, s')
                     (flat_map
                        (fun k0 =>
                           map (fun s0 => (k0, s0))
                             (filter
                                (fun s0 =>
                                   (key_api_source_id k0 =? src_id s0)%string)
                                (w_api_sources w))) (w_api_keys w))).
      { destruct auto_mode_only.
        - apply filter_In in Hin. destruct Hin as [Hin _].
          apply filter_In in Hin. destruct Hin as [Hin _].
          apply filter_In in Hin. now destruct Hin.
        - apply filter_In in Hin. destruct Hin as [Hin _].
          apply filter_In in Hin. now destruct Hin. }
      apply in_flat_map in Hj. destruct Hj as [k0 [_ Hj]].
      apply in_map_iff in Hj. destruct Hj as [s0 [Heq Hj]].
      injection Heq as -> ->.
      apply filter_In in Hj. destruct Hj as [_ Hj].
      now apply String.eqb_eq.
    + intros s Hin. apply in_map_iff in Hin.
      destruct Hin as [[k s'] [Heq _]]. discriminate.
  - intros s Hin. unfold _get_sources_without_auth in Hin.
    apply filter_In in Hin. destruct Hin as [Hin _].
    apply filter_In in Hin. destruct Hin as [Hin Hn].
    apply filter_In in Hin. destruct Hin as [_ Ha].
    split; [exact Ha | now apply auth_eqb_none].
Qed.

(** An unauthenticated source with a stored manual credential is queried
    once: with the credential on a manual query, without it in automatic
    mode. *)
Example eligible_sources_overlap :
  map (fun ks => (Py.is_some (fst ks), src_name (snd ks)))
    (all_sources_to_query ip_request false Fixtures.overlap_world)
  = [(true, "virustotal"); (true, "abuseipdb")]
  /\ map (fun ks => (Py.is_some (fst ks), src_name (snd ks)))
       (all_sources_to_query ip_request true Fixtures.overlap_world)
     = [(true, "virustotal"); (false, "abuseipdb")].
Proof. split; reflexivity. Qed.

End Eligible.

(** ** The result cache *)

Module CacheFacts.

Import Clock.
Import Sample.

Lemma key_eqb_refl (k : string * string) : Cache.key_eqb k k = true.
Proof. unfold Cache.key_eqb. now rewrite !String.eqb_refl. Qed.

Lemma lookup_remove {V} (k : string * string)
  (m : list ((string * string) * V)) :
  Cache.lookup k (Cache.remove k m) = None.
Proof.
  induction m as [ | [k' v] m IH]; simpl; [reflexivity | ].
  destruct (Cache.key_eqb k k') eqn:E; simpl; [exact IH | ].
  now rewrite E.
Qed.

Lemma make_key_lower (ioc_type ioc_value ioc_type' ioc_value' : string) :
  Py.lower ioc_type' = Py.lower ioc_type ->
  Py.lower ioc_value' = Py.lower ioc_value ->
  Cache._make_key ioc_type' ioc_value' = Cache._make_key ioc_type ioc_value.
Proof. unfold Cache._make_key. now intros -> ->. Qed.

(** A response put in the process-local cache is returned, under its
    indicator in any letter case, as long as no more than the TTL of 300
    seconds has passed, whatever the cache held before. *)
Theorem cache_round_trip (response : IOCQueryResponse) (w : World) (t : Z)
  (ioc_type' ioc_value' : string) :
  Py.lower ioc_type' = Py.lower (ioc_type response) ->
  Py.lower ioc_value' = Py.lower (ioc_value response) ->
  t - w_now w <= 300 * 1000000 ->
  Cache.get ioc_type' ioc_value' (advance_to t (Cache.set response w))
  = (Some response, advance_to t (Cache.set response w)).
Proof.
  intros Ht Hv Hage. unfold Cache.get.
  rewrite (make_key_lower _ _ _ _ Ht Hv). simpl.
  rewrite key_eqb_refl.
  assert (E : (t - w_now w >? Cache.ttl) = false).
  { unfold Cache.ttl. rewrite Z.gtb_ltb. apply Z.ltb_ge. lia. }
  now rewrite E.
Qed.

Lemma cache_round_trip_witness :
  Py.lower "IP" = Py.lower (ioc_type sample_response)
  /\ Py.lower "8.8.8.8" = Py.lower (ioc_value sample_response)
  /\ 300000000 - w_now registry_world <= 300 * 1000000
  /\ Cache.get "IP" "8.8.8.8"
       (advance_to 300000000
          (Cache.set sample_response registry_world))
     = (Some sample_response,
        advance_to 300000000
          (Cache.set sample_response registry_world)).
Proof.
  assert (H : 300000000 - w_now registry_world <= 300 * 1000000)
    by (vm_compute; discriminate).
  split; [reflexivity | split; [reflexivity | split; [exact H | ]]].
  apply cache_round_trip; [reflexivity | reflexivity | exact H].
Defined.

(** Once more than the TTL has passed, a read returns nothing and evicts
    the entry, so that later reads return nothing either, at any time. *)
Theorem cache_expiry_evicts (response : IOCQueryResponse) (w : World)
  (t t' : Z) (ioc_type' ioc_value' : string) :
  Py.lower ioc_type' = Py.lower (ioc_type response) ->
  Py.lower ioc_value' = Py.lower (ioc_value response) ->
  t - w_now w > 300 * 1000000 ->
  let r := Cache.get ioc_type' ioc_value'
             (advance_to t (Cache.set response w)) in
  fst r = None
  /\ fst (Cache.get ioc_type' ioc_value' (advance_to t' (snd r))) = None.
Proof.
  intros Ht Hv Hage. unfold Cache.get.
  rewrite (make_key_lower _ _ _ _ Ht Hv). simpl.
  rewrite key_eqb_refl.
  assert (E : (t - w_now w >? Cache.ttl) = true).
  { unfold Cache.ttl. rewrite Z.gtb_ltb. apply Z.ltb_lt. lia. }
  rewrite E. cbn [fst snd]. split; [reflexivity | ].
  cbn [w_mem advance_to set_mem]. simpl negb. cbv iota.
  now rewrite lookup_remove.
Qed.

Lemma cache_expiry_evicts_witness :
  let r := Cache.get "ip" "8.8.8.8"
             (advance_to 300000001
                (Cache.set sample_response registry_world)) in
  fst r = None
  /\ fst (Cache.get "ip" "8.8.8.8" (advance_to tick_time (snd r))) = None.
Proof.
  apply (cache_expiry_evicts sample_response registry_world
           300000001 tick_time "ip" "8.8.8.8");
    [reflexivity | reflexivity | vm_compute; reflexivity].
Defined.

End CacheFacts.

(** ** Caching in the orchestrator *)

Module CachedQueries.

Import Trace.
Import Frame.
Import Clock.
Import IOCService.
Import Sample.

Lemma caches_add_threat_data (env : Env) (ioc_query_id : string)
  (source_results : list IOCSourceResult) (w : World) :
  caches (add_threat_data env ioc_query_id source_results w) = caches w.
Proof.
  revert w. induction source_results as [ | r rest IH]; intros w; simpl.
  - reflexivity.
  - destruct (find _ (w_api_sources w)); [ | apply IH].
    now rewrite IH.
Qed.

Lemma caches_flush (env : Env) (w : World) :
  caches (snd (Session.flush env w)) = caches w.
Proof. unfold Session.flush. now destruct (db_fault env (w_writes w)). Qed.

Lemma caches_commit (env : Env) (w : World) :
  caches (snd (Session.commit env w)) = caches w.
Proof. unfold Session.commit. now destruct (db_fault env (w_writes w)). Qed.

(** Saving a query, accepted or rejected, leaves the caches alone. *)
Lemma caches_save (env : Env) (user_id : string)
  (payload : IOCQueryRequest) (response : IOCQueryResponse) (w : World) :
  caches (_save_query_to_db env user_id payload response w) = caches w.
Proof.
  unfold _save_query_to_db, _save_query_to_db_try. simpl.
  match goal with
  | |- context [Session.flush env ?w2] =>
      pose proof (caches_flush env w2) as Hf;
      destruct (Session.flush env w2) as [[u | ex] w3]
  end; simpl in Hf.
  - match goal with
    | |- context [Session.commit env ?w4] =>
        pose proof (caches_commit env w4) as Hc;
        destruct (Session.commit env w4) as [[u4 | ex4] w5]
    end; simpl in Hc.
    + rewrite Hc, caches_add_threat_data. exact Hf.
    + change (caches w5 = caches w).
      rewrite Hc, caches_add_threat_data. exact Hf.
  - exact Hf.
Qed.

Lemma redis_key_same (p q : IOCQueryRequest) :
  same_indicator p q -> redis_key p = redis_key q.
Proof. unfold same_indicator, redis_key. now intros [-> ->]. Qed.

(** A lookup reads the clock and the tiers only, and does not tell two
    requests for the same indicator apart. *)
Lemma cache_lookup_reads (p q : IOCQueryRequest) (w w' : World) :
  same_indicator p q ->
  caches w' = caches w ->
  fst (cache_lookup p w') = fst (cache_lookup q w).
Proof.
  intros Hpq Hc. unfold caches in Hc. injection Hc as Hn Hr Hm.
  unfold cache_lookup, Cache.redis_get, Cache.get.
  rewrite (redis_key_same Hpq), Hr, Hm, Hn.
  destruct Hpq as [Ht Hv].
  rewrite (CacheFacts.make_key_lower _ _ _ _ Ht Hv).
  destruct (w_redis w) as [store | ];
    [destruct (Json.get (redis_key q) store)
       as [[[cached | ] expires_at] | ];
     try destruct (w_now w <? expires_at) | ];
    try reflexivity;
    destruct (Cache.lookup _ (w_mem w)) as [[response stored_at] | ];
    try reflexivity;
    destruct (w_now w - stored_at >? Cache.ttl); reflexivity.
Qed.

Lemma get_set_same {V} (k : string) (v : V) (d : list (string * V)) :
  Json.get k (Json.set k v d) = Some v.
Proof.
  induction d as [ | [k' v'] d IH]; simpl.
  - now rewrite String.eqb_refl.
  - destruct (k =? k')%string eqn:E; simpl.
    + now rewrite String.eqb_refl.
    + now rewrite E.
Qed.

Lemma mem_after_set (key : string) (response : IOCQueryResponse)
  (w : World) (t : Z) :
  w_mem (advance_to t (Cache.redis_set key response (Cache.set response w)))
  = w_mem (Cache.set response w).
Proof. unfold Cache.redis_set. now destruct (w_redis (Cache.set response w)). Qed.

Lemma now_after_set (key : string) (response : IOCQueryResponse)
  (w : World) (t : Z) :
  w_now (advance_to t (Cache.redis_set key response (Cache.set response w)))
  = t.
Proof. reflexivity. Qed.

(** The process-local tier after a response is put in both tiers. *)
Lemma cache_get_after_set (payload : IOCQueryRequest)
  (response : IOCQueryResponse) (w : World) (t : Z) :
  ioc_type response = req_ioc_type payload ->
  ioc_value response = req_ioc_value payload ->
  fst (Cache.get (req_ioc_type payload) (req_ioc_value payload)
         (advance_to t
            (Cache.redis_set (redis_key payload) response
               (Cache.set response w))))
  = if t - w_now w <=? 300 * 1000000 then Some response else None.
Proof.
  intros Ht Hv. unfold Cache.get.
  rewrite mem_after_set, now_after_set.
  unfold Cache.set at 1. cbn [w_mem set_mem].
  rewrite Ht, Hv. cbn [Cache.lookup].
  rewrite CacheFacts.key_eqb_refl.
  unfold Cache.ttl. rewrite Z.gtb_ltb.
  destruct (Z.leb_spec (t - w_now w) (300 * 1000000)) as [Hle | Hgt].
  - assert (E : (300 * 1000000 <? t - w_now w) = false)
      by (apply Z.ltb_ge; exact Hle).
    now rewrite E.
  - assert (E : (300 * 1000000 <? t - w_now w) = true)
      by (apply Z.ltb_lt; exact Hgt).
    now rewrite E.
Qed.

(** The shared tier after a response is put in both tiers. *)
Lemma redis_get_after_set (payload : IOCQueryRequest)
  (response : IOCQueryResponse) (w : World) (t : Z) :
  Cache.redis_get (redis_key payload)
    (advance_to t
       (Cache.redis_set (redis_key payload) response (Cache.set response w)))
  = match w_redis w with
    | Some _ =>
        if t <? w_now w + 300 * 1000000
        then Some (RedisParsed response) else None
    | None => None
    end.
Proof.
  unfold Cache.redis_get, Cache.redis_set.
  assert (Hw : w_redis (Cache.set response w) = w_redis w) by reflexivity.
  rewrite Hw. destruct (w_redis w) as [store | ] eqn:E.
  - cbn [w_redis set_redis advance_to w_now]. rewrite get_set_same.
    reflexivity.
  - simpl. rewrite ?E. reflexivity.
Qed.

(** After a response is put in both tiers, a lookup finds it as long as
    no more than 300 seconds have passed, and no longer after that. *)
Lemma cache_lookup_after_set (payload : IOCQueryRequest)
  (response : IOCQueryResponse) (w : World) (t : Z) :
  ioc_type response = req_ioc_type payload ->
  ioc_value response = req_ioc_value payload ->
  fst (cache_lookup payload
         (advance_to t
            (Cache.redis_set (redis_key payload) response
               (Cache.set response w))))
  = if t - w_now w <=? 300 * 1000000 then Some response else None.
Proof.
  intros Ht Hv.
  pose proof (cache_get_after_set payload response w t Ht Hv) as Hmem.
  unfold cache_lookup. rewrite redis_get_after_set.
  destruct (w_redis w) as [store | ].
  - destruct (Z.ltb_spec t (w_now w + 300 * 1000000)) as [Hlt | Hge].
    + cbn [fst].
      assert (El : (t - w_now w <=? 300 * 1000000) = true)
        by (apply Z.leb_le; lia).
      now rewrite El.
    + destruct (Cache.get (req_ioc_type payload) (req_ioc_value payload) _)
        as [[c | ] w1]; exact Hmem.
  - destruct (Cache.get (req_ioc_type payload) (req_ioc_value payload) _)
      as [[c | ] w1]; exact Hmem.
Qed.

Lemma caches_advance (t : Z) (w w' : World) :
  caches w' = caches w -> caches (advance_to t w') = caches (advance_to t w).
Proof.
  unfold caches. intros H. injection H as _ Hr Hm. simpl.
  now rewrite Hr, Hm.
Qed.

Lemma cache_hit_run (env : Env) (user_id : string)
  (payload : IOCQueryRequest) (auto_mode_only : bool) (w : World)
  (cached : IOCQueryResponse) :
  fst (cache_lookup payload w) = Some cached ->
  let r := query_ioc env user_id payload auto_mode_only w in
  fst r = cached
  /\ events_since w (snd r) = [EvQueryIOC user_id payload auto_mode_only]
  /\ all_rows (snd r) = all_rows w.
Proof.
  intros Hhit. unfold query_ioc.
  rewrite Isolation.cache_lookup_emit, Hhit. simpl.
  pose proof (silent_cache_lookup payload w) as Hsil.
  pose proof (Rows.adds_plain_cache_lookup payload w) as Hrows.
  split; [reflexivity | split].
  - apply step_events.
    change [EvQueryIOC user_id payload auto_mode_only]
      with (List.app [] [EvQueryIOC user_id payload auto_mode_only]).
    exact (step_trans Hsil (step_emit _ _)).
  - exact (Rows.cache_lookup_rows payload w).
Qed.

(** The state a fanned-out query ends in: the response is in the caches
    when the rows are saved. *)
Lemma query_ioc_fans_out (env : Env) (user_id : string)
  (payload : IOCQueryRequest) (auto_mode_only : bool) (w : World) :
  fst (cache_lookup payload w) = None ->
  all_sources_to_query payload auto_mode_only w <> [] ->
  exists w2,
    let response := fst (query_ioc env user_id payload auto_mode_only w) in
    ioc_type response = req_ioc_type payload
    /\ ioc_value response = req_ioc_value payload
    /\ snd (query_ioc env user_id payload auto_mode_only w)
       = _save_query_to_db env user_id payload response
           (Cache.redis_set (redis_key payload) response
              (Cache.set response w2)).
Proof.
  intros Hmiss Hne. unfold query_ioc.
  rewrite Isolation.cache_lookup_emit, Hmiss.
  pose proof (silent_cache_lookup payload w) as [_ Hs].
  set (w1 := emit _ (snd (cache_lookup payload w))).
  assert (Hs1 : static w1 = static w) by exact Hs.
  rewrite (Isolation.static_sources payload auto_mode_only Hs1).
  destruct (all_sources_to_query payload auto_mode_only w)
    as [ | ks rest] eqn:E; [congruence | ].
  change (negb (Py.nonempty (ks :: rest))) with false. cbv iota.
  destruct (query_all env (ks :: rest) (req_ioc_type payload)
              (req_ioc_value payload) w1) as [results w2].
  exists w2. simpl. repeat split.
Qed.

Lemma query_ioc_clock (env : Env) (user_id : string)
  (payload : IOCQueryRequest) (auto_mode_only : bool) (w : World) :
  w_now (snd (query_ioc env user_id payload auto_mode_only w)) = w_now w.
Proof.
  destruct (step_query_ioc env user_id payload auto_mode_only w)
    as [evs [[_ Hs] _]].
  unfold static in Hs. now injection Hs.
Qed.

(** A query that fanned out is answered from the cache when it is asked
    again within 300 seconds for the same indicator, in any letter case,
    by any user, with any list of sources and in either mode: the second
    call returns the same response, sends no request and writes no row.
    Once more than 300 seconds have passed, the lookup of the second
    call misses both tiers. *)
Theorem repeated_query_served_from_cache (env : Env)
  (user_id user_id' : string) (payload payload' : IOCQueryRequest)
  (auto_mode_only auto_mode_only' : bool) (w : World) (t : Z) :
  fst (cache_lookup payload w) = None ->
  all_sources_to_query payload auto_mode_only w <> [] ->
  same_indicator payload' payload ->
  let r := query_ioc env user_id payload auto_mode_only w in
  let later := advance_to t (snd r) in
  let r' := query_ioc env user_id' payload' auto_mode_only' later in
  (t - w_now w <= 300 * 1000000 ->
   fst r' = fst r
   /\ http_requests (events_since later (snd r')) = []
   /\ all_rows (snd r') = all_rows (snd r))
  /\ (t - w_now w > 300 * 1000000 ->
      fst (cache_lookup payload' later) = None).
Proof.
  intros Hmiss Hne Hsame.
  destruct (query_ioc_fans_out env user_id payload auto_mode_only w
              Hmiss Hne) as [w2 [Ht [Hv Hw]]].
  cbv zeta in *.
  assert (Hnow : w_now w2 = w_now w).
  { rewrite <- (query_ioc_clock env user_id payload auto_mode_only w), Hw.
    symmetry.
    pose proof (caches_save env user_id payload
                  (fst (query_ioc env user_id payload auto_mode_only w))
                  (Cache.redis_set (redis_key payload)
                     (fst (query_ioc env user_id payload auto_mode_only w))
                     (Cache.set
                        (fst (query_ioc env user_id payload auto_mode_only
                                w)) w2))) as Hc.
    unfold caches in Hc. injection Hc as Hn _ _. rewrite Hn.
    unfold Cache.redis_set, Cache.set. simpl.
    now destruct (w_redis w2). }
  assert (Hlook : fst (cache_lookup payload'
                         (advance_to t
                            (snd (query_ioc env user_id payload
                                    auto_mode_only w))))
                  = if t - w_now w <=? 300 * 1000000
                    then Some (fst (query_ioc env user_id payload
                                      auto_mode_only w))
                    else None).
  { rewrite Hw.
    rewrite (cache_lookup_reads (p := payload') (q := payload)
               (w := advance_to t
                       (Cache.redis_set (redis_key payload)
                          (fst (query_ioc env user_id payload
                                  auto_mode_only w))
                          (Cache.set
                             (fst (query_ioc env user_id payload
                                     auto_mode_only w)) w2)))
               Hsame (caches_advance t (caches_save _ _ _ _ _))).
    rewrite (cache_lookup_after_set payload _ w2 t Ht Hv). now rewrite Hnow. }
  split.
  - intros Hle.
    assert (E : (t - w_now w <=? 300 * 1000000) = true)
      by (apply Z.leb_le; exact Hle).
    rewrite E in Hlook.
    destruct (cache_hit_run env user_id' payload' auto_mode_only'
                _ Hlook) as [H1 [H2 H3]].
    split; [exact H1 | split; [ | exact H3]].
    now rewrite H2.
  - intros Hgt.
    assert (E : (t - w_now w <=? 300 * 1000000) = false)
      by (apply Z.leb_gt; lia).
    now rewrite E in Hlook.
Qed.

(** A query answered from a cache tier returns the cached response as it
    is, whatever the user, the requested sources and the mode; it sends
    no request and writes no row. *)
Theorem cache_hit_has_no_effect (env : Env) (user_id : string)
  (payload : IOCQueryRequest) (auto_mode_only : bool) (w : World)
  (cached : IOCQueryResponse) :
  fst (cache_lookup payload w) = Some cached ->
  let r := query_ioc env user_id payload auto_mode_only w in
  fst r = cached
  /\ events_since w (snd r) = [EvQueryIOC user_id payload auto_mode_only]
  /\ all_rows (snd r) = all_rows w.
Proof. apply cache_hit_run. Qed.

Lemma cache_hit_has_no_effect_witness :
  let env := env_with HttpTimeout no_faults in
  let w := Cache.set sample_response alert_world in
  let r := query_ioc env "user-2" ip_request true w in
  fst (cache_lookup ip_request w) = Some sample_response
  /\ (fst r = sample_response
      /\ events_since w (snd r) = [EvQueryIOC "user-2" ip_request true]
      /\ all_rows (snd r) = all_rows w).
Proof.
  cbv zeta. split; [reflexivity | ].
  apply cache_hit_has_no_effect. reflexivity.
Defined.

(** Asked again four minutes later, by another user, in upper case and
    for another source: the answer is the cached one. *)
Lemma repeated_query_served_from_cache_witness :
  let env := env_scoring (JFloat Float64.f0_9) no_faults in
  let t := tick_time + 240 * 1000000 in
  let payload' :=
    {| req_ioc_type := "IP"; req_ioc_value := "8.8.8.8";
       req_sources := Some ["abuseipdb"] |} in
  let r := query_ioc env "user-1" ip_request false alert_world in
  let later := advance_to t (snd r) in
  let r' := query_ioc env "user-2" payload' true later in
  (fst (cache_lookup ip_request alert_world) = None
   /\ all_sources_to_query ip_request false alert_world <> []
   /\ same_indicator payload' ip_request)
  /\ overall_risk (fst r) = Some "high"
  /\ List.length (http_requests (events_since alert_world (snd r))) = 1%nat
  /\ fst r' = fst r
  /\ ((t - w_now alert_world <= 300 * 1000000 ->
       fst r' = fst r
       /\ http_requests (events_since later (snd r')) = []
       /\ all_rows (snd r') = all_rows (snd r))
      /\ (t - w_now alert_world > 300 * 1000000 ->
          fst (cache_lookup payload' later) = None)).
Proof.
  cbv zeta.
  split; [split; [reflexivity | split; [discriminate | split; reflexivity]]
         | ].
  split; [reflexivity | split; [reflexivity | split; [reflexivity | ]]].
  apply repeated_query_served_from_cache.
  - reflexivity.
  - discriminate.
  - split; reflexivity.
Defined.

Lemma miss_stays_miss (payload : IOCQueryRequest) (w : World) :
  fst (cache_lookup payload w) = None ->
  fst (cache_lookup payload (snd (cache_lookup payload w))) = None.
Proof.
  unfold cache_lookup, Cache.redis_get, Cache.get.
  destruct (w_redis w) as [store | ] eqn:E.
  - destruct (Json.get (redis_key payload) store)
      as [[[c | ] expires_at] | ] eqn:G;
      simpl; try destruct (w_now w <? expires_at) eqn:X;
      simpl; try discriminate;
      destruct (Cache.lookup _ (w_mem w)) as [[response stored_at] | ] eqn:L;
      simpl; try discriminate;
      try (destruct (w_now w - stored_at >? Cache.ttl) eqn:T; simpl;
           try discriminate);
      intros _; rewrite ?E, ?G; simpl; rewrite ?X; simpl;
      rewrite ?CacheFacts.lookup_remove, ?L; reflexivity.
  - destruct (Cache.lookup _ (w_mem w)) as [[response stored_at] | ] eqn:L;
      simpl; try discriminate;
      try (destruct (w_now w - stored_at >? Cache.ttl) eqn:T; simpl;
           try discriminate);
      intros _; rewrite ?E; simpl;
      rewrite ?CacheFacts.lookup_remove, ?L; reflexivity.
Qed.

(** The answer given when no source is eligible is not cached: the next
    query for the indicator resolves the sources again. *)
Theorem degraded_response_not_cached (env : Env) (user_id : string)
  (payload : IOCQueryRequest) (auto_mode_only : bool) (w : World) :
  fst (cache_lookup payload w) = None ->
  all_sources_to_query payload auto_mode_only w = [] ->
  fst (cache_lookup payload
         (snd (query_ioc env user_id payload auto_mode_only w))) = None.
Proof.
  intros Hmiss Hnone. unfold query_ioc.
  rewrite Isolation.cache_lookup_emit, Hmiss.
  pose proof (silent_cache_lookup payload w) as [_ Hs].
  set (w1 := emit _ (snd (cache_lookup payload w))).
  assert (Hs1 : static w1 = static w) by exact Hs.
  rewrite (Isolation.static_sources payload auto_mode_only Hs1), Hnone.
  simpl. subst w1. rewrite Isolation.cache_lookup_emit. simpl.
  now apply miss_stays_miss.
Qed.

Lemma degraded_response_not_cached_witness :
  fst (cache_lookup ip_request empty_world) = None
  /\ all_sources_to_query ip_request false empty_world = []
  /\ fst (cache_lookup ip_request
            (snd (query_ioc (env_with HttpTimeout no_faults) "user-1"
                    ip_request false empty_world))) = None.
Proof.
  split; [reflexivity | split; [reflexivity | ]].
  apply degraded_response_not_cached; reflexivity.
Defined.

End CachedQueries.

(** ** The fan-out *)

Module Fanout.

Import Trace.
Import Frame.
Import Requests.
Import IOCService.
Import Sample.

Lemma at_most_silent (n : nat) (w w' : World) :
  silent w w' -> at_most n w w'.
Proof.
  intros H. exists []. split; [exact H | split; [simpl; lia | constructor]].
Qed.

Lemma at_most_trans (n m : nat) (w w1 w2 : World) :
  at_most n w w1 -> at_most m w1 w2 -> at_most (n + m) w w2.
Proof.
  intros [e1 [S1 [L1 F1]]] [e2 [S2 [L2 F2]]]. exists (List.app e1 e2).
  split; [exact (step_trans S1 S2) | ].
  unfold http_requests in *. rewrite flat_map_app. split.
  - rewrite length_app. lia.
  - apply Forall_app. now split.
Qed.

Lemma at_most_weaken (n m : nat) (w w' : World) :
  (n <= m)%nat -> at_most n w w' -> at_most m w w'.
Proof.
  intros Hle [evs [S [L F]]]. exists evs. split; [exact S | split; [lia | exact F]].
Qed.

Lemma build_request_timeout (env : Env) (self : DynamicAPIClient.t)
  (ioc_type ioc_value : string) (timeout : Z) (req : Request) :
  DynamicAPIClient.build_request env self ioc_type ioc_value timeout = Ok req ->
  rq_timeout req = timeout.
Proof.
  unfold DynamicAPIClient.build_request.
  destruct (match Json.get "method" (DynamicAPIClient.request_config self) with
            | Some (JStr m) => Ok (Py.upper m)
            | Some _ => DynamicAPIClient.no_attribute "upper"
            | None => Ok "GET"
            end) as [method | e]; simpl; [ | discriminate].
  destruct (DynamicAPIClient._build_url self ioc_type ioc_value)
    as [url | e]; simpl; [ | discriminate].
  destruct (DynamicAPIClient._build_headers self) as [headers | e]; simpl;
    [ | discriminate].
  destruct (if (method =? "GET")%string
            then p <- DynamicAPIClient._build_params self ioc_type ioc_value ;;
                 Ok (Some p)
            else Ok None) as [params | e]; simpl; [ | discriminate].
  destruct (src_authentication_type (DynamicAPIClient.api_source self));
    try destruct (DynamicAPIClient.username self) as [u | ];
    try destruct (DynamicAPIClient.password self) as [pw | ];
    try destruct (Py.truthy u && Py.truthy pw)%bool;
    intros H; injection H as <-; reflexivity.
Qed.

Lemma at_most_adapter (env : Env) (self : DynamicAPIClient.t)
  (ioc_type ioc_value : string) (w : World) :
  at_most 1 w
    (snd (DynamicAPIClient.query env self ioc_type ioc_value 30 w)).
Proof.
  unfold DynamicAPIClient.query.
  destruct (DynamicAPIClient.build_request env self ioc_type ioc_value 30)
    as [req | e] eqn:E; simpl.
  - exists [EvHttp req]. split; [apply step_emit | ].
    split; [simpl; lia | ].
    simpl. constructor; [ | constructor].
    exact (build_request_timeout _ _ _ _ _ E).
  - apply at_most_silent, step_refl.
Qed.

Lemma at_most_query_one (env : Env) (ks : option APIKey * APISource)
  (ioc_type ioc_value : string) (w : World) :
  at_most 1 w (snd (query_one env ks ioc_type ioc_value w)).
Proof.
  unfold query_one. destruct ks as [[api_key | ] api_source]; simpl.
  - unfold _query_single_source. rewrite isolate_snd.
    unfold _query_single_source_try.
    destruct (type_not_supported api_source ioc_type);
      [apply at_most_silent, step_refl | ].
    destruct (resolve_key env api_key api_source) as [early | key];
      [apply at_most_silent, step_refl | ].
    match goal with
    | |- context [DynamicAPIClient.query ?e ?c ?t ?v 30 w] =>
        pose proof (at_most_adapter e c t v w) as Hq;
        destruct (DynamicAPIClient.query e c t v 30 w) as [[res | ex] w1]
    end; simpl in Hq; [ | exact Hq].
    match goal with
    | |- context [Session.commit env ?w2] =>
        pose proof (silent_commit env w2) as Hc;
        destruct (Session.commit env w2) as [[u | ex] w3]
    end; simpl in *;
      (apply (at_most_weaken (n := 1 + 0)); [lia | ];
       apply (at_most_trans Hq); apply at_most_silent;
       exact (silent_trans (silent_add _ _) Hc)).
  - unfold _query_single_source_without_key. rewrite isolate_snd.
    unfold _query_single_source_without_key_try.
    destruct (type_not_supported api_source ioc_type);
      [apply at_most_silent, step_refl | ].
    match goal with
    | |- context [DynamicAPIClient.query ?e ?c ?t ?v 30 w] =>
        pose proof (at_most_adapter e c t v w) as Hq;
        destruct (DynamicAPIClient.query e c t v 30 w) as [[res | ex] w1]
    end; simpl in *; exact Hq.
Qed.

Lemma at_most_query_all (env : Env)
  (sources : list (option APIKey * APISource))
  (ioc_type ioc_value : string) (w : World) :
  at_most (List.length sources) w
    (snd (query_all env sources ioc_type ioc_value w)).
Proof.
  revert w. induction sources as [ | ks rest IH]; intros w; simpl.
  - apply at_most_silent, step_refl.
  - pose proof (at_most_query_one env ks ioc_type ioc_value w) as H1.
    destruct (query_one env ks ioc_type ioc_value w) as [r w1].
    pose proof (IH w1) as H2.
    destruct (query_all env rest ioc_type ioc_value w1) as [rs w2].
    simpl in *. exact (at_most_trans H1 H2).
Qed.

(** A query never sends more requests than there are eligible sources:
    one request per source at most, no retry, and none at all on a cache
    hit; every request has the timeout of 30 seconds. *)
Theorem no_retry (env : Env) (user_id : string)
  (payload : IOCQueryRequest) (auto_mode_only : bool) (w : World) :
  let requests :=
    http_requests
      (events_since w
         (snd (query_ioc env user_id payload auto_mode_only w))) in
  (List.length requests
   <= List.length (all_sources_to_query payload auto_mode_only w))%nat
  /\ Forall (fun r => rq_timeout r = 30) requests.
Proof.
  assert (H : at_most
                (List.length (all_sources_to_query payload auto_mode_only w))
                w (snd (query_ioc env user_id payload auto_mode_only w))).
  { unfold query_ioc.
    rewrite Isolation.cache_lookup_emit.
    pose proof (silent_cache_lookup payload w) as Hsil.
    set (w1 := emit _ (snd (cache_lookup payload w))).
    assert (S1 : step w w1 [EvQueryIOC user_id payload auto_mode_only]).
    { change [EvQueryIOC user_id payload auto_mode_only]
        with (List.app [] [EvQueryIOC user_id payload auto_mode_only]).
      exact (step_trans Hsil (step_emit _ _)). }
    assert (A1 : at_most 0 w w1).
    { exists [EvQueryIOC user_id payload auto_mode_only].
      split; [exact S1 | split; [simpl; lia | constructor]]. }
    assert (Hs1 : static w1 = static w) by exact (proj2 S1).
    destruct (fst (cache_lookup payload w)) as [cached | ]; simpl.
    - apply (at_most_weaken (n := 0)); [lia | exact A1].
    - rewrite (Isolation.static_sources payload auto_mode_only Hs1).
      destruct (all_sources_to_query payload auto_mode_only w)
        as [ | ks rest] eqn:E.
      + simpl. exact A1.
      + change (negb (Py.nonempty (ks :: rest))) with false. cbv iota.
        pose proof (at_most_query_all env (ks :: rest)
                      (req_ioc_type payload) (req_ioc_value payload) w1)
          as Hq.
        destruct (query_all env (ks :: rest) (req_ioc_type payload)
                    (req_ioc_value payload) w1) as [results w2].
        simpl snd in *.
        apply (at_most_weaken
                 (n := 0 + (List.length (ks :: rest) + 0))); [lia | ].
        apply (at_most_trans A1). apply (at_most_trans Hq).
        apply at_most_silent.
        eapply silent_trans; [apply silent_cache_set | ].
        eapply silent_trans; [apply silent_redis_set | apply silent_save]. }
  destruct H as [evs [S [L F]]]. cbv zeta.
  rewrite (step_events S). now split.
Qed.

Lemma exchange_shape (env : Env) (self : DynamicAPIClient.t)
  (ioc_type ioc_value : string) (req : Request) :
  let d := DynamicAPIClient.exchange env self ioc_type ioc_value req in
  DynamicAPIClient.d_status d = "success"
  \/ ((DynamicAPIClient.d_status d = "timeout"
       \/ DynamicAPIClient.d_status d = "error")
      /\ DynamicAPIClient.d_risk_score d = None).
Proof.
  unfold DynamicAPIClient.exchange.
  destruct (requests_request env req) as [ | msg | msg | code text]; simpl;
    try tauto.
  destruct (DynamicAPIClient.raises_for_status code); simpl; tauto.
Qed.

Lemma to_source_result_shape (env : Env) (api_source : APISource)
  (risk : json) (d : DynamicAPIClient.QueryResultDict)
  (res : IOCSourceResult) :
  to_source_result env api_source risk d = Ok res ->
  source res = src_name api_source
  /\ status res = DynamicAPIClient.d_status d
  /\ (risk = JNull -> risk_score res = None).
Proof.
  unfold to_source_result.
  destruct (match risk with
            | JNull => Ok None
            | _ => f <- to_float env risk ;; Ok (Some f)
            end) as [score | e] eqn:Es; simpl; [ | discriminate].
  destruct (match DynamicAPIClient.d_raw d with
            | Some (JObj d0) => Ok (Some d0)
            | Some JNull | None => Ok None
            | Some _ => Raise (Exn "ValidationError" "raw")
            end) as [raw_data | e]; simpl; [ | discriminate].
  intros H. injection H as <-. simpl.
  split; [reflexivity | split; [reflexivity | ]].
  intros ->. now injection Es as <-.
Qed.

Lemma well_formed_error (api_source : APISource) (text : string) :
  well_formed_result (src_name api_source) (error_result api_source text).
Proof.
  split; [reflexivity | split; [simpl; tauto | ]]. simpl. congruence.
Qed.

Lemma well_formed_isolate (api_source : APISource)
  (r : result IOCSourceResult * World) :
  (forall res, fst r = Ok res ->
               well_formed_result (src_name api_source) res) ->
  well_formed_result (src_name api_source) (fst (isolate api_source r)).
Proof.
  destruct r as [[res | e] w]; simpl; intros H.
  - now apply H.
  - apply well_formed_error.
Qed.

Lemma well_formed_adapted (env : Env) (api_source : APISource)
  (self : DynamicAPIClient.t) (ioc_type ioc_value : string) (w w1 : World)
  (d : DynamicAPIClient.QueryResultDict) (res : IOCSourceResult) :
  DynamicAPIClient.query env self ioc_type ioc_value 30 w = (Ok d, w1) ->
  to_source_result env api_source
    (normalise_risk_score api_source
       (get_or_null (DynamicAPIClient.d_risk_score d))) d = Ok res ->
  well_formed_result (src_name api_source) res.
Proof.
  unfold DynamicAPIClient.query.
  destruct (DynamicAPIClient.build_request env self ioc_type ioc_value 30)
    as [req | e]; [ | discriminate].
  intros Hq Hres. injection Hq as <- _.
  destruct (to_source_result_shape _ _ _ _ Hres) as [Hsrc [Hst Hnull]].
  split; [exact Hsrc | ]. rewrite Hst.
  destruct (exchange_shape env self ioc_type ioc_value req)
    as [Hs | [Hs Hr]].
  - rewrite Hs. split; [simpl; tauto | reflexivity].
  - split.
    + destruct Hs as [-> | ->]; simpl; tauto.
    + intros Hscore. exfalso. apply Hscore. apply Hnull.
      now rewrite Hr.
Qed.

Lemma query_all_well_formed (env : Env)
  (sources : list (option APIKey * APISource))
  (ioc_type ioc_value : string) (w : World) :
  Forall2 (fun ks r => well_formed_result (src_name (snd ks)) r) sources
    (fst (query_all env sources ioc_type ioc_value w)).
Proof.
  revert w. induction sources as [ | ks rest IH]; intros w; simpl.
  - constructor.
  - assert (H1 : well_formed_result (src_name (snd ks))
                   (fst (query_one env ks ioc_type ioc_value w))).
    { unfold query_one. destruct ks as [[api_key | ] api_source]; simpl.
      - unfold _query_single_source. apply well_formed_isolate.
        unfold _query_single_source_try.
        destruct (type_not_supported api_source ioc_type); simpl.
        + intros res H. injection H as <-.
          split; [reflexivity | split; [simpl; tauto | simpl; congruence]].
        + destruct (resolve_key env api_key api_source) as [early | key]
            eqn:Er.
          * simpl. intros res H. injection H as <-.
            unfold resolve_key in Er.
            repeat match type of Er with
              | (if ?c then _ else _) = _ => destruct c
              end; try discriminate; injection Er as <-;
              apply well_formed_error.
          * match goal with
            | |- context [DynamicAPIClient.query ?e ?c ?t ?v 30 w] =>
                destruct (DynamicAPIClient.query e c t v 30 w)
                  as [[d | ex] w1] eqn:Eq
            end; simpl; [ | discriminate].
            match goal with
            | |- context [Session.commit env ?w2] =>
                destruct (Session.commit env w2) as [[u | ex] w3]
            end; simpl; [ | discriminate].
            intros res Hres. eapply well_formed_adapted; eassumption.
      - unfold _query_single_source_without_key. apply well_formed_isolate.
        unfold _query_single_source_without_key_try.
        destruct (type_not_supported api_source ioc_type); simpl.
        + intros res H. injection H as <-.
          split; [reflexivity | split; [simpl; tauto | simpl; congruence]].
        + match goal with
          | |- context [DynamicAPIClient.query ?e ?c ?t ?v 30 w] =>
              destruct (DynamicAPIClient.query e c t v 30 w)
                as [[d | ex] w1] eqn:Eq
          end; simpl; [ | discriminate].
          intros res Hres.
          destruct (to_source_result_shape _ _ _ _ Hres)
            as [Hsrc [Hst Hnull]].
          unfold DynamicAPIClient.query in Eq.
          destruct (DynamicAPIClient.build_request _ _ _ _ _) as [req | e];
            [ | discriminate].
          injection Eq as <- _.
          split; [exact Hsrc | ]. rewrite Hst.
          match goal with
          | |- context [DynamicAPIClient.exchange ?e ?c ?t ?v ?r] =>
              destruct (exchange_shape e c t v r) as [Hs | [Hs Hr]]
          end.
          * rewrite Hs. split; [simpl; tauto | reflexivity].
          * split.
            -- destruct Hs as [-> | ->]; simpl; tauto.
            -- intros Hscore. exfalso. apply Hscore. apply Hnull.
               now rewrite Hr. }
    destruct (query_one env ks ioc_type ioc_value w) as [r w1].
    pose proof (IH w1) as H2.
    destruct (query_all env rest ioc_type ioc_value w1) as [rs w2].
    simpl in *. now constructor.
Qed.

(** Every result of the fan-out carries the name of its source and one
    of the statuses success, error, timeout and skipped; it carries a
    risk signal only with status success. *)
Theorem fan_out_results_well_formed (env : Env)
  (sources : list (option APIKey * APISource))
  (ioc_type ioc_value : string) (w : World) :
  Forall2 (fun ks r => well_formed_result (src_name (snd ks)) r) sources
    (fst (query_all env sources ioc_type ioc_value w)).
Proof. apply query_all_well_formed. Qed.

Lemma well_formed_names (sources : list (option APIKey * APISource))
  (results : list IOCSourceResult) :
  Forall2 (fun ks r => well_formed_result (src_name (snd ks)) r) sources
    results ->
  map source results = map (fun ks => src_name (snd ks)) sources.
Proof.
  induction 1 as [ | ks r sources results [Hn _] _ IH]; simpl;
    [reflexivity | ].
  now rewrite Hn, IH.
Qed.

(** On a cache miss with at least one eligible source, the response
    echoes the indicator, lists exactly one result per eligible source,
    in the order the sources were resolved, and its verdict is the
    aggregate of those results. *)
Theorem response_lists_every_source (env : Env) (user_id : string)
  (payload : IOCQueryRequest) (auto_mode_only : bool) (w : World) :
  fst (IOCService.cache_lookup payload w) = None ->
  all_sources_to_query payload auto_mode_only w <> [] ->
  let response := fst (query_ioc env user_id payload auto_mode_only w) in
  ioc_type response = req_ioc_type payload
  /\ ioc_value response = req_ioc_value payload
  /\ map source (queried_sources response)
     = map (fun ks => src_name (snd ks))
         (all_sources_to_query payload auto_mode_only w)
  /\ overall_risk response
     = _calculate_overall_risk (queried_sources response).
Proof.
  intros Hmiss Hne. cbv zeta. unfold query_ioc.
  rewrite Isolation.cache_lookup_emit, Hmiss.
  pose proof (silent_cache_lookup payload w) as [_ Hs].
  set (w1 := emit _ (snd (cache_lookup payload w))).
  assert (Hs1 : static w1 = static w) by exact Hs.
  rewrite (Isolation.static_sources payload auto_mode_only Hs1).
  destruct (all_sources_to_query payload auto_mode_only w)
    as [ | ks rest] eqn:E; [congruence | ].
  change (negb (Py.nonempty (ks :: rest))) with false. cbv iota.
  pose proof (query_all_well_formed env (ks :: rest) (req_ioc_type payload)
                (req_ioc_value payload) w1) as Hwf.
  destruct (query_all env (ks :: rest) (req_ioc_type payload)
              (req_ioc_value payload) w1) as [results w2].
  simpl in Hwf |- *. repeat split.
  exact (well_formed_names Hwf).
Qed.

(** Two eligible sources: two results, in the order of the sources. *)
Lemma response_lists_every_source_witness :
  let env := env_scoring (JFloat Float64.f0_9) no_faults in
  let response :=
    fst (query_ioc env "user-1" ip_request false Fixtures.overlap_world) in
  (fst (IOCService.cache_lookup ip_request Fixtures.overlap_world) = None
   /\ all_sources_to_query ip_request false Fixtures.overlap_world <> [])
  /\ map source (queried_sources response) = ["virustotal"; "abuseipdb"]
  /\ (ioc_type response = req_ioc_type ip_request
      /\ ioc_value response = req_ioc_value ip_request
      /\ map source (queried_sources response)
         = map (fun ks => src_name (snd ks))
             (all_sources_to_query ip_request false Fixtures.overlap_world)
      /\ overall_risk response
         = _calculate_overall_risk (queried_sources response)).
Proof.
  cbv zeta. split; [split; [reflexivity | discriminate] | ].
  split; [reflexivity | ].
  apply response_lists_every_source; [reflexivity | discriminate].
Defined.

End Fanout.

(** ** The rows of a saved query *)

Module SavedRows.

Import Stored.
Import IOCService.
Import Sample.

Lemma add_threat_data_rows (env : Env) (ioc_query_id : string)
  (source_results : list IOCSourceResult) (w : World) :
  let w' := add_threat_data env ioc_query_id source_results w in
  exists tds,
    w_pending w' = List.app (w_pending w) (map RThreatData tds)
    /\ map td_source_api tds
       = filter (known w) (map source source_results)
    /\ Forall (fun t => td_ioc_query_id t = ioc_query_id) tds
    /\ w_flushed w' = w_flushed w
    /\ w_committed w' = w_committed w
    /\ w_writes w' = w_writes w.
Proof.
  revert w. induction source_results as [ | r rest IH]; intros w; simpl.
  - exists []. simpl. rewrite app_nil_r. repeat split. constructor.
  - unfold known at 1.
    destruct (find _ (w_api_sources w)) as [s | ] eqn:E; simpl.
    + match goal with
      | |- context [add_threat_data env ioc_query_id rest ?w1] =>
          destruct (IH w1) as [tds [Hp [Hs [Hq [Hf [Hc Hw]]]]]]
      end.
      exists (threat_data_row (uuid4 env (w_uuids w)) ioc_query_id r :: tds).
      simpl in *. rewrite Hp, <- app_assoc. simpl.
      split; [reflexivity | ].
      split; [f_equal; exact Hs | ].
      split; [constructor; [reflexivity | exact Hq] | ].
      now repeat split.
    + apply IH.
Qed.

(** When the database accepts the flush and the commit, saving a query
    commits whatever the session held, then one query row, then one
    record for each result whose source name is a row of [api_sources],
    in the order of the results and each tied to the query row; results
    under another name, such as the ["system"] error, get no record.
    Nothing is left in the session. *)
Theorem saved_query_rows (env : Env) (user_id : string)
  (payload : IOCQueryRequest) (response : IOCQueryResponse) (w : World) :
  db_fault env (w_writes w) = false ->
  db_fault env (S (w_writes w)) = false ->
  let w' := _save_query_to_db env user_id payload response w in
  let query_row :=
    ioc_query_row (uuid4 env (w_uuids w)) user_id payload response in
  exists tds,
    w_committed w'
    = List.app (w_committed w)
        (List.app (w_flushed w)
           (List.app (w_pending w)
              (RIOCQuery query_row :: map RThreatData tds)))
    /\ map td_source_api tds
       = filter (known w) (map source (queried_sources response))
    /\ Forall (fun t => td_ioc_query_id t = q_id query_row) tds
    /\ w_pending w' = [] /\ w_flushed w' = [].
Proof.
  intros F1 F2.
  unfold _save_query_to_db, _save_query_to_db_try, Session.flush.
  simpl. rewrite F1. simpl.
  match goal with
  | |- context [add_threat_data env ?i ?rs ?w3] =>
      destruct (add_threat_data_rows env i rs w3)
        as [tds [Hp [Hs [Hq [Hf [Hc Hw]]]]]];
      set (w4 := add_threat_data env i rs w3) in *
  end.
  cbv zeta in *. simpl in Hp, Hs, Hq, Hf, Hc, Hw.
  unfold Session.commit. rewrite Hw, F2. simpl.
  exists tds. rewrite Hc, Hf, Hp. simpl.
  split; [now rewrite <- !app_assoc | ].
  split; [exact Hs | ]. split; [exact Hq | ]. now split.
Qed.

(** One scored result and the ["system"] error: one query row and one
    record are committed. *)
Lemma saved_query_rows_witness :
  let env := env_with HttpTimeout no_faults in
  let response :=
    {| ioc_type := "ip"; ioc_value := "8.8.8.8";
       overall_risk := Some "high";
       queried_sources :=
         [mk "virustotal" "success" (Some Float64.f0_9);
          Spec.no_source_result];
       queried_at := tick_time |} in
  let w' := _save_query_to_db env "user-1" ip_request response
              registry_world in
  (db_fault env (w_writes registry_world) = false
   /\ db_fault env (S (w_writes registry_world)) = false)
  /\ map td_source_api (threat_data (w_committed w')) = ["virustotal"]
  /\ exists tds,
       w_committed w'
       = List.app (w_committed registry_world)
           (List.app (w_flushed registry_world)
              (List.app (w_pending registry_world)
                 (RIOCQuery
                    (ioc_query_row (uuid4 env (w_uuids registry_world))
                       "user-1" ip_request response)
                  :: map RThreatData tds)))
       /\ map td_source_api tds
          = filter (known registry_world)
              (map source (queried_sources response))
       /\ Forall
            (fun t =>
               td_ioc_query_id t
               = q_id (ioc_query_row (uuid4 env (w_uuids registry_world))
                         "user-1" ip_request response)) tds
       /\ w_pending w' = [] /\ w_flushed w' = [].
Proof.
  cbv zeta. split; [split; reflexivity | split; [reflexivity | ]].
  apply saved_query_rows; reflexivity.
Defined.

End SavedRows.

(** ** The request on the wire *)

Module Wire.

Import Trace.
Import Frame.
Import DynamicAPIClient.
Import Sample.
Import Fixtures.

Lemma dict_get_set {V} (k : string) (v : V) (d : list (string * V)) :
  Json.get k (Json.set k v d) = Some v.
Proof.
  induction d as [ | [k' v'] d IH]; simpl.
  - now rewrite String.eqb_refl.
  - destruct (String.eqb k k') eqn:E; simpl.
    + now rewrite String.eqb_refl.
    + now rewrite E.
Qed.

Lemma dict_get_set_other {V} (k k' : string) (v : V) (d : list (string * V)) :
  k' <> k -> Json.get k' (Json.set k v d) = Json.get k' d.
Proof.
  intros Hne. induction d as [ | [k0 v0] d IH]; simpl.
  - destruct (String.eqb_spec k' k); [contradiction | reflexivity].
  - destruct (String.eqb_spec k k0) as [-> | Hk]; simpl.
    + destruct (String.eqb_spec k' k0); [contradiction | reflexivity].
    + destruct (String.eqb k' k0); [reflexivity | exact IH].
Qed.

(** The method a request goes out with. *)
Lemma method_upper (self : t) (method : string) :
  match Json.get "method" (request_config self) with
  | Some (JStr m) => Ok (Py.upper m)
  | Some _ => no_attribute "upper"
  | None => Ok "GET"
  end = Ok method ->
  Py.upper method = method.
Proof.
  destruct (Json.get "method" (request_config self)) as [[ ] | ];
    try discriminate; intros H; injection H as <-.
  - apply LetterCase.upper_idempotent.
  - reflexivity.
Qed.

(** The method is sent in upper case.  Query parameters are built for
    GET only and a JSON body for POST, PUT and PATCH only, so a request
    never carries both, and a DELETE or HEAD request carries neither. *)
Theorem method_gates_params_and_body (env : Env) (self : t)
  (ioc_type ioc_value : string) (timeout : Z) (req : Request) :
  build_request env self ioc_type ioc_value timeout = Ok req ->
  Py.upper (rq_method req) = rq_method req
  /\ (rq_params req <> None <-> rq_method req = "GET")
  /\ (rq_json req <> None -> In (rq_method req) ["POST"; "PUT"; "PATCH"])
  /\ (rq_params req = None \/ rq_json req = None).
Proof.
  unfold build_request.
  destruct (match Json.get "method" (request_config self) with
            | Some (JStr m) => Ok (Py.upper m)
            | Some _ => no_attribute "upper"
            | None => Ok "GET"
            end) as [method | e] eqn:Em; cbn [bind]; [ | discriminate].
  apply method_upper in Em.
  destruct (_build_url self ioc_type ioc_value) as [url | e]; cbn [bind];
    [ | discriminate].
  destruct (_build_headers self) as [headers | e]; cbn [bind];
    [ | discriminate].
  destruct (String.eqb_spec method "GET") as [Hget | Hget].
  - subst method.
    destruct (_build_params self ioc_type ioc_value) as [p | e]; cbn [bind];
      [ | discriminate].
    change (Py.mem "GET" ["POST"; "PUT"; "PATCH"]) with false. cbv iota.
    destruct (src_authentication_type (api_source self));
      try destruct (username self) as [u | ];
      try destruct (password self) as [pw | ];
      try destruct (Py.truthy u && Py.truthy pw)%bool;
      intros H; injection H as <-;
      cbn [rq_method rq_params rq_json];
      (split; [reflexivity | ]);
      (split; [split; [reflexivity | discriminate] | ]);
      (split; [intros Hb; now elim Hb | now right]).
  - cbn [bind].
    assert (Hbody : forall body : option json,
               (if Py.mem method ["POST"; "PUT"; "PATCH"]
                then body else None) <> None ->
               In method ["POST"; "PUT"; "PATCH"]).
    { intros body Hb.
      destruct (Py.mem method ["POST"; "PUT"; "PATCH"]) eqn:Hm;
        [ | contradiction].
      unfold Py.mem in Hm. apply existsb_exists in Hm.
      destruct Hm as [x [Hin Heq]]. apply String.eqb_eq in Heq.
      now subst x. }
    destruct (src_authentication_type (api_source self));
      try destruct (username self) as [u | ];
      try destruct (password self) as [pw | ];
      try destruct (Py.truthy u && Py.truthy pw)%bool;
      intros H; injection H as <-;
      cbn [rq_method rq_params rq_json];
      (split; [exact Em | ]);
      (split; [split; [intros Hp; now elim Hp | intros Hg; now elim Hget]
              | ]);
      (split; [apply Hbody | now left]).
Qed.

(** A template that asks for [post] in lower case: the request goes out
    as POST with a body and without query parameters. *)
Lemma method_gates_params_and_body_witness :
  let env := env_sealed HttpTimeout in
  let self := init bearer_source "s3cret" None None None in
  let req :=
    {| rq_method := "POST";
       rq_url := "https://api.example.org/v1/lookup";
       rq_headers :=
         [("Authorization", "Bearer s3cret");
          ("Accept", "application/json")];
       rq_params := None;
       rq_json := Some (JObj [("indicator", JStr "8.8.8.8")]);
       rq_auth := None;
       rq_timeout := 30 |} in
  build_request env self "ip" "8.8.8.8" 30 = Ok req
  /\ (Py.upper (rq_method req) = rq_method req
      /\ (rq_params req <> None <-> rq_method req = "GET")
      /\ (rq_json req <> None
          -> In (rq_method req) ["POST"; "PUT"; "PATCH"])
      /\ (rq_params req = None \/ rq_json req = None)).
Proof.
  cbv zeta. split; [reflexivity | ].
  apply (@method_gates_params_and_body (env_sealed HttpTimeout)
           (init bearer_source "s3cret" None None None) "ip" "8.8.8.8" 30).
  reflexivity.
Defined.


(** How the credentials leave the adapter.  A bearer-token source gets
    the header [Authorization: Bearer <key>], which replaces an
    [Authorization] header of the template and leaves the other headers
    alone.  Basic authentication is attached exactly when the source
    uses it and user name and password are both present and non-empty.
    For every other authentication type the headers are those of the
    template. *)
Theorem credentials_on_the_wire (env : Env) (self : t)
  (ioc_type ioc_value : string) (timeout : Z) (req : Request) :
  build_request env self ioc_type ioc_value timeout = Ok req ->
  exists headers,
    _build_headers self = Ok headers
    /\ (src_authentication_type (api_source self) = BEARER_TOKEN ->
        Json.get "Authorization" (rq_headers req)
        = Some ("Bearer " ++ api_key self)
        /\ forall k, k <> "Authorization" ->
                     Json.get k (rq_headers req) = Json.get k headers)
    /\ (src_authentication_type (api_source self) <> BEARER_TOKEN ->
        rq_headers req = headers)
    /\ (forall u p,
          rq_auth req = Some (u, p)
          <-> src_authentication_type (api_source self) = BASIC_AUTH
              /\ username self = Some u /\ password self = Some p
              /\ u <> EmptyString /\ p <> EmptyString).
Proof.
  unfold build_request.
  destruct (match Json.get "method" (request_config self) with
            | Some (JStr m) => Ok (Py.upper m)
            | Some _ => no_attribute "upper"
            | None => Ok "GET"
            end) as [method | e]; simpl; [ | discriminate].
  destruct (_build_url self ioc_type ioc_value) as [url | e]; simpl;
    [ | discriminate].
  destruct (_build_headers self) as [headers | e]; simpl; [ | discriminate].
  destruct (if (method =? "GET")%string
            then p <- _build_params self ioc_type ioc_value ;; Ok (Some p)
            else Ok None) as [params | e]; simpl; [ | discriminate].
  assert (Ht : forall s, Py.truthy s = true <-> s <> EmptyString).
  { intros [ | c s]; simpl; split; congruence. }
  assert (Hplain :
            forall a : AuthenticationType,
              a <> BEARER_TOKEN ->
              (a = BASIC_AUTH ->
               forall u p,
                 username self = Some u -> password self = Some p ->
                 ~ (u <> EmptyString /\ p <> EmptyString)) ->
              (a = BEARER_TOKEN ->
               Json.get "Authorization" headers
               = Some ("Bearer " ++ api_key self)
               /\ forall k, k <> "Authorization" ->
                            Json.get k headers = Json.get k headers)
              /\ (a <> BEARER_TOKEN -> headers = headers)
              /\ (forall u p,
                    @None (string * string) = Some (u, p)
                    <-> a = BASIC_AUTH
                        /\ username self = Some u /\ password self = Some p
                        /\ u <> EmptyString /\ p <> EmptyString)).
  { intros a Ha Hbasic. split; [intros Hb; contradiction | ].
    split; [reflexivity | ].
    intros u p. split; [discriminate | ].
    intros [Hb [Hu [Hp [Hnu Hnp]]]].
    elim (Hbasic Hb u p Hu Hp). now split. }
  destruct (src_authentication_type (api_source self)) eqn:Ea.
  - intros H; injection H as <-; cbn [rq_headers rq_auth].
    exists headers. split; [reflexivity | ].
    apply Hplain; discriminate.
  - destruct (username self) as [u | ] eqn:Eu;
      [destruct (password self) as [pw | ] eqn:Ep;
       [destruct (Py.truthy u && Py.truthy pw)%bool eqn:Et | ] | ];
      intros H; injection H as <-; cbn [rq_headers rq_auth];
      exists headers; (split; [reflexivity | ]).
    + split; [discriminate | ]. split; [reflexivity | ].
      intros u0 p0. split.
      * intros H. injection H as <- <-.
        apply andb_true_iff in Et. destruct Et as [Tu Tp].
        apply Ht in Tu. apply Ht in Tp. now repeat split.
      * intros [_ [Hu [Hp _]]]. congruence.
    + apply Hplain; [discriminate | ].
      intros _ u0 p0 Hu Hp [Hnu Hnp].
      injection Hu as <-. injection Hp as <-.
      apply Ht in Hnu. apply Ht in Hnp. rewrite Hnu, Hnp in Et.
      discriminate.
    + apply Hplain; [discriminate | ].
      intros _ u0 p0 Hu Hp. discriminate.
    + apply Hplain; [discriminate | ].
      intros _ u0 p0 Hu Hp. discriminate.
  - intros H; injection H as <-; cbn [rq_headers rq_auth].
    exists headers. split; [reflexivity | ].
    split; [ | split].
    + intros _. split; [apply dict_get_set | ].
      intros k Hk. now apply dict_get_set_other.
    + intros Hn. now elim Hn.
    + intros u p. split; [discriminate | ].
      intros [Hb _]. discriminate.
  - intros H; injection H as <-; cbn [rq_headers rq_auth].
    exists headers. split; [reflexivity | ].
    apply Hplain; discriminate.
  - intros H; injection H as <-; cbn [rq_headers rq_auth].
    exists headers. split; [reflexivity | ].
    apply Hplain; discriminate.
Qed.

(** The bearer source: the template's own [Authorization] header is
    replaced, [Accept] is kept. *)
Lemma credentials_on_the_wire_witness :
  let env := env_sealed HttpTimeout in
  let self := init bearer_source "s3cret" None None None in
  let req :=
    {| rq_method := "POST";
       rq_url := "https://api.example.org/v1/lookup";
       rq_headers :=
         [("Authorization", "Bearer s3cret");
          ("Accept", "application/json")];
       rq_params := None;
       rq_json := Some (JObj [("indicator", JStr "8.8.8.8")]);
       rq_auth := None;
       rq_timeout := 30 |} in
  build_request env self "ip" "8.8.8.8" 30 = Ok req
  /\ exists headers,
       _build_headers self = Ok headers
       /\ (src_authentication_type (api_source self) = BEARER_TOKEN ->
           Json.get "Authorization" (rq_headers req)
           = Some ("Bearer " ++ api_key self)
           /\ forall k, k <> "Authorization" ->
                        Json.get k (rq_headers req) = Json.get k headers)
       /\ (src_authentication_type (api_source self) <> BEARER_TOKEN ->
           rq_headers req = headers)
       /\ (forall u p,
             rq_auth req = Some (u, p)
             <-> src_authentication_type (api_source self) = BASIC_AUTH
                 /\ username self = Some u /\ password self = Some p
                 /\ u <> EmptyString /\ p <> EmptyString).
Proof.
  cbv zeta. split; [reflexivity | ].
  apply (@credentials_on_the_wire (env_sealed HttpTimeout)
           (init bearer_source "s3cret" None None None) "ip" "8.8.8.8" 30).
  reflexivity.
Defined.

Lemma rev_string_app (s t acc : string) :
  Py.rev_string (s ++ t) acc = Py.rev_string t (Py.rev_string s acc).
Proof.
  revert acc. induction s as [ | c s IH]; intros acc; simpl;
    [reflexivity | apply IH].
Qed.

Lemma rstrip_slash_slash (s : string) :
  Py.rstrip_slash (s ++ "/") = Py.rstrip_slash s.
Proof. unfold Py.rstrip_slash. now rewrite rev_string_app. Qed.

(** A trailing slash on the base URL makes no difference to the URL
    that is requested. *)
Theorem base_url_trailing_slash (self self' : t)
  (ioc_type ioc_value : string) :
  request_config self' = request_config self ->
  base_url self' = (base_url self ++ "/")%string ->
  _build_url self' ioc_type ioc_value = _build_url self ioc_type ioc_value.
Proof.
  intros Hc Hb. unfold _build_url.
  now rewrite Hc, Hb, rstrip_slash_slash.
Qed.

Lemma base_url_trailing_slash_witness :
  let self :=
    init virustotal "k" None None (Some "https://vt.example.org/api") in
  let self' :=
    init virustotal "k" None None (Some "https://vt.example.org/api/") in
  (request_config self' = request_config self
   /\ base_url self' = (base_url self ++ "/")%string)
  /\ _build_url self "ip" "8.8.8.8"
     = Ok "https://vt.example.org/api/ip/8.8.8.8"
  /\ _build_url self' "ip" "8.8.8.8" = _build_url self "ip" "8.8.8.8".
Proof.
  cbv zeta. split; [split; reflexivity | ]. split; [reflexivity | ].
  apply base_url_trailing_slash; reflexivity.
Defined.

End Wire.

(** ** Stored secrets *)

Module Secrets.

Import Trace.
Import Frame.
Import IOCService.
Import Sample.
Import Fixtures.


(** What [encrypt_value] stores, [decrypt_value] gives back: the empty
    string for the empty string, the plaintext for anything else, as
    long as Fernet decrypts its own (non-empty) tokens. *)
Theorem encrypt_decrypt_round_trip (env : Env)
  (fernet_encrypt : string -> string) (value : string) :
  (forall s, Py.truthy (fernet_encrypt s) = true) ->
  (forall s, fernet_decrypt env (fernet_encrypt s) = Some s) ->
  decrypt_value env (encrypt_value fernet_encrypt value) = value.
Proof.
  intros Hne Hinv. unfold encrypt_value, decrypt_value.
  destruct value as [ | c value]; simpl; [reflexivity | ].
  now rewrite Hne, Hinv.
Qed.

Lemma encrypt_decrypt_round_trip_witness :
  ((forall s, Py.truthy (seal s) = true)
   /\ (forall s, fernet_decrypt (env_sealed HttpTimeout) (seal s) = Some s))
  /\ encrypt_value seal "s3cret" = "gAAAAs3cret"
  /\ decrypt_value (env_sealed HttpTimeout) (encrypt_value seal "s3cret")
     = "s3cret".
Proof.
  split; [split; intros s; reflexivity | ]. split; [reflexivity | ].
  apply encrypt_decrypt_round_trip; intros s; reflexivity.
Defined.




(** A secret that is a no-break space (U+00A0) is blank for
    [str.strip()]: the source gets the credential error and no request
    is made. *)
Example blank_secret_no_request :
  let env := env_sealed (HttpResponse 200 "{}") in
  let r :=
    _query_single_source env nbsp_key bearer_source "ip" "8.8.8.8"
      alert_world in
  blank nbsp = true
  /\ fernet_decrypt env (seal nbsp) = Some nbsp
  /\ status (fst r) = "error"
  /\ description (fst r)
     = Some "Failed to decrypt API key or API key is empty"
  /\ snd r = alert_world.
Proof. cbv zeta. repeat split. Qed.

End Secrets.

(** ** Starting and stopping the scheduler *)

Module Lifecycle.

Import SchedulerLifecycle.

Lemma update_last (f : BackgroundScheduler -> result BackgroundScheduler)
  (old : list BackgroundScheduler) (b : BackgroundScheduler) :
  update (List.length old) f (List.app old [b])
  = (b' <- f b ;; Ok (List.app old [b'])).
Proof.
  induction old as [ | a old IH]; simpl.
  - reflexivity.
  - rewrite IH. now destruct (f b).
Qed.

Lemma filter_stopped (l : list BackgroundScheduler) :
  Forall (fun b => running b = false) l -> filter running l = [].
Proof.
  induction 1 as [ | b l Hb _ IH]; simpl; [reflexivity | ].
  now rewrite Hb.
Qed.

Lemma consistent_start (settings : Settings) (p : Process) :
  consistent settings p ->
  exists p',
    start_scheduler settings p = Ok p' /\ consistent settings p'.
Proof.
  unfold consistent, start_scheduler, get_scheduler, start.
  destruct p as [objs [[sch flg] | ]]; simpl.
  - destruct flg; simpl.
    + intros H. eexists. split; [reflexivity | exact H].
    + destruct (watchlist_scheduler_enabled settings) eqn:En; simpl.
      * intros H. rewrite update_last. simpl. rewrite update_last. simpl.
        eexists. split; [reflexivity | ]. simpl.
        split; [reflexivity | ]. exists objs. now repeat split.
      * intros H. eexists. split; [reflexivity | exact H].
  - intros ->. simpl.
    destruct (watchlist_scheduler_enabled settings) eqn:En; simpl.
    + eexists. split; [reflexivity | ]. simpl.
      split; [reflexivity | ]. exists []. now repeat split.
    + eexists. split; [reflexivity | ]. simpl. constructor.
Qed.

Lemma consistent_stop (settings : Settings) (p : Process) :
  consistent settings p ->
  exists p', stop_scheduler p = Ok p' /\ consistent settings p'.
Proof.
  unfold consistent, stop_scheduler, stop.
  destruct p as [objs [[sch flg] | ]]; simpl.
  - destruct flg; simpl.
    + intros [En [old [-> [-> Hold]]]]. rewrite update_last. simpl.
      eexists. split; [reflexivity | ]. simpl.
      apply Forall_app. split; [exact Hold | ].
      constructor; [reflexivity | constructor].
    + intros H. destruct sch; simpl; eexists; (split; [reflexivity | exact H]).
  - intros ->. eexists. split; reflexivity.
Qed.

Lemma consistent_run (settings : Settings) (calls : list Call) (p : Process) :
  consistent settings p ->
  exists p', run settings calls p = Ok p' /\ consistent settings p'.
Proof.
  revert p. induction calls as [ | [ | ] rest IH]; intros p H; simpl.
  - now exists p.
  - destruct (@consistent_start settings p H) as [p1 [-> H1]]. simpl. now apply IH.
  - destruct (@consistent_stop settings p H) as [p1 [-> H1]]. simpl. now apply IH.
Qed.

(** Whatever sequence of [start_scheduler] and [stop_scheduler] calls
    the process makes, none raises, and afterwards the background
    schedulers that are running are: the single one holding the job
    [check_watchlists] at the configured interval when the instance says
    it is running, and none otherwise.  It only ever runs when the
    configuration enables it. *)
Theorem scheduler_lifecycle (settings : Settings) (calls : list Call) :
  exists p,
    run settings calls boot = Ok p
    /\ live p
       = (if flag p
          then [{| jobs :=
                     [("check_watchlists",
                       watchlist_scheduler_interval_minutes settings)];
                   running := true |}]
          else [])
    /\ (flag p = true -> watchlist_scheduler_enabled settings = true).
Proof.
  destruct (@consistent_run settings calls boot eq_refl) as [p [Hrun H]].
  exists p. split; [exact Hrun | ].
  unfold consistent in H. unfold live, flag.
  destruct (_scheduler_instance p) as [[sch flg] | ]; simpl in *.
  - destruct flg.
    + destruct H as [En [old [-> [_ Hold]]]].
      rewrite filter_app, (filter_stopped Hold). simpl.
      now split.
    + split; [now apply filter_stopped | discriminate].
  - rewrite H. split; [reflexivity | discriminate].
Qed.

(** Two starts, a stop and a start: two schedulers were created, the
    second one runs. *)
Example lifecycle_restart :
  run {| watchlist_scheduler_enabled := true;
         watchlist_scheduler_interval_minutes := 30 |}
    [CallStart; CallStart; CallStop; CallStop; CallStart] boot
  = Ok {| objects :=
            [{| jobs := [("check_watchlists", 30)]; running := false |};
             {| jobs := [("check_watchlists", 30)]; running := true |}];
          _scheduler_instance :=
            Some {| scheduler := Some 1%nat; is_running := true |} |}.
Proof. reflexivity. Qed.

End Lifecycle.

(** ** Manual checks *)

Module ManualChecks.

Import Trace.
Import Frame.
Import WatchlistService.
Import Sample.
Import Fixtures.

Lemma contains_In (user_id : string) (l : list json) :
  contains user_id l = true <-> In (JStr user_id) l.
Proof.
  unfold contains. rewrite existsb_exists. split.
  - intros [x [Hin Hx]]. destruct x; try discriminate.
    apply String.eqb_eq in Hx. now subst.
  - intros Hin. exists (JStr user_id). split; [exact Hin | ].
    apply String.eqb_refl.
Qed.

Lemma nonempty_contains (user_id : string) (l : list json) :
  (Py.nonempty l && contains user_id l)%bool = true
  <-> In (JStr user_id) l.
Proof.
  destruct l as [ | j l]; [simpl; split; [discriminate | tauto] | ].
  change (Py.nonempty (j :: l)) with true. rewrite andb_true_l.
  apply contains_In.
Qed.

Lemma shared_with_list (env : Env) (column : option json)
  (user_id : string) :
  shared_with env column user_id = true
  <-> In (JStr user_id) (shared_list env column).
Proof.
  unfold shared_with, shared_list.
  destruct column as [[ | b | n | f | text | l | d] | ];
    try (simpl; split; [discriminate | tauto]).
  - destruct (json_loads env text) as [[ | b | n | f | s | l | d] | ];
      try (simpl; split; [discriminate | tauto]).
    apply nonempty_contains.
  - apply nonempty_contains.
Qed.

Lemma has_access_granted (env : Env) (dir : Directory)
  (watchlist : AssetWatchlist) (user_id : string) :
  has_access env dir watchlist user_id = true
  <-> granted env dir watchlist user_id.
Proof.
  unfold has_access, granted.
  destruct (String.eqb_spec (wl_user_id watchlist) user_id) as [Ho | Ho].
  - split; [now left | reflexivity].
  - destruct (find (fun u => String.eqb (usr_id u) user_id) (users dir))
      as [user | ].
    + destruct (usr_role user) eqn:Er.
      * split; [intros _; right; exists user; now repeat split; left
               | reflexivity].
      * split; [discriminate | ].
        intros [H | [u [Hu [H | [H _]]]]]; try contradiction;
          injection Hu as <-; congruence.
      * rewrite shared_with_list. split.
        -- intros H. right. exists user. split; [reflexivity | ].
           right. now split.
        -- intros [H | [u [Hu [H | [_ H]]]]]; try contradiction;
             injection Hu as <-; [congruence | exact H].
    + split; [discriminate | ].
      intros [H | [u [Hu _]]]; [contradiction | discriminate].
Qed.

(** The two access checks of the service take the same decision. *)
Lemma check_item_access (env : Env) (dir : Directory) (id user_id : string)
  (w : World) (item : AssetWatchlistItem) (watchlist : AssetWatchlist) :
  find (fun i => String.eqb (item_id i) id) (w_items w) = Some item ->
  find (fun l => String.eqb (wl_id l) (item_watchlist_id item))
    (w_watchlists w) = Some watchlist ->
  check_watchlist_item env dir id user_id w
  = if has_access env dir watchlist user_id
    then check_granted env item watchlist user_id w
    else (Ok None, w).
Proof.
  intros Hi Hw. unfold check_watchlist_item, has_access. rewrite Hi, Hw.
  destruct (String.eqb (wl_user_id watchlist) user_id); [reflexivity | ].
  destruct (find (fun u => String.eqb (usr_id u) user_id) (users dir))
    as [user | ]; [ | reflexivity].
  destruct (usr_role user); reflexivity.
Qed.

(** A granted check: one orchestrator call on behalf of the caller, with
    every active credential, and the HTTP requests of that call. *)
Lemma step_check_granted (env : Env) (item : AssetWatchlistItem)
  (watchlist : AssetWatchlist) (user_id : string) (w : World) :
  exists evs,
    step w (snd (check_granted env item watchlist user_id w))
      (EvQueryIOC user_id (Spec.request_for item) false :: evs)
    /\ http_only evs.
Proof.
  unfold check_granted. fold (Spec.request_for item).
  destruct (step_query_ioc env user_id (Spec.request_for item) false w)
    as [evs [Hq Hh]].
  destruct (IOCService.query_ioc env user_id (Spec.request_for item) false w)
    as [ioc_response w1].
  simpl in Hq. exists evs. split; [ | exact Hh].
  apply (step_silent_r Hq). unfold fresh_uuid. cbv beta iota zeta.
  match goal with
  | |- context [Session.flush env ?w4] =>
      pose proof (silent_flush env w4) as Hf;
      assert (H4 : silent w1 w4)
        by exact (silent_trans (silent_add _ w1)
                    (silent_trans (silent_set_uuids _ _) (silent_add _ _)));
      destruct (Session.flush env w4) as [[u | ex] w5]
  end; simpl in Hf; [ | exact (silent_trans H4 Hf)].
  apply (silent_trans (silent_trans H4 Hf)).
  match goal with
  | |- context [if ?b then _ else _] => destruct b
  end.
  - match goal with
    | |- context [WatchlistScheduler.create_alert ?e ?u ?wl ?i ?s ?o w5] =>
        pose proof (SchedulerTrace.silent_create_alert e u wl i s o w5)
          as Ha;
        destruct (WatchlistScheduler.create_alert e u wl i s o w5)
          as [[u3 | ex3] w6]
    end; simpl in Ha; [ | exact Ha].
    apply (silent_trans Ha).
    pose proof (silent_commit env w6) as Hc.
    destruct (Session.commit env w6) as [[u4 | ex4] w7]; exact Hc.
  - pose proof (silent_commit env w5) as Hc.
    destruct (Session.commit env w5) as [[u4 | ex4] w7]; exact Hc.
Qed.

(** Who can run a manual check.  The owner of the watchlist, an
    administrator and a viewer the watchlist is shared with get the
    check: one query on behalf of the caller, not restricted to the
    automatic credentials.  Anyone else, an analyst who is not the
    owner included, gets [None] and nothing happens: no request, no row,
    no change of the caches. *)
Theorem manual_check_access (env : Env) (dir : Directory)
  (id user_id : string) (w : World) (item : AssetWatchlistItem)
  (watchlist : AssetWatchlist) :
  find (fun i => String.eqb (item_id i) id) (w_items w) = Some item ->
  find (fun l => String.eqb (wl_id l) (item_watchlist_id item))
    (w_watchlists w) = Some watchlist ->
  let r := check_watchlist_item env dir id user_id w in
  (granted env dir watchlist user_id ->
   orchestrator_calls (events_since w (snd r))
   = [(user_id, Spec.request_for item, false)]
   /\ checked_items (events_since w (snd r)) = [])
  /\ (~ granted env dir watchlist user_id -> r = (Ok None, w)).
Proof.
  intros Hi Hw. cbv zeta. rewrite (check_item_access env dir id user_id w Hi Hw).
  pose proof (has_access_granted env dir watchlist user_id) as Hg.
  destruct (has_access env dir watchlist user_id).
  - split; [intros _ | intros Hn; elim Hn; now apply Hg].
    destruct (step_check_granted env item watchlist user_id w)
      as [evs [Hs [Hc Ho]]].
    rewrite (step_events Hs). simpl. now rewrite Hc, Ho.
  - split; [ | reflexivity].
    intros H. apply Hg in H. discriminate.
Qed.

(** The shared viewer is served; the analyst next door is not. *)
Lemma manual_check_access_witness :
  let env := env_scoring (JFloat Float64.f0_9) no_faults in
  let item := item_checked_at "item-1" "wl-1" None in
  let watchlist := watchlist_with "wl-1" 60 in
  let r := check_watchlist_item env staff "item-1" "user-3" alert_world in
  (find (fun i => String.eqb (item_id i) "item-1") (w_items alert_world)
   = Some item
   /\ find (fun l => String.eqb (wl_id l) (item_watchlist_id item))
        (w_watchlists alert_world) = Some watchlist)
  /\ fst (check_watchlist_item env staff "item-1" "user-2" alert_world)
     = Ok None
  /\ orchestrator_calls (events_since alert_world (snd r))
     = [("user-3", Spec.request_for item, false)]
  /\ ((granted env staff watchlist "user-3" ->
       orchestrator_calls (events_since alert_world (snd r))
       = [("user-3", Spec.request_for item, false)]
       /\ checked_items (events_since alert_world (snd r)) = [])
      /\ (~ granted env staff watchlist "user-3" ->
          r = (Ok None, alert_world))).
Proof.
  cbv zeta. split; [split; reflexivity | ]. split; [reflexivity | ].
  split; [reflexivity | ].
  apply (@manual_check_access
           (env_scoring (JFloat Float64.f0_9) no_faults) staff "item-1"
           "user-3" alert_world); reflexivity.
Defined.

Lemma policy_same (threshold : option RiskThreshold)
  (verdict : option string) :
  _should_trigger_alert threshold verdict
  = WatchlistScheduler._should_trigger_alert threshold verdict.
Proof.
  destruct threshold as [[ | | | ] | ], verdict as [v | ]; reflexivity.
Qed.

(** The rows of a granted check on a database that accepts every
    write. *)
Lemma check_granted_rows (env : Env) (item : AssetWatchlistItem)
  (watchlist : AssetWatchlist) (user_id : string) (w : World) :
  (forall n, db_fault env n = false) ->
  Spec.title_fits item = true ->
  let verdict :=
    overall_risk
      (fst (IOCService.query_ioc env user_id (Spec.request_for item) false
              w)) in
  let triggered :=
    _should_trigger_alert (item_risk_threshold item) verdict in
  exists answer w' rows,
    check_granted env item watchlist user_id w = (Ok (Some answer), w')
    /\ c_item_id answer = item_id item
    /\ c_risk_score answer = verdict
    /\ c_status answer = _convert_risk_to_status verdict
    /\ c_alert_triggered answer = triggered
    /\ appends w w' rows
    /\ map h_alert_triggered (check_history rows) = [triggered]
    /\ map (fun a => (a_user_id a, a_severity a)) (alerts rows)
       = if (triggered && wl_notification_enabled watchlist)%bool
         then [(user_id, WatchlistScheduler.alert_severity verdict)]
         else [].
Proof.
  intros no_fault Hfit. cbv zeta. unfold check_granted.
  fold (Spec.request_for item).
  pose proof (Rows.adds_plain_query_ioc env no_fault user_id
                (Spec.request_for item) false w) as Hq.
  destruct (IOCService.query_ioc env user_id (Spec.request_for item) false w)
    as [ioc_response w1].
  simpl fst. simpl snd in Hq. unfold fresh_uuid. cbv beta iota zeta.
  destruct Hq as [rq [Aq [Pa Ph]]].
  match goal with
  | |- context [Session.flush env (Session.add (RCheckHistory ?h) ?w3)] =>
      pose proof (Rows.appends_flush env (Session.add (RCheckHistory h) w3))
        as Hf;
      pose proof (Rows.flush_ok env no_fault (Session.add (RCheckHistory h) w3))
        as Ho;
      pose proof (Rows.appends_add (RCheckHistory h) w3) as Ha3;
      assert (A3 : appends w1 w3
                     [RItemUpdate (item_id item) (w_now w1)
                        (overall_risk ioc_response)
                        (_convert_risk_to_status
                           (overall_risk ioc_response))])
        by (apply (Rows.appends_add _ w1));
      destruct (Session.flush env (Session.add (RCheckHistory h) w3))
        as [[u | ex] w4]
  end; simpl in Hf, Ho; [ | discriminate].
  pose proof (Rows.appends_trans Aq
                (Rows.appends_trans A3 (Rows.appends_trans Ha3 Hf))) as A4.
  cbn [h_alert_triggered].
  destruct (_should_trigger_alert (item_risk_threshold item)
              (overall_risk ioc_response)) eqn:Et;
    destruct (wl_notification_enabled watchlist) eqn:En; simpl andb;
    cbv iota.
  - unfold WatchlistScheduler.create_alert.
    rewrite Rows.validate_title, Hfit.
    unfold fresh_uuid. cbv beta iota zeta.
    match goal with
    | |- context [Session.commit env (Session.add (RAlert ?a) ?w5)] =>
        pose proof (Rows.appends_commit env (Session.add (RAlert a) w5))
          as Hc;
        pose proof (Rows.commit_ok env no_fault (Session.add (RAlert a) w5))
          as Hco;
        pose proof (Rows.appends_add (RAlert a) w5) as Ha5;
        assert (E5 : all_rows w5 = all_rows w4) by reflexivity;
        destruct (Session.commit env (Session.add (RAlert a) w5))
          as [[u5 | ex5] w6]
    end; simpl in Hc, Hco; [ | discriminate].
    pose proof (Rows.appends_commit env w6) as Hc2.
    pose proof (Rows.commit_ok env no_fault w6) as Hco2.
    destruct (Session.commit env w6) as [[u7 | ex7] w7];
      simpl in Hc2, Hco2; [ | discriminate].
    eexists. eexists. eexists. split; [reflexivity | ].
    repeat (split; [reflexivity | ]).
    split.
    + exact (Rows.appends_trans A4
               (Rows.appends_trans (@Rows.appends_same _ _ E5)
                  (Rows.appends_trans Ha5 (Rows.appends_trans Hc Hc2)))).
    + unfold alerts, check_history in *. rewrite !flat_map_app.
      rewrite Pa, Ph. simpl. split; reflexivity.
  - pose proof (Rows.appends_commit env w4) as Hc2.
    pose proof (Rows.commit_ok env no_fault w4) as Hco2.
    destruct (Session.commit env w4) as [[u7 | ex7] w7];
      simpl in Hc2, Hco2; [ | discriminate].
    eexists. eexists. eexists. split; [reflexivity | ].
    repeat (split; [reflexivity | ]).
    split.
    + exact (Rows.appends_trans A4 Hc2).
    + unfold alerts, check_history in *. rewrite !flat_map_app.
      rewrite Pa, Ph. simpl. split; reflexivity.
  - pose proof (Rows.appends_commit env w4) as Hc2.
    pose proof (Rows.commit_ok env no_fault w4) as Hco2.
    destruct (Session.commit env w4) as [[u7 | ex7] w7];
      simpl in Hc2, Hco2; [ | discriminate].
    eexists. eexists. eexists. split; [reflexivity | ].
    repeat (split; [reflexivity | ]).
    split.
    + exact (Rows.appends_trans A4 Hc2).
    + unfold alerts, check_history in *. rewrite !flat_map_app.
      rewrite Pa, Ph. simpl. split; reflexivity.
  - pose proof (Rows.appends_commit env w4) as Hc2.
    pose proof (Rows.commit_ok env no_fault w4) as Hco2.
    destruct (Session.commit env w4) as [[u7 | ex7] w7];
      simpl in Hc2, Hco2; [ | discriminate].
    eexists. eexists. eexists. split; [reflexivity | ].
    repeat (split; [reflexivity | ]).
    split.
    + exact (Rows.appends_trans A4 Hc2).
    + unfold alerts, check_history in *. rewrite !flat_map_app.
      rewrite Pa, Ph. simpl. split; reflexivity.
Qed.



Lemma find_unique {A} (f : A -> string) (l : list A) (x : A) :
  NoDup (map f l) -> In x l ->
  find (fun y => String.eqb (f y) (f x)) l = Some x.
Proof.
  induction l as [ | a l IH]; simpl; intros Hnd Hin; [contradiction | ].
  inversion Hnd as [ | ? ? Hna Hnd']; subst.
  destruct Hin as [-> | Hin].
  - now rewrite String.eqb_refl.
  - destruct (String.eqb_spec (f a) (f x)) as [E | E].
    + elim Hna. rewrite E. now apply in_map.
    + now apply IH.
Qed.

Lemma step_check_item_manual (env : Env) (dir : Directory)
  (id user_id : string) (w : World) :
  exists evs,
    step w (snd (check_watchlist_item env dir id user_id w)) evs.
Proof.
  unfold check_watchlist_item.
  destruct (find _ (w_items w)) as [item | ];
    [ | exists []; apply step_refl].
  destruct (find _ (w_watchlists w)) as [watchlist | ];
    [ | exists []; apply step_refl].
  destruct (step_check_granted env item watchlist user_id w)
    as [evs [Hs _]].
  destruct (String.eqb (wl_user_id watchlist) user_id); [eauto | ].
  destruct (find _ (users dir)) as [user | ];
    [ | exists []; apply step_refl].
  destruct (usr_role user); [eauto | exists []; apply step_refl | ].
  destruct (shared_with env _ user_id); [eauto | exists []; apply step_refl].
Qed.

(** The loop of [check_watchlist] over items of an accessible
    watchlist. *)
Lemma check_each_all (env : Env) (dir : Directory) (user_id : string)
  (watchlist : AssetWatchlist) (w0 : World) :
  (forall n, db_fault env n = false) ->
  NoDup (map item_id (w_items w0)) ->
  find (fun l => String.eqb (wl_id l) (wl_id watchlist)) (w_watchlists w0)
  = Some watchlist ->
  has_access env dir watchlist user_id = true ->
  forall (items : list AssetWatchlistItem) (w : World),
    static w = static w0 ->
    (forall i, In i items ->
               In i (w_items w0) /\ item_watchlist_id i = wl_id watchlist) ->
    Forall (fun i => Spec.title_fits i = true) items ->
    exists results w' evs,
      check_each env dir user_id items w = (Ok results, w')
      /\ map c_item_id results = map item_id items
      /\ step w w' evs
      /\ orchestrator_calls evs
         = map (fun i => (user_id, Spec.request_for i, false)) items
      /\ checked_items evs = [].
Proof.
  intros no_fault Hnd Hw Hacc.
  induction items as [ | item rest IH]; intros w Hst Hin Hfits; simpl.
  - exists [], w, []. repeat split; try reflexivity. simpl.
    now rewrite app_nil_r.
  - inversion Hfits as [ | ? ? Hfit Hfits']; subst.
    destruct (Hin item (or_introl eq_refl)) as [Hi Hwl].
    assert (Hitems : w_items w = w_items w0 /\
                     w_watchlists w = w_watchlists w0).
    { unfold static in Hst. injection Hst as _ _ _ H4 H5. now split. }
    destruct Hitems as [Ei Ew].
    assert (Hfi : find (fun i => String.eqb (item_id i) (item_id item))
                    (w_items w) = Some item).
    { rewrite Ei. now apply find_unique. }
    assert (Hfw : find (fun l => String.eqb (wl_id l)
                                   (item_watchlist_id item))
                    (w_watchlists w) = Some watchlist).
    { rewrite Ew, Hwl. exact Hw. }
    rewrite (check_item_access env dir (item_id item) user_id w Hfi Hfw).
    rewrite Hacc.
    destruct (@check_granted_rows env item watchlist user_id w no_fault
                Hfit)
      as [answer [w1 [rows [Hr [Hid _]]]]].
    destruct (step_check_granted env item watchlist user_id w)
      as [evs [Hs [Hc Ho]]].
    rewrite Hr in Hs |- *. simpl in Hs.
    assert (Hst1 : static w1 = static w0).
    { destruct Hs as [_ Hs]. now rewrite Hs. }
    destruct (IH w1 Hst1 (fun i H => Hin i (or_intror H)) Hfits')
      as [results [w2 [evs2 [Hr2 [Hids [Hs2 [Ho2 Hc2]]]]]]].
    rewrite Hr2.
    exists (answer :: results), w2,
      (List.app (EvQueryIOC user_id (Spec.request_for item) false :: evs)
         evs2).
    split; [reflexivity | ].
    split; [simpl; now rewrite Hid, Hids | ].
    split; [exact (step_trans Hs Hs2) | ].
    unfold orchestrator_calls, checked_items in *.
    rewrite !flat_map_app. simpl.
    unfold orchestrator_calls, checked_items in *.
    rewrite Ho, Ho2, Hc, Hc2. now split.
Qed.

(** Checking a whole watchlist by hand, on a database that accepts every
    write, when the active items of the watchlist have ASCII indicator
    types and alert titles within the 255 characters of the alert
    schema.  A caller with access gets every active item of the
    watchlist checked once, in order, each through one query on the
    caller's behalf with every active credential, and one answer per
    item; the per-item access check never drops an item.  A caller
    without access gets the error and nothing happens. *)
Theorem manual_watchlist_check (env : Env) (dir : Directory)
  (watchlist_id user_id : string) (w : World) (watchlist : AssetWatchlist) :
  (forall n, db_fault env n = false) ->
  NoDup (map item_id (w_items w)) ->
  find (fun l => String.eqb (wl_id l) watchlist_id) (w_watchlists w)
  = Some watchlist ->
  let items :=
    filter item_is_active
      (filter (fun i => String.eqb (item_watchlist_id i) watchlist_id)
         (w_items w)) in
  let r := check_watchlist env dir watchlist_id user_id w in
  (granted env dir watchlist user_id ->
   Forall (fun i => Py.isascii (item_ioc_type i) = true
                    /\ Spec.title_fits i = true) items ->
   exists results,
     fst r = Ok (CheckDone watchlist_id (List.length items) results)
     /\ map c_item_id results = map item_id items
     /\ orchestrator_calls (events_since w (snd r))
        = map (fun i => (user_id, Spec.request_for i, false)) items)
  /\ (~ granted env dir watchlist user_id ->
      r = (Ok (CheckError "Watchlist not found or access denied"), w)).
Proof.
  intros no_fault Hnd Hw. cbv zeta. unfold check_watchlist. rewrite Hw.
  pose proof (has_access_granted env dir watchlist user_id) as Hg.
  destruct (has_access env dir watchlist user_id) eqn:Ha; simpl negb;
    cbv iota.
  - split; [intros _ Hfits | intros Hn; elim Hn; now apply Hg].
    assert (Hid : wl_id watchlist = watchlist_id).
    { apply find_some in Hw. destruct Hw as [_ Hw].
      now apply String.eqb_eq in Hw. }
    assert (Hw' : find (fun l => String.eqb (wl_id l) (wl_id watchlist))
                    (w_watchlists w) = Some watchlist)
      by now rewrite Hid.
    set (items :=
           filter item_is_active
             (filter (fun i => String.eqb (item_watchlist_id i) watchlist_id)
                (w_items w))).
    destruct (@check_each_all env dir user_id watchlist w no_fault Hnd Hw' Ha
                items w eq_refl)
      as [results [w' [evs [Hr [Hids [Hs [Ho _]]]]]]].
    { intros i Hin. unfold items in Hin.
      apply filter_In in Hin. destruct Hin as [Hin _].
      apply filter_In in Hin. destruct Hin as [Hin He].
      apply String.eqb_eq in He. split; [exact Hin | congruence]. }
    { eapply Forall_impl; [ | exact Hfits]. intros i [_ H]. exact H. }
    rewrite Hr. simpl. exists results.
    split; [ | split; [exact Hids | now rewrite (step_events Hs)]].
    f_equal. f_equal.
    rewrite <- (length_map c_item_id results), Hids. apply length_map.
  - split; [ | reflexivity].
    intros H. apply Hg in H. discriminate.
Qed.

(** The shared viewer checks the two items of the sample watchlist. *)
Lemma manual_watchlist_check_witness :
  let env := env_scoring (JFloat Float64.f0_9) no_faults in
  let items :=
    filter item_is_active
      (filter (fun i => String.eqb (item_watchlist_id i) "wl-1")
         (w_items quiet_world)) in
  let r := check_watchlist env staff "wl-1" "user-3" quiet_world in
  ((forall n, db_fault env n = false)
   /\ NoDup (map item_id (w_items quiet_world))
   /\ find (fun l => String.eqb (wl_id l) "wl-1") (w_watchlists quiet_world)
      = Some quiet_watchlist
   /\ granted env staff quiet_watchlist "user-3")
  /\ map item_id items = ["item-1"; "item-2"]
  /\ fst (check_watchlist env staff "wl-1" "user-2" quiet_world)
     = Ok (CheckError "Watchlist not found or access denied")
  /\ Forall (fun i => Py.isascii (item_ioc_type i) = true
                       /\ Spec.title_fits i = true) items
  /\ (granted env staff quiet_watchlist "user-3" ->
      Forall (fun i => Py.isascii (item_ioc_type i) = true
                       /\ Spec.title_fits i = true) items ->
      exists results,
        fst r = Ok (CheckDone "wl-1" (List.length items) results)
        /\ map c_item_id results = map item_id items
        /\ orchestrator_calls (events_since quiet_world (snd r))
           = map (fun i => ("user-3", Spec.request_for i, false)) items)
  /\ (~ granted env staff quiet_watchlist "user-3" ->
      r = (Ok (CheckError "Watchlist not found or access denied"),
           quiet_world)).
Proof.
  cbv zeta.
  assert (Hnd : NoDup (map item_id (w_items quiet_world))).
  { simpl. constructor.
    - simpl. intros [H | []]. discriminate.
    - constructor; [intros [] | constructor]. }
  assert (Hg : granted (env_scoring (JFloat Float64.f0_9) no_faults) staff
                 quiet_watchlist "user-3").
  { right. eexists. split; [reflexivity | ].
    right. split; [reflexivity | now left]. }
  split; [repeat split; try reflexivity; assumption | ].
  split; [reflexivity | ]. split; [reflexivity | ].
  split; [repeat constructor | ].
  apply (@manual_watchlist_check
           (env_scoring (JFloat Float64.f0_9) no_faults) staff "wl-1"
           "user-3" quiet_world quiet_watchlist);
    [intros n; reflexivity | exact Hnd | reflexivity].
Defined.

End ManualChecks.
